(** * vibe-deploy-bridge: the deployment orchestration core

    A shallow embedding of the decision logic of the FastAPI backend:
    - [app/services/project_analyzer.py]        (module [ProjectAnalyzer])
    - [app/services/containerization_service.py] (module [Containerization])
    - [app/services/auto_scaling_service.py]    (module [AutoScaling])
    - [app/api/v1/endpoints/scaling.py]         (module [Scaling])
    - [app/api/v1/endpoints/deployment.py]      (module [Deployment])

    Python floats are IEEE binary64 numbers and are modelled by Rocq's
    primitive floats wherever the code computes with them (the detector's
    scores).  What the analyzer reads from package.json and Cargo.toml is
    kept as the parser gives it, a JSON value of any shape, so that the
    exceptions the code raises on a malformed manifest are part of the
    embedding.  Dictionaries whose iteration order matters are association
    lists in insertion order; the deployment store is a finite map from ids
    to object references, with the record objects in a separate heap, so
    that the alias [deployment = deployments[deployment_id]] is an alias.

    The first part of the file is the embedding, one module per source
    file; the second part, from [Properties] on, states and proves what the
    specification says of it, one module per component. *)

From Stdlib Require Import Floats ZArith QArith Qround Qabs Qminmax String Ascii List Bool Lia Lqa.
From stdpp Require Import gmap strings list pretty.

Set Warnings "-inexact-float,-register-all".

(** ** Python values shared by the services *)

Module Py.

Local Open Scope string_scope.

(** The exceptions the modelled code raises or catches ([BotoCoreError]
    stands for the exceptions of botocore that are no [ClientError], such
    as [NoRegionError]).  Every one of them is an instance of Python's
    [Exception], so [except Exception] catches them all. *)
Inductive exn : Type :=
| KeyError (key : string)
| UnboundLocalError (var : string)
| ValueError (msg : string)
| FileNotFoundError (msg : string)
| HTTPException (status_code : nat) (detail : string)
| ClientError (msg : string)
| RuntimeError (msg : string)
| TypeError (msg : string)
| AttributeError (msg : string)
| BotoCoreError (msg : string).

(** A call either returns a value or raises. *)
Inductive result (A : Type) : Type :=
| Return (a : A)
| Raise (e : exn).
Arguments Return {A} a.
Arguments Raise {A} e.

(** The double quote and the apostrophe, for text that contains them. *)
Definition dq : string := String (ascii_of_nat 34) EmptyString.
Definition sq : string := String (ascii_of_nat 39) EmptyString.

(** [str(e)]: a [KeyError] prints the repr of its key, an [HTTPException]
    its status code and detail, the others their message. *)
Definition str_exn (e : exn) : string :=
  match e with
  | KeyError k => sq ++ k ++ sq
  | UnboundLocalError v =>
      "cannot access local variable " ++ sq ++ v ++ sq ++
      " where it is not associated with a value"
  | ValueError m => m
  | FileNotFoundError m => m
  | HTTPException c d => pretty c ++ ": " ++ d
  | ClientError m => m
  | RuntimeError m => m
  | TypeError m => m
  | AttributeError m => m
  | BotoCoreError m => m
  end.

(** [needle in hay] on [str]: [needle] occurs in [hay] as a substring. *)
Fixpoint contains (needle hay : string) : bool :=
  String.prefix needle hay ||
  match hay with
  | EmptyString => false
  | String _ hay' => contains needle hay'
  end.

(** [s.lower()], on the ASCII letters. *)
Definition lower_ascii (c : ascii) : ascii :=
  let n := nat_of_ascii c in
  if (65 <=? n)%nat && (n <=? 90)%nat then ascii_of_nat (n + 32) else c.

Fixpoint lower (s : string) : string :=
  match s with
  | EmptyString => EmptyString
  | String c s' => String (lower_ascii c) (lower s')
  end.

(** A JSON object / [dict] with string keys, in insertion order. *)
Definition dict (V : Type) : Type := list (string * V).

Definition keys {V} (d : dict V) : list string := map fst d.

(** [k in d] *)
Definition has_key {V} (k : string) (d : dict V) : bool :=
  existsb (String.eqb k) (keys d).

(** [d.get(k)] *)
Fixpoint get {V} (d : dict V) (k : string) : option V :=
  match d with
  | [] => None
  | (k', v) :: d' => if String.eqb k k' then Some v else get d' k
  end.

(** [{**a, **b}]: the keys of [a] in their order, with the value [b] gives
    them when it has them, then the keys only [b] has. *)
Definition merge {V} (a b : dict V) : dict V :=
  (map (fun kv => (fst kv, match get b (fst kv) with Some v => v | None => snd kv end)) a
   ++ List.filter (fun kv => negb (has_key (fst kv) a)) b)%list.

(** What [json.load] gives: [None], a [bool], an [int], a [float], a
    [str], a [list], or a [dict] whose keys are [str].  The values
    [yaml.safe_load] gives are modelled by the same type. *)
Inductive json : Type :=
| JNull
| JBool (b : bool)
| JInt (n : Z)
| JFloat (x : float)
| JStr (s : string)
| JList (items : list json)
| JObject (members : list (string * json)).

(** [type(v).__name__] *)
Definition type_name (v : json) : string :=
  match v with
  | JNull => "NoneType"
  | JBool _ => "bool"
  | JInt _ => "int"
  | JFloat _ => "float"
  | JStr _ => "str"
  | JList _ => "list"
  | JObject _ => "dict"
  end.

(** [**v] in a dict display [{**v, ...}]: the members of a mapping;
    [TypeError] for a value that is no mapping. *)
Definition unpack (v : json) : result (dict json) :=
  match v with
  | JObject members => Return members
  | _ => Raise (TypeError (sq ++ type_name v ++ sq ++ " object is not a mapping"))
  end.

(** [x in v] for a [str] [x]: [x] is a key of a [dict], is equal to an item
    of a [list], or occurs in a [str]; [TypeError] for a value that is no
    container. *)
Definition str_in (x : string) (v : json) : result bool :=
  match v with
  | JObject members => Return (has_key x members)
  | JList items =>
      Return (existsb (fun item => match item with
                                   | JStr s => String.eqb x s
                                   | _ => false
                                   end) items)
  | JStr s => Return (contains x s)
  | _ => Raise (TypeError ("argument of type " ++ sq ++ type_name v ++ sq ++
                           " is not iterable"))
  end.

(** [list(v.keys())]: [AttributeError] unless [v] is a [dict]. *)
Definition keys_of (v : json) : result (list string) :=
  match v with
  | JObject members => Return (keys members)
  | _ => Raise (AttributeError (sq ++ type_name v ++ sq ++ " object has no attribute " ++
                                sq ++ "keys" ++ sq))
  end.

(** An optional string under [if]: [None] and the empty string are false. *)
Definition truthy (o : option string) : option string :=
  match o with
  | Some EmptyString => None
  | _ => o
  end.

(** [sum(1 for x in l if p(x))] *)
Definition count {A} (p : A -> bool) (l : list A) : nat :=
  length (List.filter p l).

(** [sum(1 for x in l if p(x))] where the test may raise: the sum stops at
    the first element whose test raises, with that exception. *)
Fixpoint count_result {A} (p : A -> result bool) (l : list A) : result nat :=
  match l with
  | [] => Return 0%nat
  | x :: l' =>
      match p x with
      | Raise e => Raise e
      | Return b =>
          match count_result p l' with
          | Raise e => Raise e
          | Return n => Return (if b then S n else n)
          end
      end
  end.

(** [int] to [float], as the true division [a / b] of two ints converts
    its operands (exact below 2^53). *)
Definition float_of_nat (n : nat) : float :=
  PrimFloat.of_uint63 (Uint63.of_Z (Z.of_nat n)).

(** [a < b] on numbers. *)
Definition Qlt_bool (a b : Q) : bool := negb (Qle_bool b a).

(** Rounding to the nearest integer, ties to even: how [format] rounds the
    exact value of a number to the digits it prints. *)
Definition round_half_even (q : Q) : Z :=
  let f := Qfloor q in
  let d := (q - inject_Z f)%Q in
  if Qlt_bool d (1 # 2) then f
  else if Qlt_bool (1 # 2) d then (f + 1)%Z
  else if Z.even f then f else (f + 1)%Z.

(** The decimal digits of [n], padded with zeros on the left to [width]. *)
Fixpoint zero_pad (width : nat) (n : Z) : string :=
  match width with
  | O => EmptyString
  | S width' => zero_pad width' (n / 10) ++ pretty (n mod 10)%Z
  end.

(** [f"{x:.<digits>f}"] of a finite number: the sign of [x], then its
    absolute value rounded to [digits] decimals. *)
Definition format_fixed (digits : nat) (x : Q) : string :=
  let scale := (10 ^ Z.of_nat digits)%Z in
  let scaled := round_half_even (Qabs x * inject_Z scale) in
  (if Qlt_bool x 0 then "-" else EmptyString) ++
  pretty (scaled / scale)%Z ++ "." ++ zero_pad digits (scaled mod scale).

(** The rational a finite [float] denotes. *)
Definition Q_of_float (f : float) : option Q :=
  match Prim2SF f with
  | S754_zero _ => Some 0%Q
  | S754_finite sign m e =>
      Some ((if sign then -1 else 1) * inject_Z (Z.pos m) * Qpower 2 e)%Q
  | S754_infinity _ => None
  | S754_nan => None
  end.

(** [f"{x:.2f}"] of a [float]. *)
Definition format_2f (x : float) : string :=
  match Q_of_float x with
  | Some q => format_fixed 2 q
  | None =>
      if PrimFloat.is_nan x then "nan"
      else if (x <? 0)%float then "-inf" else "inf"
  end.

End Py.

(** ** app/schemas/base.py and app/services/project_analyzer.py *)

Module ProjectAnalyzer.
Import Py.

Local Open Scope string_scope.

(** [class ProjectType(str, Enum)] *)
Inductive ProjectType : Type :=
| REACT | VUE | ANGULAR | NEXTJS | NUXT | SVELTE | VITE | WEBPACK
| DOCUSAURUS | PYTHON | JAVA | GO | RUST | PHP | STATIC | UNKNOWN.

(** [project_type.value] *)
Definition value (t : ProjectType) : string :=
  match t with
  | REACT => "react" | VUE => "vue" | ANGULAR => "angular"
  | NEXTJS => "nextjs" | NUXT => "nuxt" | SVELTE => "svelte"
  | VITE => "vite" | WEBPACK => "webpack" | DOCUSAURUS => "docusaurus"
  | PYTHON => "python" | JAVA => "java" | GO => "go" | RUST => "rust"
  | PHP => "php" | STATIC => "static" | UNKNOWN => "unknown"
  end.

Definition all_project_types : list ProjectType :=
  [REACT; VUE; ANGULAR; NEXTJS; NUXT; SVELTE; VITE; WEBPACK;
   DOCUSAURUS; PYTHON; JAVA; GO; RUST; PHP; STATIC; UNKNOWN].

(** [ProjectType(s)]: the member whose value is [s]; [ValueError] when
    there is none. *)
Definition ProjectType_of (s : string) : result ProjectType :=
  match List.find (fun t => String.eqb (value t) s) all_project_types with
  | Some t => Return t
  | None => Raise (ValueError (sq ++ s ++ sq ++ " is not a valid ProjectType"))
  end.

(** One row of [self.project_indicators]. *)
Record Indicators : Type := {
  files : list string;
  keywords : list string;
  scripts : list string;
  base_image : string;
  port : Z
}.

(** [self.project_indicators], in the order [__init__] writes it (the order
    a [dict] iterates in). *)
Definition project_indicators : dict Indicators :=
  [ ("react",
     {| files := ["package.json"; "src/App.js"; "src/App.jsx"; "src/index.js"];
        keywords := ["react"; "react-dom"];
        scripts := ["start"; "build"];
        base_image := "node:18-alpine"; port := 3000 |});
    ("vue",
     {| files := ["package.json"; "src/App.vue"; "src/main.js"];
        keywords := ["vue"; "@vue/cli"];
        scripts := ["serve"; "build"];
        base_image := "node:18-alpine"; port := 8080 |});
    ("angular",
     {| files := ["package.json"; "src/app/app.component.ts"; "angular.json"];
        keywords := ["@angular/core"; "@angular/cli"];
        scripts := ["start"; "build"];
        base_image := "node:18-alpine"; port := 4200 |});
    ("nextjs",
     {| files := ["package.json"; "next.config.js"; "pages/"; "app/"];
        keywords := ["next"; "react"];
        scripts := ["dev"; "build"; "start"];
        base_image := "node:18-alpine"; port := 3000 |});
    ("nuxt",
     {| files := ["package.json"; "nuxt.config.js"; "pages/"];
        keywords := ["nuxt"; "vue"];
        scripts := ["dev"; "build"; "start"];
        base_image := "node:18-alpine"; port := 3000 |});
    ("svelte",
     {| files := ["package.json"; "src/App.svelte"; "svelte.config.js"];
        keywords := ["svelte"; "sveltekit"];
        scripts := ["dev"; "build"];
        base_image := "node:18-alpine"; port := 5173 |});
    ("python",
     {| files := ["requirements.txt"; "main.py"; "app.py"; "manage.py"];
        keywords := ["flask"; "django"; "fastapi"; "streamlit"];
        scripts := [];
        base_image := "python:3.11-slim"; port := 8000 |});
    ("java",
     {| files := ["pom.xml"; "build.gradle"; "src/main/java/"];
        keywords := ["spring"; "maven"; "gradle"];
        scripts := [];
        base_image := "openjdk:17-jre-slim"; port := 8080 |});
    ("go",
     {| files := ["go.mod"; "main.go"; "go.sum"];
        keywords := ["gin"; "echo"; "fiber"];
        scripts := [];
        base_image := "golang:1.21-alpine"; port := 8080 |});
    ("rust",
     {| files := ["Cargo.toml"; "src/main.rs"];
        keywords := ["actix"; "warp"; "rocket"];
        scripts := [];
        base_image := "rust:1.75-slim"; port := 8080 |});
    ("php",
     {| files := ["composer.json"; "index.php"; "public/"];
        keywords := ["laravel"; "symfony"; "wordpress"];
        scripts := [];
        base_image := "php:8.2-fpm-alpine"; port := 80 |});
    ("static",
     {| files := ["index.html"; "css/"; "js/"; "assets/"];
        keywords := [];
        scripts := [];
        base_image := "nginx:alpine"; port := 80 |}) ].

(** What [_read_config_files] collects and the detector reads, each entry
    absent when there is no package.json that parses to an object:
    [version], [scripts], [dependencies] and [devDependencies] are what
    [package_data.get] gives for them, any JSON value ([{}] for the last
    three when package.json does not have them); [package_manager] is the
    text the code writes. *)
Record ConfigData : Type := {
  cfg_version : option json;
  cfg_package_manager : option string;
  cfg_scripts : option json;
  cfg_dependencies : option json;
  cfg_devDependencies : option json
}.

(** [config_data.get(key, {})] *)
Definition get_dict (o : option json) : json :=
  match o with Some v => v | None => JObject [] end.

(** The three counts of one catalog row:
    [file_matches], [keyword_matches], [script_matches]. *)
Definition file_matches (ind : Indicators) (fs : list string) : nat :=
  count (fun file => existsb (fun f => contains file f) fs) (files ind).

(** [all_deps = {**dependencies, **dev_dependencies}] *)
Definition merged_dependencies (config_data : ConfigData) : result (dict json) :=
  let dependencies := get_dict (cfg_dependencies config_data) in
  let dev_dependencies := get_dict (cfg_devDependencies config_data) in
  match unpack dependencies with
  | Raise e => Raise e
  | Return dependencies =>
      match unpack dev_dependencies with
      | Raise e => Raise e
      | Return dev_dependencies => Return (merge dependencies dev_dependencies)
      end
  end.

Definition keyword_matches (ind : Indicators) (all_deps : dict json) : nat :=
  count (fun keyword => existsb (fun dep => contains keyword (lower dep)) (keys all_deps))
        (keywords ind).

Definition script_matches (ind : Indicators) (scripts_ : json) : result nat :=
  count_result (fun script => str_in script scripts_) (scripts ind).

(** The score of a row from its counts: each [if matches > 0] adds
    [(matches / len(...)) * weight] to [score], which starts at [0.0]. *)
Definition score_of_counts (ind : Indicators) (fm km sm : nat) : float :=
  let score := 0%float in
  let score :=
    if (0 <? fm)%nat
    then (score + (float_of_nat fm / float_of_nat (length (files ind))) * 0.4)%float
    else score in
  let score :=
    if (0 <? km)%nat
    then (score + (float_of_nat km / float_of_nat (length (keywords ind))) * 0.4)%float
    else score in
  let score :=
    if (0 <? sm)%nat
    then (score + (float_of_nat sm / float_of_nat (length (scripts ind))) * 0.2)%float
    else score in
  score.

(** The body of the loop over [self.project_indicators.items()]: the score
    of the row, or the [TypeError] of [{**dependencies, **dev_dependencies}]
    or of [script in scripts]. *)
Definition type_score (ind : Indicators) (fs : list string) (config_data : ConfigData)
  : result float :=
  let fm := file_matches ind fs in
  match merged_dependencies config_data with
  | Raise e => Raise e
  | Return all_deps =>
      let km := keyword_matches ind all_deps in
      match script_matches ind (get_dict (cfg_scripts config_data)) with
      | Raise e => Raise e
      | Return sm => Return (score_of_counts ind fm km sm)
      end
  end.

(** The loop over the rows: the [scores] dict when every body returns, the
    exception of the first body that raises otherwise. *)
Fixpoint scores_of (rows : dict Indicators) (fs : list string) (config_data : ConfigData)
  : result (dict float) :=
  match rows with
  | [] => Return []
  | (project_type, indicators) :: rows' =>
      match type_score indicators fs config_data with
      | Raise e => Raise e
      | Return score =>
          match scores_of rows' fs config_data with
          | Raise e => Raise e
          | Return scores => Return ((project_type, score) :: scores)
          end
      end
  end.

(** The [scores] dict after the loop. *)
Definition all_scores (fs : list string) (config_data : ConfigData) : result (dict float) :=
  scores_of project_indicators fs config_data.

(** [max(scores, key=scores.get)]: the first key whose score no later one
    exceeds ([max] replaces its candidate only by a strictly greater one). *)
Fixpoint max_from (best : string * float) (rest : dict float) : string * float :=
  match rest with
  | [] => best
  | kv :: rest' =>
      if (snd best <? snd kv)%float then max_from kv rest' else max_from best rest'
  end.

Definition max_by_score (scores : dict float) : result (string * float) :=
  match scores with
  | [] => Raise (ValueError "max() arg is an empty sequence")
  | kv :: rest => Return (max_from kv rest)
  end.

(** [_detect_project_type(files, config_data)] *)
Definition _detect_project_type (fs : list string) (config_data : ConfigData)
  : result (ProjectType * float) :=
  match all_scores fs config_data with
  | Raise e => Raise e
  | Return scores =>
      match max_by_score scores with
      | Raise e => Raise e
      | Return (best_type, confidence) =>
          if (confidence <? 0.3)%float then Return (STATIC, 0.3%float)
          else match ProjectType_of best_type with
               | Raise e => Raise e
               | Return t => Return (t, confidence)
               end
      end
  end.

(** [_determine_dockerfile_strategy(project_type, config_data)] *)
Definition _determine_dockerfile_strategy (project_type : ProjectType) : string :=
  match project_type with
  | REACT | VUE | ANGULAR => "multi-stage-build"
  | NEXTJS | NUXT => "nextjs-optimized"
  | PYTHON => "python-optimized"
  | JAVA => "java-optimized"
  | GO => "go-optimized"
  | RUST => "rust-optimized"
  | _ => "simple"
  end.

(** [@dataclass class ProjectAnalysis].  The fields are not validated:
    [framework_version], annotated [Optional[str]], holds what
    [analyze_project] finds under [version] in package.json, any JSON
    value, [None] when there is none. *)
Record ProjectAnalysis : Type := {
  project_type : ProjectType;
  framework_version : json;
  package_manager : string;
  build_command : option string;
  output_dir : option string;
  dependencies : list string;
  environment_vars : dict string;
  pa_port : Z;
  health_check : option (dict string);
  dockerfile_strategy : string;
  pa_base_image : string;
  confidence_score : float
}.

(** *** The analysis of a project directory *)

(** What [_read_config_files] returns: the entries the detector reads
    ([config_data]), the lines of requirements.txt
    ([python_dependencies]) and what [yaml.safe_load] of Cargo.toml has
    under [dependencies] ([rust_dependencies]: any value, [{}] when the
    document is a mapping without that key), each absent when its file is
    or when reading it failed. *)
Record ConfigFiles : Type := {
  config_data : ConfigData;
  python_dependencies : option (list string);
  rust_dependencies : option json
}.

(** The file system an analysis reads, by what the calls answer:
    [os.path.exists(path)], the paths [_read_project_files] collects with
    [os.walk], the dictionary [_read_config_files] builds from the files it
    parses, and [os.listdir(path)], which may raise. *)
Record Disk : Type := {
  path_exists : string -> bool;
  _read_project_files : string -> list string;
  _read_config_files : string -> ConfigFiles;
  listdir : string -> result (list string)
}.

(** [project_type in [REACT, VUE, ANGULAR, NEXTJS, NUXT, SVELTE]] *)
Definition is_frontend (project_type : ProjectType) : bool :=
  match project_type with
  | REACT | VUE | ANGULAR | NEXTJS | NUXT | SVELTE => true
  | _ => false
  end.

(** [_determine_build_strategy(project_path, project_type, config_data)]:
    the build command and the output directory. *)
Definition _determine_build_strategy (disk : Disk) (project_path : string)
    (project_type : ProjectType) (config : ConfigFiles)
  : result (option string * option string) :=
  let scripts := get_dict (cfg_scripts (config_data config)) in
  if is_frontend project_type then
    match str_in "build" scripts with
    | Raise e => Raise e
    | Return has_build =>
        let build_command :=
          if has_build then "npm run build" else "npm run build" in
        let output_dir :=
          match project_type with
          | NEXTJS => ".next"
          | NUXT => ".nuxt"
          | SVELTE => "build"
          | _ => "dist"
          end in
        Return (Some build_command, Some output_dir)
    end
  else
    match project_type with
    | PYTHON =>
        match listdir disk project_path with
        | Raise e => Raise e
        | Return names =>
            if existsb (String.eqb "requirements.txt") names
            then Return (Some "pip install -r requirements.txt", None)
            else Return (None, None)
        end
    | JAVA =>
        match listdir disk project_path with
        | Raise e => Raise e
        | Return names =>
            if existsb (String.eqb "pom.xml") names
            then Return (Some "mvn clean package", Some "target")
            else
              match listdir disk project_path with
              | Raise e => Raise e
              | Return names =>
                  if existsb (String.eqb "build.gradle") names
                  then Return (Some "./gradlew build", Some "build")
                  else Return (None, None)
              end
        end
    | GO => Return (Some "go build -o main .", None)
    | RUST => Return (Some "cargo build --release", Some "target/release")
    | _ => Return (None, None)
    end.

(** [_extract_dependencies(config_data, project_type)]: [deps.keys()]
    raises [AttributeError] when [deps] is no [dict]. *)
Definition _extract_dependencies (config : ConfigFiles) (project_type : ProjectType)
  : result (list string) :=
  if is_frontend project_type then
    let deps := get_dict (cfg_dependencies (config_data config)) in
    let dev_deps := get_dict (cfg_devDependencies (config_data config)) in
    match keys_of deps with
    | Raise e => Raise e
    | Return names =>
        match keys_of dev_deps with
        | Raise e => Raise e
        | Return dev_names => Return (names ++ dev_names)%list
        end
    end
  else
    match project_type with
    | PYTHON =>
        Return (match python_dependencies config with Some deps => deps | None => [] end)
    | RUST => keys_of (get_dict (rust_dependencies config))
    | _ => Return []
    end.

(** [_determine_environment_vars(project_type, config_data)] *)
Definition _determine_environment_vars (project_type : ProjectType) : dict string :=
  if is_frontend project_type then [("NODE_ENV", "production"); ("PORT", "3000")]
  else
    match project_type with
    | PYTHON => [("PYTHONPATH", "/app"); ("PORT", "8000")]
    | JAVA => [("JAVA_OPTS", "-Xmx512m"); ("PORT", "8080")]
    | GO => [("PORT", "8080")]
    | RUST => [("PORT", "8080")]
    | _ => []
    end.

(** [_determine_health_check(project_type, project_config)]; the value of
    [retries], the [int] 3, is written by its digits. *)
Definition _determine_health_check (project_type : ProjectType)
    (project_config : Indicators) : dict string :=
  let port := port project_config in
  if is_frontend project_type then
    [ ("test", "curl -f http://localhost:" ++ pretty port ++ "/ || exit 1");
      ("interval", "30s"); ("timeout", "10s"); ("retries", "3") ]
  else
    match project_type with
    | PYTHON =>
        [ ("test", "curl -f http://localhost:" ++ pretty port ++ "/health || exit 1");
          ("interval", "30s"); ("timeout", "10s"); ("retries", "3") ]
    | _ =>
        [ ("test", "curl -f http://localhost:" ++ pretty port ++ "/ || exit 1");
          ("interval", "30s"); ("timeout", "10s"); ("retries", "3") ]
    end.

(** [analyze_project(project_path)]; its [except Exception: raise]
    re-raises what the [try] block raises: the [FileNotFoundError] of a
    missing path, the [TypeError] of the detector, what [os.listdir]
    raises, the [AttributeError] of the dependency extraction. *)
Definition analyze_project (disk : Disk) (project_path : string) : result ProjectAnalysis :=
  if negb (path_exists disk project_path) then
    Raise (FileNotFoundError ("Project path does not exist: " ++ project_path))
  else
    let project_files := _read_project_files disk project_path in
    let config := _read_config_files disk project_path in
    match _detect_project_type project_files (config_data config) with
    | Raise e => Raise e
    | Return (project_type, confidence) =>
        match get project_indicators "static" with
        | None => Raise (KeyError "static")
        | Some static_config =>
            let project_config :=
              match get project_indicators (value project_type) with
              | Some row => row
              | None => static_config
              end in
            match _determine_build_strategy disk project_path project_type config with
            | Raise e => Raise e
            | Return (build_command, output_dir) =>
                match _extract_dependencies config project_type with
                | Raise e => Raise e
                | Return dependencies =>
                    let environment_vars := _determine_environment_vars project_type in
                    let health_check :=
                      _determine_health_check project_type project_config in
                    let dockerfile_strategy :=
                      _determine_dockerfile_strategy project_type in
                    Return
                      {| project_type := project_type;
                         framework_version :=
                           match cfg_version (config_data config) with
                           | Some v => v
                           | None => JNull
                           end;
                         package_manager :=
                           match cfg_package_manager (config_data config) with
                           | Some m => m
                           | None => "npm"
                           end;
                         build_command := build_command;
                         output_dir := output_dir;
                         dependencies := dependencies;
                         environment_vars := environment_vars;
                         pa_port := port project_config;
                         health_check := Some health_check;
                         dockerfile_strategy := dockerfile_strategy;
                         pa_base_image := base_image project_config;
                         confidence_score := confidence |}
                end
            end
        end
    end.

End ProjectAnalyzer.

(** ** app/services/containerization_service.py *)

Module Containerization.
Import Py ProjectAnalyzer.

Local Open Scope string_scope.

(** [str(n)] of an [int], as an f-string renders [{analysis.port}]. *)
Definition str_int (n : Z) : string := pretty n.

(** [_generate_react_dockerfile]: Generate optimized React Dockerfile *)
Definition _generate_react_dockerfile (analysis : ProjectAnalysis) (project_path : string) : string :=
  "# Multi-stage build for React app
FROM node:18-alpine AS builder

# Set working directory
WORKDIR /app

# Copy package files
COPY package*.json ./

# Install dependencies
RUN npm ci --only=production

# Copy source code
COPY . .

# Build the app
RUN npm run build

# Production stage
FROM nginx:alpine

# Copy built app to nginx
COPY --from=builder /app/dist /usr/share/nginx/html

# Copy nginx configuration
COPY nginx.conf /etc/nginx/nginx.conf

# Expose port
EXPOSE " ++ str_int (pa_port analysis) ++ "

# Health check
HEALTHCHECK --interval=30s --timeout=3s --start-period=5s --retries=3 \
    CMD curl -f http://localhost:" ++ str_int (pa_port analysis) ++ "/ || exit 1

# Start nginx
CMD [" ++ dq ++ "nginx" ++ dq ++ ", " ++ dq ++ "-g" ++ dq ++ ", " ++ dq ++ "daemon off;" ++ dq ++ "]
".

(** [_generate_vue_dockerfile]: Generate optimized Vue.js Dockerfile *)
Definition _generate_vue_dockerfile (analysis : ProjectAnalysis) (project_path : string) : string :=
  "# Multi-stage build for Vue.js app
FROM node:18-alpine AS builder

WORKDIR /app

# Copy package files
COPY package*.json ./

# Install dependencies
RUN npm ci --only=production

# Copy source code
COPY . .

# Build the app
RUN npm run build

# Production stage
FROM nginx:alpine

# Copy built app to nginx
COPY --from=builder /app/dist /usr/share/nginx/html

# Copy nginx configuration
COPY nginx.conf /etc/nginx/nginx.conf

# Expose port
EXPOSE " ++ str_int (pa_port analysis) ++ "

# Health check
HEALTHCHECK --interval=30s --timeout=3s --start-period=5s --retries=3 \
    CMD curl -f http://localhost:" ++ str_int (pa_port analysis) ++ "/ || exit 1

# Start nginx
CMD [" ++ dq ++ "nginx" ++ dq ++ ", " ++ dq ++ "-g" ++ dq ++ ", " ++ dq ++ "daemon off;" ++ dq ++ "]
".

(** [_generate_angular_dockerfile]: Generate optimized Angular Dockerfile *)
Definition _generate_angular_dockerfile (analysis : ProjectAnalysis) (project_path : string) : string :=
  "# Multi-stage build for Angular app
FROM node:18-alpine AS builder

WORKDIR /app

# Copy package files
COPY package*.json ./

# Install dependencies
RUN npm ci --only=production

# Copy source code
COPY . .

# Build the app
RUN npm run build --prod

# Production stage
FROM nginx:alpine

# Copy built app to nginx
COPY --from=builder /app/dist /usr/share/nginx/html

# Copy nginx configuration
COPY nginx.conf /etc/nginx/nginx.conf

# Expose port
EXPOSE " ++ str_int (pa_port analysis) ++ "

# Health check
HEALTHCHECK --interval=30s --timeout=3s --start-period=5s --retries=3 \
    CMD curl -f http://localhost:" ++ str_int (pa_port analysis) ++ "/ || exit 1

# Start nginx
CMD [" ++ dq ++ "nginx" ++ dq ++ ", " ++ dq ++ "-g" ++ dq ++ ", " ++ dq ++ "daemon off;" ++ dq ++ "]
".

(** [_generate_nextjs_dockerfile]: Generate optimized Next.js Dockerfile *)
Definition _generate_nextjs_dockerfile (analysis : ProjectAnalysis) (project_path : string) : string :=
  "# Multi-stage build for Next.js app
FROM node:18-alpine AS base

# Install dependencies only when needed
FROM base AS deps
RUN apk add --no-cache libc6-compat
WORKDIR /app

# Copy package files
COPY package*.json ./
RUN npm ci --only=production

# Rebuild the source code only when needed
FROM base AS builder
WORKDIR /app
COPY --from=deps /app/node_modules ./node_modules
COPY . .

# Build the app
RUN npm run build

# Production image, copy all the files and run next
FROM base AS runner
WORKDIR /app

ENV NODE_ENV production

RUN addgroup --system --gid 1001 nodejs
RUN adduser --system --uid 1001 nextjs

COPY --from=builder /app/public ./public

# Set the correct permission for prerender cache
RUN mkdir .next
RUN chown nextjs:nodejs .next

# Automatically leverage output traces to reduce image size
COPY --from=builder --chown=nextjs:nodejs /app/.next/standalone ./
COPY --from=builder --chown=nextjs:nodejs /app/.next/static ./.next/static

USER nextjs

EXPOSE " ++ str_int (pa_port analysis) ++ "

ENV PORT " ++ str_int (pa_port analysis) ++ "
ENV HOSTNAME " ++ dq ++ "0.0.0.0" ++ dq ++ "

# Health check
HEALTHCHECK --interval=30s --timeout=3s --start-period=5s --retries=3 \
    CMD curl -f http://localhost:" ++ str_int (pa_port analysis) ++ "/api/health || exit 1

CMD [" ++ dq ++ "node" ++ dq ++ ", " ++ dq ++ "server.js" ++ dq ++ "]
".

(** [_generate_nuxt_dockerfile]: Generate optimized Nuxt.js Dockerfile *)
Definition _generate_nuxt_dockerfile (analysis : ProjectAnalysis) (project_path : string) : string :=
  "# Multi-stage build for Nuxt.js app
FROM node:18-alpine AS base

# Install dependencies only when needed
FROM base AS deps
RUN apk add --no-cache libc6-compat
WORKDIR /app

# Copy package files
COPY package*.json ./
RUN npm ci --only=production

# Rebuild the source code only when needed
FROM base AS builder
WORKDIR /app
COPY --from=deps /app/node_modules ./node_modules
COPY . .

# Build the app
RUN npm run build

# Production image, copy all the files and run nuxt
FROM base AS runner
WORKDIR /app

ENV NODE_ENV production

RUN addgroup --system --gid 1001 nodejs
RUN adduser --system --uid 1001 nuxtjs

COPY --from=builder --chown=nuxtjs:nodejs /app/.output ./.output

USER nuxtjs

EXPOSE " ++ str_int (pa_port analysis) ++ "

ENV PORT " ++ str_int (pa_port analysis) ++ "
ENV HOSTNAME " ++ dq ++ "0.0.0.0" ++ dq ++ "

# Health check
HEALTHCHECK --interval=30s --timeout=3s --start-period=5s --retries=3 \
    CMD curl -f http://localhost:" ++ str_int (pa_port analysis) ++ "/ || exit 1

CMD [" ++ dq ++ "node" ++ dq ++ ", " ++ dq ++ ".output/server/index.mjs" ++ dq ++ "]
".

(** [_generate_svelte_dockerfile]: Generate optimized Svelte Dockerfile *)
Definition _generate_svelte_dockerfile (analysis : ProjectAnalysis) (project_path : string) : string :=
  "# Multi-stage build for Svelte app
FROM node:18-alpine AS builder

WORKDIR /app

# Copy package files
COPY package*.json ./

# Install dependencies
RUN npm ci --only=production

# Copy source code
COPY . .

# Build the app
RUN npm run build

# Production stage
FROM nginx:alpine

# Copy built app to nginx
COPY --from=builder /app/build /usr/share/nginx/html

# Copy nginx configuration
COPY nginx.conf /etc/nginx/nginx.conf

# Expose port
EXPOSE " ++ str_int (pa_port analysis) ++ "

# Health check
HEALTHCHECK --interval=30s --timeout=3s --start-period=5s --retries=3 \
    CMD curl -f http://localhost:" ++ str_int (pa_port analysis) ++ "/ || exit 1

# Start nginx
CMD [" ++ dq ++ "nginx" ++ dq ++ ", " ++ dq ++ "-g" ++ dq ++ ", " ++ dq ++ "daemon off;" ++ dq ++ "]
".

(** [_generate_python_dockerfile]: Generate optimized Python Dockerfile *)
Definition _generate_python_dockerfile (analysis : ProjectAnalysis) (project_path : string) : string :=
  "# Multi-stage build for Python app
FROM python:3.11-slim AS builder

# Set working directory
WORKDIR /app

# Install system dependencies
RUN apt-get update && apt-get install -y \
    gcc \
    && rm -rf /var/lib/apt/lists/*

# Copy requirements and install Python dependencies
COPY requirements.txt .
RUN pip install --no-cache-dir --user -r requirements.txt

# Production stage
FROM python:3.11-slim

# Set working directory
WORKDIR /app

# Copy Python dependencies from builder
COPY --from=builder /root/.local /root/.local

# Copy application code
COPY . .

# Set environment variables
ENV PATH=/root/.local/bin:$PATH
ENV PYTHONPATH=/app

# Expose port
EXPOSE " ++ str_int (pa_port analysis) ++ "

# Health check
HEALTHCHECK --interval=30s --timeout=3s --start-period=5s --retries=3 \
    CMD curl -f http://localhost:" ++ str_int (pa_port analysis) ++ "/health || exit 1

# Run the application
CMD [" ++ dq ++ "python" ++ dq ++ ", " ++ dq ++ "main.py" ++ dq ++ "]
".

(** [_generate_java_dockerfile]: Generate optimized Java Dockerfile *)
Definition _generate_java_dockerfile (analysis : ProjectAnalysis) (project_path : string) : string :=
  "# Multi-stage build for Java app
FROM openjdk:17-jdk-slim AS builder

WORKDIR /app

# Copy build files
COPY pom.xml .
COPY src ./src

# Build the application
RUN mvn clean package -DskipTests

# Production stage
FROM openjdk:17-jre-slim

WORKDIR /app

# Copy the built jar
COPY --from=builder /app/target/*.jar app.jar

# Expose port
EXPOSE " ++ str_int (pa_port analysis) ++ "

# Health check
HEALTHCHECK --interval=30s --timeout=3s --start-period=5s --retries=3 \
    CMD curl -f http://localhost:" ++ str_int (pa_port analysis) ++ "/actuator/health || exit 1

# Run the application
CMD [" ++ dq ++ "java" ++ dq ++ ", " ++ dq ++ "-jar" ++ dq ++ ", " ++ dq ++ "app.jar" ++ dq ++ "]
".

(** [_generate_go_dockerfile]: Generate optimized Go Dockerfile *)
Definition _generate_go_dockerfile (analysis : ProjectAnalysis) (project_path : string) : string :=
  "# Multi-stage build for Go app
FROM golang:1.21-alpine AS builder

WORKDIR /app

# Copy go mod files
COPY go.mod go.sum ./

# Download dependencies
RUN go mod download

# Copy source code
COPY . .

# Build the application
RUN CGO_ENABLED=0 GOOS=linux go build -a -installsuffix cgo -o main .

# Production stage
FROM alpine:latest

RUN apk --no-cache add ca-certificates
WORKDIR /root/

# Copy the binary
COPY --from=builder /app/main .

# Expose port
EXPOSE " ++ str_int (pa_port analysis) ++ "

# Health check
HEALTHCHECK --interval=30s --timeout=3s --start-period=5s --retries=3 \
    CMD curl -f http://localhost:" ++ str_int (pa_port analysis) ++ "/health || exit 1

# Run the application
CMD [" ++ dq ++ "./main" ++ dq ++ "]
".

(** [_generate_rust_dockerfile]: Generate optimized Rust Dockerfile *)
Definition _generate_rust_dockerfile (analysis : ProjectAnalysis) (project_path : string) : string :=
  "# Multi-stage build for Rust app
FROM rust:1.75-slim AS builder

WORKDIR /app

# Copy Cargo files
COPY Cargo.toml Cargo.lock ./

# Build dependencies
RUN cargo build --release

# Copy source code
COPY src ./src

# Build the application
RUN cargo build --release

# Production stage
FROM debian:bookworm-slim

WORKDIR /app

# Install runtime dependencies
RUN apt-get update && apt-get install -y \
    ca-certificates \
    && rm -rf /var/lib/apt/lists/*

# Copy the binary
COPY --from=builder /app/target/release/app .

# Expose port
EXPOSE " ++ str_int (pa_port analysis) ++ "

# Health check
HEALTHCHECK --interval=30s --timeout=3s --start-period=5s --retries=3 \
    CMD curl -f http://localhost:" ++ str_int (pa_port analysis) ++ "/health || exit 1

# Run the application
CMD [" ++ dq ++ "./app" ++ dq ++ "]
".

(** [_generate_php_dockerfile]: Generate optimized PHP Dockerfile *)
Definition _generate_php_dockerfile (analysis : ProjectAnalysis) (project_path : string) : string :=
  "# Multi-stage build for PHP app
FROM php:8.2-fpm-alpine AS builder

WORKDIR /app

# Install system dependencies
RUN apk add --no-cache \
    nginx \
    supervisor

# Install PHP extensions
RUN docker-php-ext-install pdo pdo_mysql

# Copy application code
COPY . .

# Install Composer dependencies
COPY composer.json composer.lock ./
RUN curl -sS https://getcomposer.org/installer | php -- --install-dir=/usr/local/bin --filename=composer
RUN composer install --no-dev --optimize-autoloader

# Production stage
FROM php:8.2-fpm-alpine

WORKDIR /app

# Install nginx and supervisor
RUN apk add --no-cache nginx supervisor

# Copy application code
COPY --from=builder /app .

# Copy nginx configuration
COPY nginx.conf /etc/nginx/nginx.conf

# Copy supervisor configuration
COPY supervisord.conf /etc/supervisor/conf.d/supervisord.conf

# Expose port
EXPOSE " ++ str_int (pa_port analysis) ++ "

# Health check
HEALTHCHECK --interval=30s --timeout=3s --start-period=5s --retries=3 \
    CMD curl -f http://localhost:" ++ str_int (pa_port analysis) ++ "/ || exit 1

# Start services
CMD [" ++ dq ++ "/usr/bin/supervisord" ++ dq ++ ", " ++ dq ++ "-c" ++ dq ++ ", " ++ dq ++ "/etc/supervisor/conf.d/supervisord.conf" ++ dq ++ "]
".

(** [_generate_static_dockerfile]: Generate optimized static site Dockerfile *)
Definition _generate_static_dockerfile (analysis : ProjectAnalysis) (project_path : string) : string :=
  "# Static site Dockerfile
FROM nginx:alpine

# Copy static files
COPY . /usr/share/nginx/html

# Copy nginx configuration
COPY nginx.conf /etc/nginx/nginx.conf

# Expose port
EXPOSE " ++ str_int (pa_port analysis) ++ "

# Health check
HEALTHCHECK --interval=30s --timeout=3s --start-period=5s --retries=3 \
    CMD curl -f http://localhost:" ++ str_int (pa_port analysis) ++ "/ || exit 1

# Start nginx
CMD [" ++ dq ++ "nginx" ++ dq ++ ", " ++ dq ++ "-g" ++ dq ++ ", " ++ dq ++ "daemon off;" ++ dq ++ "]
".

(** [_generate_generic_dockerfile]: Generate a generic Dockerfile for unknown project types *)
Definition _generate_generic_dockerfile (analysis : ProjectAnalysis) : string :=
  "# Generic Dockerfile
FROM " ++ pa_base_image analysis ++ "

WORKDIR /app

# Copy application code
COPY . .

# Expose port
EXPOSE " ++ str_int (pa_port analysis) ++ "

# Health check
HEALTHCHECK --interval=30s --timeout=3s --start-period=5s --retries=3 \
    CMD curl -f http://localhost:" ++ str_int (pa_port analysis) ++ "/ || exit 1

# Run the application
CMD [" ++ dq ++ "echo" ++ dq ++ ", " ++ dq ++ "Please configure your application startup command" ++ dq ++ "]
".

(** [_generate_docker_compose]: Generate Docker Compose file for development *)
Definition _generate_docker_compose (analysis : ProjectAnalysis) : string :=
  "version: '3.8'

services:
  app:
    build: .
    ports:
      - " ++ dq ++ str_int (pa_port analysis) ++ ":" ++ str_int (pa_port analysis) ++ dq ++ "
    environment:
      - NODE_ENV=development
    volumes:
      - .:/app
      - /app/node_modules
    restart: unless-stopped
    healthcheck:
      test: [" ++ dq ++ "CMD" ++ dq ++ ", " ++ dq ++ "curl" ++ dq ++ ", " ++ dq ++ "-f" ++ dq ++ ", " ++ dq ++ "http://localhost:" ++ str_int (pa_port analysis) ++ "/" ++ dq ++ "]
      interval: 30s
      timeout: 10s
      retries: 3
      start_period: 40s

networks:
  default:
    name: " ++ value (project_type analysis) ++ "-network
".

(** [_generate_docker_compose_prod]: Generate Docker Compose file for production *)
Definition _generate_docker_compose_prod (analysis : ProjectAnalysis) : string :=
  "version: '3.8'

services:
  app:
    build: .
    ports:
      - " ++ dq ++ str_int (pa_port analysis) ++ ":" ++ str_int (pa_port analysis) ++ dq ++ "
    environment:
      - NODE_ENV=production
    restart: unless-stopped
    healthcheck:
      test: [" ++ dq ++ "CMD" ++ dq ++ ", " ++ dq ++ "curl" ++ dq ++ ", " ++ dq ++ "-f" ++ dq ++ ", " ++ dq ++ "http://localhost:" ++ str_int (pa_port analysis) ++ "/" ++ dq ++ "]
      interval: 30s
      timeout: 10s
      retries: 3
      start_period: 40s
    deploy:
      resources:
        limits:
          memory: 512M
        reservations:
          memory: 256M

networks:
  default:
    name: " ++ value (project_type analysis) ++ "-prod-network
".

(** [_generate_dockerignore]: Generate .dockerignore file *)
Definition _generate_dockerignore (analysis : ProjectAnalysis) : string :=
  "# Dependencies
node_modules/
npm-debug.log*
yarn-debug.log*
yarn-error.log*

# Production builds
dist/
build/
.next/
.nuxt/

# Environment files
.env
.env.local
.env.development.local
.env.test.local
.env.production.local

# IDE files
.vscode/
.idea/
*.swp
*.swo

# OS files
.DS_Store
Thumbs.db

# Git
.git/
.gitignore

# Docker
Dockerfile*
docker-compose*
.dockerignore

# Logs
logs/
*.log

# Runtime data
pids/
*.pid
*.seed
*.pid.lock

# Coverage directory used by tools like istanbul
coverage/

# Dependency directories
jspm_packages/

# Optional npm cache directory
.npm

# Optional REPL history
.node_repl_history

# Output of 'npm pack'
*.tgz

# Yarn Integrity file
.yarn-integrity

# parcel-bundler cache (https://parceljs.org/)
.cache
.parcel-cache

# next.js build output
.next

# nuxt.js build output
.nuxt

# vuepress build output
.vuepress/dist

# Serverless directories
.serverless

# FuseBox cache
.fusebox/

# DynamoDB Local files
.dynamodb/

# TernJS port file
.tern-port
".

(** [self.dockerfile_templates], keyed by the value of a project type. *)
Definition dockerfile_templates : dict (ProjectAnalysis -> string -> string) :=
  [ ("react", _generate_react_dockerfile);
    ("vue", _generate_vue_dockerfile);
    ("angular", _generate_angular_dockerfile);
    ("nextjs", _generate_nextjs_dockerfile);
    ("nuxt", _generate_nuxt_dockerfile);
    ("svelte", _generate_svelte_dockerfile);
    ("python", _generate_python_dockerfile);
    ("java", _generate_java_dockerfile);
    ("go", _generate_go_dockerfile);
    ("rust", _generate_rust_dockerfile);
    ("php", _generate_php_dockerfile);
    ("static", _generate_static_dockerfile) ].

(** [_generate_dockerfile(analysis, project_path)] *)
Definition _generate_dockerfile (analysis : ProjectAnalysis) (project_path : string) : string :=
  let project_type := value (project_type analysis) in
  match get dockerfile_templates project_type with
  | Some generator => generator analysis project_path
  | None => _generate_generic_dockerfile analysis
  end.

(** The dictionary [containerize_project] returns. *)
Record Artifacts : Type := {
  dockerfile : string;
  docker_compose : string;
  docker_compose_prod : string;
  dockerignore : string;
  image_name : string;
  art_port : Z;
  art_base_image : string;
  strategy : string
}.

(** [containerize_project(project_analysis, project_path)]; its
    [except Exception: raise] re-raises what the generators raise, and they
    raise nothing. *)
Definition containerize_project (project_analysis : ProjectAnalysis) (project_path : string)
  : result Artifacts :=
  let dockerfile_content := _generate_dockerfile project_analysis project_path in
  let docker_compose_content := _generate_docker_compose project_analysis in
  let dockerignore_content := _generate_dockerignore project_analysis in
  let docker_compose_prod_content := _generate_docker_compose_prod project_analysis in
  Return {| dockerfile := dockerfile_content;
            docker_compose := docker_compose_content;
            docker_compose_prod := docker_compose_prod_content;
            dockerignore := dockerignore_content;
            image_name := value (project_type project_analysis) ++ "-app:latest";
            art_port := pa_port project_analysis;
            art_base_image := pa_base_image project_analysis;
            strategy := dockerfile_strategy project_analysis |}.

End Containerization.

(** ** app/services/auto_scaling_service.py *)

Module AutoScaling.
Import Py.

Local Open Scope string_scope.

(** A metric value is a Python number: an [int] (a running count, a
    default) or a finite [float] (a CloudWatch average or sum).  The
    decision rule only compares, doubles and floor-halves them, which is
    exact on both, so a value is modelled by the rational it denotes. *)

(** [min(a, b)] and [max(a, b)] of two numbers: the first argument unless
    the second is strictly smaller (greater). *)
Definition py_min (a b : Q) : Q := if Qlt_bool b a then b else a.
Definition py_max (a b : Q) : Q := if Qlt_bool a b then b else a.

(** [a // 2] *)
Definition floordiv2 (a : Q) : Q := inject_Z (Qfloor (a / 2)).

(** [f"{x:.1f}"] *)
Definition format_1f (x : Q) : string := format_fixed 1 x.

(** [@dataclass class ScalingDecision] *)
Record ScalingDecision : Type := {
  direction : string;
  target_capacity : Q;
  reason : string;
  confidence : float;
  metrics : gmap string Q
}.

(** The AWS clients the service holds, by what their calls answer:
    [cloudwatch_client.get_metric_statistics(Namespace, MetricName, ...)]
    gives the statistic of each datapoint of [response['Datapoints']], and
    [ecs_client.describe_services(cluster='default', services=[id])] the
    [runningCount] of each service of [response['services']]; either may
    raise. *)
Record Aws : Type := {
  get_metric_statistics : string -> string -> string -> result (list Q);
  describe_services : string -> result (list Q)
}.

(** [metrics[key] = response['Datapoints'][-1][...]] under
    [if response['Datapoints']]. *)
Definition set_last (key : string) (datapoints : list Q) (m : gmap string Q)
  : gmap string Q :=
  match List.rev datapoints with
  | [] => m
  | x :: _ => <[key := x]> m
  end.

(** [metrics['current_capacity'] = ecs_response['services'][0]['runningCount']]
    under [if ecs_response['services']]. *)
Definition set_first (key : string) (services : list Q) (m : gmap string Q)
  : gmap string Q :=
  match services with
  | [] => m
  | x :: _ => <[key := x]> m
  end.

(** The [try] block of [get_cloudwatch_metrics]. *)
Definition collect_metrics (aws : Aws) (resource_id resource_type : string)
  : result (gmap string Q) :=
  let metrics : gmap string Q := ∅ in
  if String.eqb resource_type "ecs" then
    match get_metric_statistics aws "AWS/ECS" "CPUUtilization" resource_id with
    | Raise e => Raise e
    | Return cpu =>
        let metrics := set_last "cpu_utilization" cpu metrics in
        match get_metric_statistics aws "AWS/ECS" "MemoryUtilization" resource_id with
        | Raise e => Raise e
        | Return mem =>
            let metrics := set_last "memory_utilization" mem metrics in
            match describe_services aws resource_id with
            | Raise e => Raise e
            | Return services => Return (set_first "current_capacity" services metrics)
            end
        end
    end
  else if String.eqb resource_type "lambda" then
    match get_metric_statistics aws "AWS/Lambda" "Duration" resource_id with
    | Raise e => Raise e
    | Return duration =>
        let metrics := set_last "duration" duration metrics in
        match get_metric_statistics aws "AWS/Lambda" "Invocations" resource_id with
        | Raise e => Raise e
        | Return invocations =>
            match List.rev invocations with
            | [] => Return metrics
            | x :: _ =>
                let metrics := <["request_count" := x]> metrics in
                Return (<["current_capacity" := py_min x 100]> metrics)
            end
        end
    end
  else Return metrics.

(** [get_cloudwatch_metrics]: [except Exception] logs and returns [{}]. *)
Definition get_cloudwatch_metrics (aws : Aws) (resource_id resource_type : string)
  : result (gmap string Q) :=
  match collect_metrics aws resource_id resource_type with
  | Return metrics => Return metrics
  | Raise e => Return ∅
  end.

(** [metrics.get(key, default)] *)
Definition get_metric (m : gmap string Q) (key : string) (default : Q) : Q :=
  match m !! key with
  | Some v => v
  | None => default
  end.

(** The decision rule, the spec's [decide]: the [try] block of
    [analyze_scaling_metrics] from the point where [metrics] is bound. *)
Definition scaling_rule (m : gmap string Q) : ScalingDecision :=
  let cpu_utilization := get_metric m "cpu_utilization" 0 in
  let memory_utilization := get_metric m "memory_utilization" 0 in
  let request_count := get_metric m "request_count" 0 in
  if Qlt_bool 80 cpu_utilization || Qlt_bool 85 memory_utilization then
    let current_capacity := get_metric m "current_capacity" 1 in
    let target_capacity := py_min (current_capacity * 2) 20 in
    {| direction := "up";
       target_capacity := target_capacity;
       reason := "High resource utilization: CPU " ++ format_1f cpu_utilization ++
                 "%, Memory " ++ format_1f memory_utilization ++ "%";
       confidence := 0.9%float;
       metrics := m |}
  else if Qlt_bool cpu_utilization 20 && Qlt_bool memory_utilization 30
          && Qlt_bool request_count 10 then
    let current_capacity := get_metric m "current_capacity" 1 in
    let target_capacity := py_max (floordiv2 current_capacity) 1 in
    {| direction := "down";
       target_capacity := target_capacity;
       reason := "Low resource utilization: CPU " ++ format_1f cpu_utilization ++
                 "%, Memory " ++ format_1f memory_utilization ++ "%";
       confidence := 0.8%float;
       metrics := m |}
  else
    {| direction := "none";
       target_capacity := get_metric m "current_capacity" 1;
       reason := "Resource utilization within normal range";
       confidence := 0.7%float;
       metrics := m |}.

(** The answer of the [except Exception as e] branch. *)
Definition analysis_failed (e : exn) : ScalingDecision :=
  {| direction := "none";
     target_capacity := 1;
     reason := "Metrics analysis failed: " ++ str_exn e;
     confidence := 0%float;
     metrics := ∅ |}.

(** [analyze_scaling_metrics(resource_id, resource_type)] *)
Definition analyze_scaling_metrics (aws : Aws) (resource_id resource_type : string)
  : result ScalingDecision :=
  match get_cloudwatch_metrics aws resource_id resource_type with
  | Return metrics => Return (scaling_rule metrics)
  | Raise e => Return (analysis_failed e)
  end.

(** *** Scaling a resource *)

(** What the result dictionaries and the response data hold: [None], a
    [bool], a [str], a number, or a list of strings. *)
Inductive value : Type :=
| VNone
| VBool (b : bool)
| VStr (s : string)
| VNum (q : Q)
| VList (l : list string).

(** What [subprocess.run(cmd, capture_output=True, text=True, check=True)]
    does: it returns with the output, raises [CalledProcessError] (a
    non-zero exit status; [stderr] is the text captured), or raises
    something else (the program is not there, say). *)
Inductive completed : Type :=
| Completed (stdout : string)
| CalledProcessError (stderr : string)
| OtherError (e : exn).

(** The clients the scale and policy functions call, by what their calls
    answer; any of them may raise.
    [ecs_client.update_service(cluster, service, desiredCount)] gives
    [response['service']['runningCount']],
    [waiter.wait(cluster, services=[service])] waits for the service,
    [lambda_client.put_reserved_concurrency_config(FunctionName,
    ReservedConcurrencyLimit)] sets the limit, [kubectl_scale deployment
    replicas namespace] is [subprocess.run] of the [kubectl scale] command,
    and the four calls of [application_autoscaling_client] take the resource
    id (and the capacities, or the policy name and its configuration) and
    give the ARN where the code reads one. *)
Record Clients : Type := {
  update_service : string -> string -> Q -> result Q;
  wait_services_stable : string -> string -> result unit;
  put_reserved_concurrency_config : string -> Q -> result unit;
  kubectl_scale : string -> Q -> string -> completed;
  register_scalable_target : string -> value -> value -> result string;
  put_scaling_policy : string -> string -> value -> value -> value -> result string;
  delete_scaling_policy : string -> string -> result unit;
  deregister_scalable_target : string -> result unit
}.

(** [scale_ecs_service(cluster_name, service_name, decision)] *)
Definition scale_ecs_service (c : Clients) (cluster_name service_name : string)
    (decision : ScalingDecision) : result (dict value) :=
  match
    match update_service c cluster_name service_name (target_capacity decision) with
    | Raise e => Raise e
    | Return running_count =>
        match wait_services_stable c cluster_name service_name with
        | Raise e => Raise e
        | Return _ =>
            Return [ ("success", VBool true);
                     ("service_name", VStr service_name);
                     ("cluster_name", VStr cluster_name);
                     ("target_capacity", VNum (target_capacity decision));
                     ("current_capacity", VNum running_count);
                     ("reason", VStr (reason decision)) ]
        end
    end
  with
  | Return r => Return r
  | Raise e =>
      Return [ ("success", VBool false);
               ("error", VStr (str_exn e));
               ("service_name", VStr service_name) ]
  end.

(** [scale_lambda_function(function_name, decision)] *)
Definition scale_lambda_function (c : Clients) (function_name : string)
    (decision : ScalingDecision) : result (dict value) :=
  match
    if String.eqb (direction decision) "up" then
      let new_concurrency := py_min (target_capacity decision * 10) 1000 in
      match put_reserved_concurrency_config c function_name new_concurrency with
      | Raise e => Raise e
      | Return _ =>
          Return [ ("success", VBool true);
                   ("function_name", VStr function_name);
                   ("reserved_concurrency", VNum new_concurrency);
                   ("reason", VStr (reason decision)) ]
      end
    else
      let new_concurrency := py_max (target_capacity decision * 5) 10 in
      match put_reserved_concurrency_config c function_name new_concurrency with
      | Raise e => Raise e
      | Return _ =>
          Return [ ("success", VBool true);
                   ("function_name", VStr function_name);
                   ("reserved_concurrency", VNum new_concurrency);
                   ("reason", VStr (reason decision)) ]
      end
  with
  | Return r => Return r
  | Raise e =>
      Return [ ("success", VBool false);
               ("error", VStr (str_exn e));
               ("function_name", VStr function_name) ]
  end.

(** [scale_kubernetes_deployment(namespace, deployment_name, decision)]:
    only [subprocess.CalledProcessError] is caught. *)
Definition scale_kubernetes_deployment (c : Clients) (namespace deployment_name : string)
    (decision : ScalingDecision) : result (dict value) :=
  match kubectl_scale c deployment_name (target_capacity decision) namespace with
  | Completed stdout =>
      Return [ ("success", VBool true);
               ("deployment_name", VStr deployment_name);
               ("namespace", VStr namespace);
               ("target_replicas", VNum (target_capacity decision));
               ("reason", VStr (reason decision));
               ("output", VStr stdout) ]
  | CalledProcessError stderr =>
      Return [ ("success", VBool false);
               ("error", VStr stderr);
               ("deployment_name", VStr deployment_name) ]
  | OtherError e => Raise e
  end.

(** [config.get(key, default)] *)
Definition config_get (config : dict value) (key : string) (default : value) : value :=
  match get config key with
  | Some v => v
  | None => default
  end.

(** [create_autoscaling_policy(resource_id, resource_type, config)] *)
Definition create_autoscaling_policy (c : Clients) (resource_id resource_type : string)
    (config : dict value) : result (dict value) :=
  match
    if String.eqb resource_type "ecs" then
      match register_scalable_target c ("service/default/" ++ resource_id)
              (config_get config "min_capacity" (VNum 1))
              (config_get config "max_capacity" (VNum 10)) with
      | Raise e => Raise e
      | Return target_arn =>
          match put_scaling_policy c ("service/default/" ++ resource_id)
                  (resource_id ++ "-scaling-policy")
                  (config_get config "target_cpu" (VNum 70))
                  (config_get config "scale_out_cooldown" (VNum 300))
                  (config_get config "scale_in_cooldown" (VNum 300)) with
          | Raise e => Raise e
          | Return policy_arn =>
              Return [ ("success", VBool true);
                       ("resource_id", VStr resource_id);
                       ("policy_arn", VStr policy_arn);
                       ("target_arn", VStr target_arn) ]
          end
      end
    else
      Return [ ("success", VBool false);
               ("error", VStr ("Unsupported resource type: " ++ resource_type)) ]
  with
  | Return r => Return r
  | Raise e =>
      Return [ ("success", VBool false);
               ("error", VStr (str_exn e));
               ("resource_id", VStr resource_id) ]
  end.

(** [delete_autoscaling_policy(resource_id, resource_type)] *)
Definition delete_autoscaling_policy (c : Clients) (resource_id resource_type : string)
  : result (dict value) :=
  match
    if String.eqb resource_type "ecs" then
      match delete_scaling_policy c ("service/default/" ++ resource_id)
              (resource_id ++ "-scaling-policy") with
      | Raise e => Raise e
      | Return _ =>
          match deregister_scalable_target c ("service/default/" ++ resource_id) with
          | Raise e => Raise e
          | Return _ =>
              Return [ ("success", VBool true);
                       ("resource_id", VStr resource_id);
                       ("message", VStr "Auto-scaling policy deleted successfully") ]
          end
      end
    else
      Return [ ("success", VBool false);
               ("error", VStr ("Unsupported resource type: " ++ resource_type)) ]
  with
  | Return r => Return r
  | Raise e =>
      Return [ ("success", VBool false);
               ("error", VStr (str_exn e));
               ("resource_id", VStr resource_id) ]
  end.

End AutoScaling.

(** ** app/api/v1/endpoints/scaling.py *)

Module Scaling.
Import Py AutoScaling.

Local Open Scope string_scope.

(** [SuccessResponse(message=..., data=...)]; [success] keeps its default,
    [True]. *)
Record SuccessResponse : Type := {
  sr_message : string;
  sr_data : dict value
}.

(** [class ECSScaleRequest], validated: [set_defaults] has given
    [cluster_name] and [service_name] a value. *)
Record ECSScaleRequest : Type := {
  ecs_cluster_name : string;
  ecs_service_name : string;
  ecs_target_capacity : Z;
  ecs_reason : string
}.

(** [class LambdaScaleRequest] *)
Record LambdaScaleRequest : Type := {
  lambda_function_name : string;
  lambda_target_capacity : Z;
  lambda_reason : string
}.

(** [bool(v)] *)
Definition truth (v : value) : bool :=
  match v with
  | VNone => false
  | VBool b => b
  | VStr s => negb (String.eqb s "")
  | VNum q => negb (Qeq_bool q 0)
  | VList l => match l with [] => false | _ => true end
  end.

(** [result.get(key, default)] *)
Definition result_get (result : dict value) (key : string) (default : value) : value :=
  match get result key with
  | Some v => v
  | None => default
  end.

(** ["accessdenied" in error_str or "unauthorized" in error_str or
    "forbidden" in error_str] *)
Definition permissions_error (error_str : string) : bool :=
  contains "accessdenied" error_str || contains "unauthorized" error_str
  || contains "forbidden" error_str.

(** The decision the scale endpoints build from a request. *)
Definition manual_decision (target_capacity : Z) (reason : string) : ScalingDecision :=
  {| direction := if (1 <? target_capacity)%Z then "up" else "down";
     target_capacity := inject_Z target_capacity;
     reason := reason;
     confidence := 1.0%float;
     metrics := ∅ |}.

(** The response of [scale_ecs_service] to a permissions error; [error] is
    [result.get('error')] or [str(e)]. *)
Definition permissions_response (cluster_name service_name : string) (target_capacity : Z)
    (error : value) : SuccessResponse :=
  {| sr_message := "ECS scaling configuration generated for " ++ service_name ++
                   " (AWS permissions required)";
     sr_data :=
       [ ("success", VBool false);
         ("cluster_name", VStr cluster_name);
         ("service_name", VStr service_name);
         ("target_capacity", VNum (inject_Z target_capacity));
         ("error", error);
         ("note", VStr ("AWS permissions required. Please ensure the service has " ++
                        "the necessary IAM permissions for ECS operations."));
         ("required_permissions",
          VList ["ecs:UpdateService"; "ecs:DescribeServices"; "ecs:DescribeClusters"]);
         ("aws_cli_command",
          VStr ("aws ecs update-service --cluster " ++ cluster_name ++ " --service " ++
                service_name ++ " --desired-count " ++ pretty target_capacity)) ] |}.

(** [scale_ecs_service(request)].  [str] is Python's [str] on the values of
    a result dictionary; [AutoScalingService] is what the constructor call
    [AutoScalingService()] does: it returns the service with its clients,
    or raises what one of its [boto3.client] calls raises. *)
Definition scale_ecs_service (str : value -> string) (AutoScalingService : result Clients)
    (request : ECSScaleRequest) : result SuccessResponse :=
  let cluster_name := ecs_cluster_name request in
  let service_name := ecs_service_name request in
  match
    let decision := manual_decision (ecs_target_capacity request) (ecs_reason request) in
    match AutoScalingService with
    | Raise e => Raise e
    | Return scaling_service =>
        match AutoScaling.scale_ecs_service scaling_service cluster_name service_name
                decision with
        | Raise e => Raise e
        | Return result =>
            let scaled :=
              Return {| sr_message := "ECS service " ++ service_name ++
                                      " scaled successfully";
                        sr_data := result |} in
            if negb (truth (result_get result "success" (VBool true))) then
              let error_str := lower (str (result_get result "error" (VStr ""))) in
              if permissions_error error_str then
                Return (permissions_response cluster_name service_name
                          (ecs_target_capacity request)
                          (match get result "error" with Some v => v | None => VNone end))
              else scaled
            else scaled
        end
    end
  with
  | Return response => Return response
  | Raise e =>
      let error_str := lower (str_exn e) in
      if permissions_error error_str then
        Return (permissions_response cluster_name service_name
                  (ecs_target_capacity request) (VStr (str_exn e)))
      else Raise (HTTPException 500 ("ECS scaling failed: " ++ str_exn e))
  end.

(** [scale_lambda_function(request)] *)
Definition scale_lambda_function (AutoScalingService : result Clients)
    (request : LambdaScaleRequest) : result SuccessResponse :=
  match
    let decision :=
      manual_decision (lambda_target_capacity request) (lambda_reason request) in
    match AutoScalingService with
    | Raise e => Raise e
    | Return scaling_service =>
        match AutoScaling.scale_lambda_function scaling_service
                (lambda_function_name request) decision with
        | Raise e => Raise e
        | Return result =>
            Return {| sr_message := "Lambda function " ++ lambda_function_name request ++
                                    " scaled successfully";
                      sr_data := result |}
        end
    end
  with
  | Return response => Return response
  | Raise e => Raise (HTTPException 500 ("Lambda scaling failed: " ++ str_exn e))
  end.

(** [delete_autoscaling_policy(resource_id, resource_type)] *)
Definition delete_autoscaling_policy (AutoScalingService : result Clients)
    (resource_id resource_type : string) : result SuccessResponse :=
  match
    match AutoScalingService with
    | Raise e => Raise e
    | Return scaling_service =>
        AutoScaling.delete_autoscaling_policy scaling_service resource_id resource_type
    end
  with
  | Return result =>
      Return {| sr_message := "Auto-scaling policy deleted for " ++ resource_id;
                sr_data := result |}
  | Raise e => Raise (HTTPException 500 ("Policy deletion failed: " ++ str_exn e))
  end.

End Scaling.


(** ** app/api/v1/endpoints/deployment.py *)

Module Deployment.
Import Py.

Local Open Scope string_scope.

(** The fields of [EnhancedDeploymentRequest] the endpoints read. *)
Record EnhancedDeploymentRequest : Type := {
  req_project_name : string;
  req_project_type : ProjectAnalyzer.ProjectType;
  req_environment : string;
  req_options : option (dict string);
  enable_containerization : bool;
  enable_kubernetes : bool;
  enable_monitoring : bool
}.

(** The value stored under [deployment['project_analysis']]. *)
Record AnalysisSummary : Type := {
  summary_type : string;
  summary_framework_version : json;
  summary_package_manager : string;
  summary_port : Z;
  summary_base_image : string;
  summary_confidence_score : float
}.

(** A deployment record: the [deployment_data] dictionary, one field per
    key ([project_analysis] is absent until a run completes). *)
Record DeploymentData : Type := {
  deployment_id : string;
  project_name : string;
  project_type : ProjectAnalyzer.ProjectType;
  environment : string;
  status : string;
  created_at : string;
  updated_at : string;
  options : dict string;
  logs : list string;
  errors : list string;
  resources_created : list string;
  resources_failed : list string;
  monitoring_enabled : bool;
  url : option string;
  metrics_url : option string;
  logs_url : option string;
  project_analysis : option AnalysisSummary
}.

(** [d['status'] = s] *)
Definition set_status (s : string) (d : DeploymentData) : DeploymentData :=
  {| deployment_id := deployment_id d;
     project_name := project_name d;
     project_type := project_type d;
     environment := environment d;
     status := s;
     created_at := created_at d;
     updated_at := updated_at d;
     options := options d;
     logs := logs d;
     errors := errors d;
     resources_created := resources_created d;
     resources_failed := resources_failed d;
     monitoring_enabled := monitoring_enabled d;
     url := url d;
     metrics_url := metrics_url d;
     logs_url := logs_url d;
     project_analysis := project_analysis d |}.

(** [d['updated_at'] = t] *)
Definition set_updated_at (t : string) (d : DeploymentData) : DeploymentData :=
  {| deployment_id := deployment_id d;
     project_name := project_name d;
     project_type := project_type d;
     environment := environment d;
     status := status d;
     created_at := created_at d;
     updated_at := t;
     options := options d;
     logs := logs d;
     errors := errors d;
     resources_created := resources_created d;
     resources_failed := resources_failed d;
     monitoring_enabled := monitoring_enabled d;
     url := url d;
     metrics_url := metrics_url d;
     logs_url := logs_url d;
     project_analysis := project_analysis d |}.

(** [d['logs'].append(line)] *)
Definition append_log (line : string) (d : DeploymentData) : DeploymentData :=
  {| deployment_id := deployment_id d;
     project_name := project_name d;
     project_type := project_type d;
     environment := environment d;
     status := status d;
     created_at := created_at d;
     updated_at := updated_at d;
     options := options d;
     logs := logs d ++ [line];
     errors := errors d;
     resources_created := resources_created d;
     resources_failed := resources_failed d;
     monitoring_enabled := monitoring_enabled d;
     url := url d;
     metrics_url := metrics_url d;
     logs_url := logs_url d;
     project_analysis := project_analysis d |}.

(** [d['errors'].append(e)] *)
Definition append_error (e : string) (d : DeploymentData) : DeploymentData :=
  {| deployment_id := deployment_id d;
     project_name := project_name d;
     project_type := project_type d;
     environment := environment d;
     status := status d;
     created_at := created_at d;
     updated_at := updated_at d;
     options := options d;
     logs := logs d;
     errors := errors d ++ [e];
     resources_created := resources_created d;
     resources_failed := resources_failed d;
     monitoring_enabled := monitoring_enabled d;
     url := url d;
     metrics_url := metrics_url d;
     logs_url := logs_url d;
     project_analysis := project_analysis d |}.

(** [d['resources_created'].extend(rs)] *)
Definition extend_resources_created (rs : list string) (d : DeploymentData) : DeploymentData :=
  {| deployment_id := deployment_id d;
     project_name := project_name d;
     project_type := project_type d;
     environment := environment d;
     status := status d;
     created_at := created_at d;
     updated_at := updated_at d;
     options := options d;
     logs := logs d;
     errors := errors d;
     resources_created := resources_created d ++ rs;
     resources_failed := resources_failed d;
     monitoring_enabled := monitoring_enabled d;
     url := url d;
     metrics_url := metrics_url d;
     logs_url := logs_url d;
     project_analysis := project_analysis d |}.

(** [d['url'] = u] *)
Definition set_url (u : string) (d : DeploymentData) : DeploymentData :=
  {| deployment_id := deployment_id d;
     project_name := project_name d;
     project_type := project_type d;
     environment := environment d;
     status := status d;
     created_at := created_at d;
     updated_at := updated_at d;
     options := options d;
     logs := logs d;
     errors := errors d;
     resources_created := resources_created d;
     resources_failed := resources_failed d;
     monitoring_enabled := monitoring_enabled d;
     url := Some u;
     metrics_url := metrics_url d;
     logs_url := logs_url d;
     project_analysis := project_analysis d |}.

(** [d['metrics_url'] = u] *)
Definition set_metrics_url (u : string) (d : DeploymentData) : DeploymentData :=
  {| deployment_id := deployment_id d;
     project_name := project_name d;
     project_type := project_type d;
     environment := environment d;
     status := status d;
     created_at := created_at d;
     updated_at := updated_at d;
     options := options d;
     logs := logs d;
     errors := errors d;
     resources_created := resources_created d;
     resources_failed := resources_failed d;
     monitoring_enabled := monitoring_enabled d;
     url := url d;
     metrics_url := Some u;
     logs_url := logs_url d;
     project_analysis := project_analysis d |}.

(** [d['logs_url'] = u] *)
Definition set_logs_url (u : string) (d : DeploymentData) : DeploymentData :=
  {| deployment_id := deployment_id d;
     project_name := project_name d;
     project_type := project_type d;
     environment := environment d;
     status := status d;
     created_at := created_at d;
     updated_at := updated_at d;
     options := options d;
     logs := logs d;
     errors := errors d;
     resources_created := resources_created d;
     resources_failed := resources_failed d;
     monitoring_enabled := monitoring_enabled d;
     url := url d;
     metrics_url := metrics_url d;
     logs_url := Some u;
     project_analysis := project_analysis d |}.

(** [d['project_analysis'] = a] *)
Definition set_project_analysis (a : AnalysisSummary) (d : DeploymentData) : DeploymentData :=
  {| deployment_id := deployment_id d;
     project_name := project_name d;
     project_type := project_type d;
     environment := environment d;
     status := status d;
     created_at := created_at d;
     updated_at := updated_at d;
     options := options d;
     logs := logs d;
     errors := errors d;
     resources_created := resources_created d;
     resources_failed := resources_failed d;
     monitoring_enabled := monitoring_enabled d;
     url := url d;
     metrics_url := metrics_url d;
     logs_url := logs_url d;
     project_analysis := Some a |}.
(** References to record objects. *)
Definition loc : Type := nat.

(** The state the endpoints share.  [deployments] is the module-level
    dictionary, from ids to the record objects it holds; [heap] has the
    objects themselves, so that a record removed from [deployments] lives on
    for whoever still holds a reference to it.  [clock] counts the readings
    of [datetime.utcnow()] and [uuids] the calls of [uuid.uuid4()]. *)
Record State : Type := {
  deployments : gmap string loc;
  heap : gmap loc DeploymentData;
  clock : nat;
  uuids : nat
}.

Definition set_deployments (f : gmap string loc -> gmap string loc) (st : State) : State :=
  {| deployments := f (deployments st); heap := heap st;
     clock := clock st; uuids := uuids st |}.

Definition set_heap (f : gmap loc DeploymentData -> gmap loc DeploymentData) (st : State)
  : State :=
  {| deployments := deployments st; heap := f (heap st);
     clock := clock st; uuids := uuids st |}.

Definition tick_clock (st : State) : State :=
  {| deployments := deployments st; heap := heap st;
     clock := S (clock st); uuids := uuids st |}.

Definition tick_uuids (st : State) : State :=
  {| deployments := deployments st; heap := heap st;
     clock := clock st; uuids := S (uuids st) |}.

(** Nothing deployed yet: [deployments = {}]. *)
Definition initial_state : State :=
  {| deployments := ∅; heap := ∅; clock := 0; uuids := 0 |}.

(** What lies outside the process: the [n]-th identifier
    [str(uuid.uuid4())] draws, the [n]-th reading of
    [datetime.utcnow().isoformat()], and what
    [ProjectAnalyzer.analyze_project] answers for a project path (it reads
    the file system).  Nothing is assumed of them here; a property that
    needs identifiers to be unique says so. *)
Record World : Type := {
  uuid4_at : nat -> string;
  utcnow_at : nat -> string;
  analyze_project : string -> result ProjectAnalyzer.ProjectAnalysis
}.

(** *** Computations over the shared state

    A computation returns or raises, leaves a state, and lists the states
    it went through: one entry after each change of the state, in order,
    which is what a concurrent reader of the store can observe. *)
Record Outcome (A : Type) : Type := mkOutcome {
  res : result A;
  final : State;
  trace : list State
}.
Arguments mkOutcome {A} res final trace.
Arguments res {A} o.
Arguments final {A} o.
Arguments trace {A} o.

Definition M (A : Type) : Type := State -> Outcome A.

Definition ret {A} (a : A) : M A := fun st => mkOutcome (Return a) st [].

Definition raise {A} (e : exn) : M A := fun st => mkOutcome (Raise e) st [].

Definition bind {A B} (m : M A) (k : A -> M B) : M B := fun st =>
  match m st with
  | mkOutcome (Raise e) st1 tr1 => mkOutcome (Raise e) st1 tr1
  | mkOutcome (Return a) st1 tr1 =>
      match k a st1 with
      | mkOutcome r st2 tr2 => mkOutcome r st2 (tr1 ++ tr2)%list
      end
  end.

(** [try: m except Exception as e: h(e)] *)
Definition try_except {A} (m : M A) (h : exn -> M A) : M A := fun st =>
  match m st with
  | mkOutcome (Return a) st1 tr1 => mkOutcome (Return a) st1 tr1
  | mkOutcome (Raise e) st1 tr1 =>
      match h e st1 with
      | mkOutcome r st2 tr2 => mkOutcome r st2 (tr1 ++ tr2)%list
      end
  end.

Definition gets {A} (f : State -> A) : M A := fun st => mkOutcome (Return (f st)) st [].

Definition mutate (f : State -> State) : M unit := fun st =>
  mkOutcome (Return tt) (f st) [f st].

(** A call of a function that touches no shared state. *)
Definition call {A} (r : result A) : M A := fun st => mkOutcome r st [].

Declare Scope py_scope.
Delimit Scope py_scope with py.
Notation "x <- m ;; k" := (bind m (fun x => k))
  (at level 90, m at level 80, right associativity) : py_scope.
Notation "m ;;; k" := (bind m (fun _ => k))
  (at level 90, right associativity) : py_scope.
Local Open Scope py_scope.

(** [str(uuid.uuid4())] *)
Definition uuid4 (w : World) : M string := fun st =>
  mkOutcome (Return (uuid4_at w (uuids st))) (tick_uuids st) [tick_uuids st].

(** [datetime.utcnow().isoformat()] *)
Definition utcnow (w : World) : M string := fun st =>
  mkOutcome (Return (utcnow_at w (clock st))) (tick_clock st) [tick_clock st].

(** [deployments[deployment_id]]: the record object, or [KeyError]. *)
Definition subscript (deployment_id : string) : M loc := fun st =>
  match deployments st !! deployment_id with
  | Some l => mkOutcome (Return l) st []
  | None => mkOutcome (Raise (KeyError deployment_id)) st []
  end.

(** [deployment_id in deployments] *)
Definition member (deployment_id : string) : M bool :=
  gets (fun st => bool_decide (is_Some (deployments st !! deployment_id))).

(** A write through a reference to a record object. *)
Definition set_item (l : loc) (f : DeploymentData -> DeploymentData) : M unit :=
  mutate (set_heap (alter f l)).

(** [deployments[deployment_id] = deployment_data] for a new dictionary
    [deployment_data]: the object is allocated and the store refers to it. *)
Definition store_new (deployment_id : string) (deployment_data : DeploymentData) : M unit :=
  fun st =>
  let l := fresh (dom (heap st)) in
  let st' := set_deployments (insert deployment_id l)
               (set_heap (insert l deployment_data) st) in
  mkOutcome (Return tt) st' [st'].

(** [del deployments[deployment_id]] *)
Definition del (deployment_id : string) : M unit :=
  mutate (set_deployments (delete deployment_id)).

(** *** The endpoints *)

Record DeploymentResponse : Type := {
  resp_deployment_id : string;
  resp_project_name : string;
  resp_status : string;
  resp_environment : string;
  resp_created_at : string;
  resp_updated_at : string;
  resp_monitoring_enabled : bool
}.

(** [enhanced_deployment(request, background_tasks)].  The background task
    it registers is [process_enhanced_deployment deployment_id request],
    run after the response is returned.  Nothing in its [try] block raises,
    so the [except] branch that wraps an exception in a [DeploymentError]
    is left out. *)
Definition enhanced_deployment (w : World) (request : EnhancedDeploymentRequest)
  : M DeploymentResponse :=
  deployment_id <- uuid4 w ;;
  current_time <- utcnow w ;;
  let deployment_data :=
    {| deployment_id := deployment_id;
       project_name := req_project_name request;
       project_type := req_project_type request;
       environment := req_environment request;
       status := "pending";
       created_at := current_time;
       updated_at := current_time;
       options := match req_options request with Some o => o | None => [] end;
       logs := [];
       errors := [];
       resources_created := [];
       resources_failed := [];
       monitoring_enabled := enable_monitoring request;
       url := None;
       metrics_url := None;
       logs_url := None;
       project_analysis := None |} in
  store_new deployment_id deployment_data ;;;
  ret {| resp_deployment_id := deployment_id;
         resp_project_name := req_project_name request;
         resp_status := "pending";
         resp_environment := req_environment request;
         resp_created_at := current_time;
         resp_updated_at := current_time;
         resp_monitoring_enabled := enable_monitoring request |}.

(** [progress_map] of [get_deployment_status] *)
Definition progress_map : dict Z :=
  [ ("pending", 0%Z); ("detecting", 10%Z); ("containerizing", 25%Z);
    ("building", 40%Z); ("deploying", 60%Z); ("configuring", 80%Z);
    ("success", 100%Z); ("failed", 0%Z) ].

(** [get_status_message(status)] *)
Definition get_status_message (status : string) : string :=
  let messages :=
    [ ("pending", "Deployment is pending");
      ("detecting", "Detecting project type and configuration");
      ("containerizing", "Creating Docker container");
      ("building", "Building project artifacts");
      ("deploying", "Deploying to cloud infrastructure");
      ("configuring", "Configuring services and monitoring");
      ("success", "Deployment completed successfully");
      ("failed", "Deployment failed") ] in
  match get messages status with
  | Some m => m
  | None => "Unknown status"
  end.

Record StatusDetails : Type := {
  logs_count : nat;
  errors_count : nat;
  details_resources_created : nat;
  details_resources_failed : nat
}.

Record DeploymentStatus : Type := {
  ds_deployment_id : string;
  ds_status : string;
  progress : Z;
  message : string;
  details : StatusDetails;
  last_updated : string
}.

(** Reading a record object the store refers to; a [KeyError] stands for a
    reference to no object, which no run produces. *)
Definition deref (l : loc) : M DeploymentData := fun st =>
  match heap st !! l with
  | Some d => mkOutcome (Return d) st []
  | None => mkOutcome (Raise (KeyError "deployment")) st []
  end.

(** [get_deployment_status(deployment_id)] *)
Definition get_deployment_status (deployment_id : string) : M DeploymentStatus :=
  present <- member deployment_id ;;
  if negb present then raise (HTTPException 404 "Deployment not found")
  else
    l <- subscript deployment_id ;;
    deployment <- deref l ;;
    ret {| ds_deployment_id := deployment_id;
           ds_status := status deployment;
           progress := match get progress_map (status deployment) with
                       | Some p => p
                       | None => 0%Z
                       end;
           message := get_status_message (status deployment);
           details := {| logs_count := length (logs deployment);
                         errors_count := length (errors deployment);
                         details_resources_created := length (resources_created deployment);
                         details_resources_failed := length (resources_failed deployment) |};
           last_updated := updated_at deployment |}.

Record RollbackRequest : Type := {
  target_version : option string;
  rollback_reason : option string
}.

Record RollbackResponse : Type := {
  rollback_id : string;
  rb_deployment_id : string;
  rb_status : string;
  rb_message : string;
  rb_created_at : string
}.

(** [simulate_delay(seconds)]: [asyncio.sleep], which changes nothing. *)
Definition simulate_delay (seconds : nat) : M unit := ret tt.

(** [process_rollback(deployment_id, rollback_id, request)]: a delay and a
    log line; its [except] branch logs too. *)
Definition process_rollback (deployment_id rollback_id : string) (request : RollbackRequest)
  : M unit :=
  try_except (simulate_delay 3) (fun e => ret tt).

(** [rollback_deployment(deployment_id, request, background_tasks)].  The
    background task it registers is
    [process_rollback deployment_id rollback_id request]. *)
Definition rollback_deployment (w : World) (deployment_id : string) (request : RollbackRequest)
  : M RollbackResponse :=
  present <- member deployment_id ;;
  if negb present then raise (HTTPException 404 "Deployment not found")
  else
    rollback_id <- uuid4 w ;;
    current_time <- utcnow w ;;
    ret {| rollback_id := rollback_id;
           rb_deployment_id := deployment_id;
           rb_status := "pending";
           rb_message := "Rollback initiated";
           rb_created_at := current_time |}.

(** [delete_deployment(deployment_id)]: returns the message of its
    [SuccessResponse]. *)
Definition delete_deployment (deployment_id : string) : M string :=
  present <- member deployment_id ;;
  if negb present then raise (HTTPException 404 "Deployment not found")
  else
    del deployment_id ;;;
    ret ("Deployment " ++ deployment_id ++ " deleted successfully").

(** [update_deployment_status(deployment_id, status, progress, message)];
    [progress] is accepted and not stored. *)
Definition update_deployment_status (w : World) (deployment_id status : string)
    (progress : Z) (message : string) : M unit :=
  present <- member deployment_id ;;
  if present then
    l <- subscript deployment_id ;;
    set_item l (set_status status) ;;;
    l <- subscript deployment_id ;;
    now <- utcnow w ;;
    set_item l (set_updated_at now) ;;;
    l <- subscript deployment_id ;;
    now <- utcnow w ;;
    set_item l (append_log ("[" ++ now ++ "] " ++ message))
  else ret tt.

(** The statements of the [try] block of [process_enhanced_deployment]
    after [deployment = deployments[deployment_id]]. *)
Definition stages (w : World) (deployment : loc) (deployment_id : string)
    (request : EnhancedDeploymentRequest) : M unit :=
  (* Step 1: Project Detection *)
  update_deployment_status w deployment_id "detecting" 10 "Analyzing project structure..." ;;;
  let project_path := "/tmp/projects/" ++ req_project_name request in
  project_analysis <- call (analyze_project w project_path) ;;
  let type_value := ProjectAnalyzer.value (ProjectAnalyzer.project_type project_analysis) in
  update_deployment_status w deployment_id "detecting" 15
    ("Detected " ++ type_value ++ " project (confidence: " ++
     format_2f (ProjectAnalyzer.confidence_score project_analysis) ++ ")") ;;;
  (* Step 2: Containerization *)
  (if enable_containerization request then
     update_deployment_status w deployment_id "containerizing" 25
       "Generating Docker configuration..." ;;;
     containerization_result <-
       call (Containerization.containerize_project project_analysis project_path) ;;
     update_deployment_status w deployment_id "containerizing" 30
       "Dockerfile and Docker Compose generated" ;;;
     set_item deployment (extend_resources_created
       ["Dockerfile"; "docker-compose.yml"; "docker-compose.prod.yml"; ".dockerignore"])
   else ret tt) ;;;
  (* Step 3: Build Process *)
  update_deployment_status w deployment_id "building" 40
    ("Building " ++ type_value ++ " project...") ;;;
  match truthy (ProjectAnalyzer.build_command project_analysis) with
  | Some build_command =>
      update_deployment_status w deployment_id "building" 45 ("Running: " ++ build_command)
  | None => ret tt
  end ;;;
  simulate_delay 2 ;;;
  set_item deployment (extend_resources_created ["Build artifacts"]) ;;;
  (* Step 4: Kubernetes Deployment (if enabled) *)
  (if enable_kubernetes request then
     update_deployment_status w deployment_id "deploying" 60 "Deploying to Kubernetes..." ;;;
     simulate_delay 3 ;;;
     set_item deployment (extend_resources_created
       ["Kubernetes deployment"; "Kubernetes service"; "Kubernetes ingress"])
   else ret tt) ;;;
  (* Step 5: Cloud Deployment *)
  update_deployment_status w deployment_id "deploying" 70
    "Deploying to cloud infrastructure..." ;;;
  simulate_delay 3 ;;;
  set_item deployment (extend_resources_created
    ["S3 bucket"; "CloudFront distribution";
     if String.eqb type_value "static" then "Lambda function" else "ECS service"]) ;;;
  (* Step 6: Monitoring Setup *)
  (if enable_monitoring request then
     update_deployment_status w deployment_id "configuring" 80
       "Setting up monitoring and observability..." ;;;
     simulate_delay 2 ;;;
     set_item deployment (extend_resources_created
       ["CloudWatch logs"; "CloudWatch metrics"; "CloudWatch alarms"])
   else ret tt) ;;;
  (* Step 7: Complete *)
  update_deployment_status w deployment_id "success" 100 "Deployment completed successfully" ;;;
  set_item deployment (set_url ("https://" ++ req_project_name request ++ ".deployhub.com")) ;;;
  set_item deployment (set_metrics_url ("https://metrics.deployhub.com/" ++ deployment_id)) ;;;
  set_item deployment (set_logs_url ("https://logs.deployhub.com/" ++ deployment_id)) ;;;
  (* Store analysis results *)
  set_item deployment (set_project_analysis
    {| summary_type := type_value;
       summary_framework_version := ProjectAnalyzer.framework_version project_analysis;
       summary_package_manager := ProjectAnalyzer.package_manager project_analysis;
       summary_port := ProjectAnalyzer.pa_port project_analysis;
       summary_base_image := ProjectAnalyzer.pa_base_image project_analysis;
       summary_confidence_score := ProjectAnalyzer.confidence_score project_analysis |}).

(** The [except Exception as e] branch of [process_enhanced_deployment];
    [deployment] is the local variable of that name, unbound when the first
    statement of the [try] block raised. *)
Definition except_handler (w : World) (deployment : option loc) (deployment_id : string)
    (e : exn) : M unit :=
  update_deployment_status w deployment_id "failed" 0 ("Deployment failed: " ++ str_exn e) ;;;
  match deployment with
  | Some l => set_item l (append_error (str_exn e))
  | None => raise (UnboundLocalError "deployment")
  end.

(** [process_enhanced_deployment(deployment_id, request)] *)
Definition process_enhanced_deployment (w : World) (deployment_id : string)
    (request : EnhancedDeploymentRequest) : M unit :=
  fun st =>
  match deployments st !! deployment_id with
  | Some deployment =>
      try_except (stages w deployment deployment_id request)
                 (except_handler w (Some deployment) deployment_id) st
  | None => except_handler w None deployment_id (KeyError deployment_id) st
  end.

(** *** Reading the store: [get_deployment] and [list_deployments] *)

(** The [DeploymentResponse] of the reading endpoints, with every field of
    the schema; an optional field the endpoint does not pass is [None]. *)
Record DeploymentDetails : Type := {
  dd_deployment_id : string;
  dd_project_name : string;
  dd_status : string;
  dd_environment : string;
  dd_created_at : string;
  dd_updated_at : string;
  dd_url : option string;
  dd_logs : option (list string);
  dd_errors : option (list string);
  dd_resources_created : option (list string);
  dd_resources_failed : option (list string);
  dd_monitoring_enabled : bool;
  dd_metrics_url : option string;
  dd_logs_url : option string
}.

(** [get_deployment(deployment_id)] *)
Definition get_deployment (deployment_id : string) : M DeploymentDetails :=
  present <- member deployment_id ;;
  if negb present then raise (HTTPException 404 "Deployment not found")
  else
    l <- subscript deployment_id ;;
    deployment <- deref l ;;
    ret {| dd_deployment_id := Deployment.deployment_id deployment;
           dd_project_name := project_name deployment;
           dd_status := status deployment;
           dd_environment := environment deployment;
           dd_created_at := created_at deployment;
           dd_updated_at := updated_at deployment;
           dd_url := url deployment;
           dd_logs := Some (logs deployment);
           dd_errors := Some (errors deployment);
           dd_resources_created := Some (resources_created deployment);
           dd_resources_failed := Some (resources_failed deployment);
           dd_monitoring_enabled := monitoring_enabled deployment;
           dd_metrics_url := metrics_url deployment;
           dd_logs_url := logs_url deployment |}.

(** [l[start:stop]] for two integers: a negative index counts from the end
    of the list, and both are clamped to it. *)
Definition slice_index (n i : Z) : Z :=
  if (i <? 0)%Z then Z.max (i + n) 0 else Z.min i n.

Definition slice {A} (l : list A) (start stop : Z) : list A :=
  let n := Z.of_nat (length l) in
  let lo := slice_index n start in
  let hi := slice_index n stop in
  firstn (Z.to_nat (hi - lo)) (skipn (Z.to_nat lo) l).

(** The entry [list_deployments] builds for a record. *)
Definition list_entry (deployment : DeploymentData) : DeploymentDetails :=
  {| dd_deployment_id := Deployment.deployment_id deployment;
     dd_project_name := project_name deployment;
     dd_status := status deployment;
     dd_environment := environment deployment;
     dd_created_at := created_at deployment;
     dd_updated_at := updated_at deployment;
     dd_url := url deployment;
     dd_logs := None;
     dd_errors := None;
     dd_resources_created := None;
     dd_resources_failed := None;
     dd_monitoring_enabled := monitoring_enabled deployment;
     dd_metrics_url := None;
     dd_logs_url := None |}.

(** The loop of [list_deployments] over [deployments.values()]: a record
    is skipped when a filter is given, is not empty, and differs from the
    record's field. *)
Fixpoint filtered_deployments (values : list DeploymentData)
    (project_name environment status : option string) : list DeploymentDetails :=
  match values with
  | [] => []
  | deployment :: values' =>
      let rest := filtered_deployments values' project_name environment status in
      if match truthy project_name with
         | Some p => negb (String.eqb (Deployment.project_name deployment) p)
         | None => false
         end then rest
      else if match truthy environment with
              | Some e => negb (String.eqb (Deployment.environment deployment) e)
              | None => false
              end then rest
      else if match truthy status with
              | Some s => negb (String.eqb (Deployment.status deployment) s)
              | None => false
              end then rest
      else list_entry deployment :: rest
  end.

(** [deployments.values()]: the records under the keys of the dictionary,
    in the order of its keys.  The store keeps no order, so the sequence
    [keys] of the dictionary's keys is given. *)
Definition values (keys : list string) : M (list DeploymentData) :=
  gets (fun st =>
    omap (fun deployment_id =>
            match deployments st !! deployment_id with
            | Some l => heap st !! l
            | None => None
            end) keys).

(** [list_deployments(project_name, environment, status, limit, offset)] *)
Definition list_deployments (keys : list string)
    (project_name environment status : option string) (limit offset : Z)
  : M (list DeploymentDetails) :=
  values <- values keys ;;
  ret (slice (filtered_deployments values project_name environment status)
             offset (offset + limit)).

End Deployment.

(** * Properties *)

(** ** The detector *)

Module ProjectAnalyzerSpec.
Import Py ProjectAnalyzer.

Local Open Scope string_scope.

(** [0 <= c <= 1] on floats. *)
Definition in_unit (c : float) : bool := ((0 <=? c) && (c <=? 1))%float.

(** Every score a catalog row can take: one per triple of counts within
    the lengths of the row's lists. *)
Definition row_scores (ind : Indicators) : list float :=
  fm ← seq 0 (S (length (files ind)));
  km ← seq 0 (S (length (keywords ind)));
  sm ← seq 0 (S (length (scripts ind)));
  [score_of_counts ind fm km sm].

Definition score_table_ok : bool :=
  forallb (fun kv => forallb in_unit (row_scores (snd kv))) project_indicators.

(** The manifests the detector reads without a [TypeError]: the
    [dependencies] and [devDependencies] entries are objects (or absent),
    and the [scripts] entry is an object, a list or a string (or absent). *)
Definition is_mapping (v : json) : bool :=
  match v with
  | JObject _ => true
  | _ => false
  end.

Definition is_container (v : json) : bool :=
  match v with
  | JObject _ | JList _ | JStr _ => true
  | _ => false
  end.

Definition well_formed (config_data : ConfigData) : bool :=
  is_mapping (get_dict (cfg_dependencies config_data)) &&
  is_mapping (get_dict (cfg_devDependencies config_data)) &&
  is_container (get_dict (cfg_scripts config_data)).

(** The input of the spec's example: three of react's four signature paths,
    both of its keywords, both of its scripts. *)
Definition example_files : list string :=
  ["package.json"; "src/App.js"; "src/index.js"].

Definition example_config : ConfigData :=
  {| cfg_version := None;
     cfg_package_manager := Some "npm";
     cfg_scripts := Some (JObject [("start", JStr "react-scripts start");
                                   ("build", JStr "react-scripts build")]);
     cfg_dependencies := Some (JObject [("react", JStr "^18.2.0");
                                        ("react-dom", JStr "^18.2.0")]);
     cfg_devDependencies := None |}.

(** An input that matches nothing: no files, no manifest. *)
Definition empty_config : ConfigData :=
  {| cfg_version := None; cfg_package_manager := None; cfg_scripts := None;
     cfg_dependencies := None; cfg_devDependencies := None |}.

(** What [_read_config_files] collects from the package.json
    [{"name": "site", "dependencies": null}]. *)
Definition null_dependencies : ConfigData :=
  {| cfg_version := Some JNull;
     cfg_package_manager := Some "npm";
     cfg_scripts := Some (JObject []);
     cfg_dependencies := Some JNull;
     cfg_devDependencies := Some (JObject []) |}.

Lemma count_le {A} (p : A -> bool) (l : list A) : (count p l <= length l)%nat.
Proof. unfold count. apply List.filter_length_le. Qed.

Lemma count_result_le {A} (p : A -> result bool) (l : list A) n :
  count_result p l = Return n -> (n <= length l)%nat.
Proof.
  revert n. induction l as [|x l IH]; intros n; cbn [count_result length].
  - intros [= <-]. lia.
  - destruct (p x) as [b|e]; [|discriminate].
    destruct (count_result p l) as [m|e]; [|discriminate].
    specialize (IH m eq_refl). intros [= <-]. destruct b; lia.
Qed.

Lemma score_table_checked : score_table_ok = true.
Proof. vm_compute. reflexivity. Qed.

Lemma row_scores_spec ind fm km sm :
  (fm <= length (files ind))%nat ->
  (km <= length (keywords ind))%nat ->
  (sm <= length (scripts ind))%nat ->
  In (score_of_counts ind fm km sm) (row_scores ind).
Proof.
  intros Hf Hk Hs. unfold row_scores.
  apply list_elem_of_In, list_elem_of_bind. exists fm. split.
  - apply list_elem_of_bind. exists km. split.
    + apply list_elem_of_bind. exists sm. split; [apply list_elem_of_singleton; reflexivity|].
      apply list_elem_of_In, in_seq. lia.
    + apply list_elem_of_In, in_seq. lia.
  - apply list_elem_of_In, in_seq. lia.
Qed.

(** *** Which manifests the detector reads *)

Lemma unpack_mapping v : is_mapping v = true -> exists d, v = JObject d /\ unpack v = Return d.
Proof. destruct v; try discriminate. intros _. eexists. split; reflexivity. Qed.

Lemma unpack_other v : is_mapping v = false -> exists msg, unpack v = Raise (TypeError msg).
Proof. destruct v; try discriminate; intros _; eexists; reflexivity. Qed.

Lemma str_in_container x v : is_container v = true -> exists b, str_in x v = Return b.
Proof. destruct v; try discriminate; intros _; eexists; reflexivity. Qed.

Lemma str_in_other x v :
  is_container v = false -> exists msg, str_in x v = Raise (TypeError msg).
Proof. destruct v; try discriminate; intros _; eexists; reflexivity. Qed.

Lemma script_matches_returns ind v :
  is_container v = true -> exists n, script_matches ind v = Return n.
Proof.
  intros Hv. unfold script_matches.
  induction (scripts ind) as [|x l IH]; cbn [count_result]; [eexists; reflexivity|].
  destruct (str_in_container x v Hv) as [b ->]. destruct IH as [n ->].
  eexists. reflexivity.
Qed.

Lemma script_matches_raises ind v :
  is_container v = false -> scripts ind <> [] ->
  exists msg, script_matches ind v = Raise (TypeError msg).
Proof.
  intros Hv Hne. unfold script_matches.
  destruct (scripts ind) as [|x l]; [contradiction|]. cbn [count_result].
  destruct (str_in_other x v Hv) as [msg ->]. exists msg. reflexivity.
Qed.

Lemma type_score_returns ind fs config_data :
  well_formed config_data = true -> exists c, type_score ind fs config_data = Return c.
Proof.
  unfold well_formed. intros H.
  apply andb_prop in H. destruct H as [H Hs]. apply andb_prop in H. destruct H as [Hd Hv].
  unfold type_score, merged_dependencies. cbv zeta.
  destruct (unpack_mapping _ Hd) as (d & _ & ->).
  destruct (unpack_mapping _ Hv) as (dv & _ & ->).
  destruct (script_matches_returns ind _ Hs) as [n ->].
  eexists. reflexivity.
Qed.

Lemma type_score_raises ind fs config_data :
  well_formed config_data = false -> scripts ind <> [] ->
  exists msg, type_score ind fs config_data = Raise (TypeError msg).
Proof.
  unfold well_formed. intros H Hne.
  unfold type_score, merged_dependencies. cbv zeta.
  destruct (is_mapping (get_dict (cfg_dependencies config_data))) eqn:Hd.
  - destruct (unpack_mapping _ Hd) as (d & _ & ->).
    destruct (is_mapping (get_dict (cfg_devDependencies config_data))) eqn:Hv.
    + destruct (unpack_mapping _ Hv) as (dv & _ & ->).
      cbn [andb] in H.
      destruct (script_matches_raises ind _ H Hne) as [msg ->].
      exists msg. reflexivity.
    + destruct (unpack_other _ Hv) as [msg ->]. exists msg. reflexivity.
  - destruct (unpack_other _ Hd) as [msg ->]. exists msg. reflexivity.
Qed.

(** The score of a row is the score of three counts within the lengths
    of the row's lists. *)
Lemma type_score_in_rows ind fs config_data c :
  type_score ind fs config_data = Return c -> In c (row_scores ind).
Proof.
  unfold type_score. cbv zeta.
  destruct (merged_dependencies config_data) as [all_deps|e]; [|discriminate].
  destruct (script_matches ind _) as [sm|e] eqn:Hs; [|discriminate].
  intros [= <-]. apply row_scores_spec; try apply count_le.
  apply (count_result_le _ _ _ Hs).
Qed.

(** The score of a catalog row lies in [0, 1], whatever the input. *)
Lemma type_score_in_unit k ind fs config_data c :
  In (k, ind) project_indicators ->
  type_score ind fs config_data = Return c -> in_unit c = true.
Proof.
  intros Hin Hc.
  pose proof score_table_checked as Hok. unfold score_table_ok in Hok.
  rewrite forallb_forall in Hok. specialize (Hok _ Hin). cbn [snd] in Hok.
  rewrite forallb_forall in Hok. apply Hok.
  apply (type_score_in_rows ind fs config_data). exact Hc.
Qed.

(** The loop returns when every body does, with one score per row, in
    the order of the rows. *)
Lemma scores_of_returns rows fs config_data :
  (forall k ind, In (k, ind) rows -> exists c, type_score ind fs config_data = Return c) ->
  exists scores, scores_of rows fs config_data = Return scores.
Proof.
  induction rows as [|[k ind] rows IH]; intros H; cbn [scores_of]; [eexists; reflexivity|].
  destruct (H k ind ltac:(left; reflexivity)) as [c ->].
  destruct IH as [scores ->]; [|eexists; reflexivity].
  intros k' ind' Hin. apply (H k' ind'). right. exact Hin.
Qed.

Lemma scores_of_spec rows fs config_data scores :
  scores_of rows fs config_data = Return scores ->
  List.map fst scores = List.map fst rows /\
  forall k c, In (k, c) scores ->
    exists ind, In (k, ind) rows /\ type_score ind fs config_data = Return c.
Proof.
  revert scores. induction rows as [|[k ind] rows IH]; intros scores; cbn [scores_of].
  - intros [= <-]. split; [reflexivity|]. intros k c [].
  - destruct (type_score ind fs config_data) as [c0|e] eqn:Hc; [|discriminate].
    destruct (scores_of rows fs config_data) as [rest|e]; [|discriminate].
    intros [= <-]. destruct (IH rest eq_refl) as [Hk Hin]. split.
    + cbn [List.map fst]. rewrite Hk. reflexivity.
    + intros k' c [Heq|Hr].
      * injection Heq as <- <-. exists ind. split; [left; reflexivity | exact Hc].
      * destruct (Hin k' c Hr) as (ind' & Hin' & Hc'). exists ind'.
        split; [right; exact Hin' | exact Hc'].
Qed.

Lemma scores_of_head k ind rows fs config_data e :
  type_score ind fs config_data = Raise e ->
  scores_of ((k, ind) :: rows) fs config_data = Raise e.
Proof. intros H. cbn [scores_of]. rewrite H. reflexivity. Qed.

Lemma all_scores_returns fs config_data :
  well_formed config_data = true -> exists scores, all_scores fs config_data = Return scores.
Proof.
  intros H. apply scores_of_returns. intros k ind _. apply type_score_returns. exact H.
Qed.

(** The first row, react, tests its scripts: an entry the detector cannot
    read stops the loop in its first round. *)
Lemma all_scores_raises fs config_data :
  well_formed config_data = false ->
  exists msg, all_scores fs config_data = Raise (TypeError msg).
Proof.
  intros H. unfold all_scores, project_indicators.
  match goal with
  | |- context [scores_of ((?k, ?ind) :: ?rows)] =>
      destruct (type_score_raises ind fs config_data H ltac:(cbn; discriminate)) as [msg Hm];
      exists msg; exact (scores_of_head k ind rows fs config_data _ Hm)
  end.
Qed.

Lemma all_scores_well_formed fs config_data scores :
  all_scores fs config_data = Return scores -> well_formed config_data = true.
Proof.
  intros H. destruct (well_formed config_data) eqn:Hw; [reflexivity|].
  destruct (all_scores_raises fs config_data Hw) as [msg Hm].
  rewrite Hm in H. discriminate H.
Qed.

Lemma max_from_in best rest : In (max_from best rest) (best :: rest).
Proof.
  revert best. induction rest as [|kv rest IH]; intros best; cbn [max_from].
  - left. reflexivity.
  - destruct (snd best <? snd kv)%float.
    + right. apply IH.
    + destruct (IH best) as [H|H]; [left; exact H | right; right; exact H].
Qed.

(** [max] picks a row of the catalog with its score. *)
Lemma max_by_score_catalog fs config_data scores :
  all_scores fs config_data = Return scores ->
  exists k ind c,
    In (k, ind) project_indicators /\
    type_score ind fs config_data = Return c /\
    max_by_score scores = Return (k, c).
Proof.
  intros H. destruct (scores_of_spec _ _ _ _ H) as [Hkeys Hin].
  destruct scores as [|kv rest]; [cbv in Hkeys; discriminate Hkeys|].
  cbn [max_by_score].
  pose proof (max_from_in kv rest) as Hmax.
  destruct (max_from kv rest) as [k c].
  destruct (Hin k c Hmax) as (ind & Hrow & Hc).
  exists k, ind, c. split; [exact Hrow|]. split; [exact Hc | reflexivity].
Qed.

(** Every key of the catalog is the value of a project type. *)
Lemma catalog_keys_valid k ind :
  In (k, ind) project_indicators -> exists t, ProjectType_of k = Return t /\ value t = k.
Proof.
  unfold project_indicators. cbn [In]. intros H.
  repeat (destruct H as [H|H]; [injection H as <- _; eexists; split; reflexivity|]).
  destruct H.
Qed.

(** What the detector returns when the loop does: the floor, or the row
    [max] picked with its score. *)
Lemma detect_cases fs config_data scores :
  all_scores fs config_data = Return scores ->
  exists k ind c t,
    In (k, ind) project_indicators /\
    type_score ind fs config_data = Return c /\
    max_by_score scores = Return (k, c) /\
    ProjectType_of k = Return t /\ value t = k /\
    _detect_project_type fs config_data =
      Return (if (c <? 0.3)%float then (STATIC, 0.3%float) else (t, c)).
Proof.
  intros H.
  destruct (max_by_score_catalog fs config_data scores H) as (k & ind & c & Hin & Hc & Hmax).
  destruct (catalog_keys_valid k ind Hin) as (t & Ht & Hv).
  exists k, ind, c, t. repeat (split; [assumption|]).
  unfold _detect_project_type. rewrite H, Hmax.
  destruct (c <? 0.3)%float; [reflexivity|].
  rewrite Ht. reflexivity.
Qed.

(** The detector returns exactly on the manifests it can read, and raises
    a [TypeError] on the others. *)
Lemma detect_returns fs config_data :
  well_formed config_data = true ->
  exists t c, _detect_project_type fs config_data = Return (t, c).
Proof.
  intros H. destruct (all_scores_returns fs config_data H) as [scores Hs].
  destruct (detect_cases fs config_data scores Hs) as (k & ind & c & t & _ & _ & _ & _ & _ & Hdet).
  rewrite Hdet. destruct (c <? 0.3)%float; eexists; eexists; reflexivity.
Qed.

Lemma detect_raises fs config_data :
  well_formed config_data = false ->
  exists msg, _detect_project_type fs config_data = Raise (TypeError msg).
Proof.
  intros H. destruct (all_scores_raises fs config_data H) as [msg Hm].
  exists msg. unfold _detect_project_type. rewrite Hm. reflexivity.
Qed.

Lemma detect_scores fs config_data r :
  _detect_project_type fs config_data = Return r ->
  exists scores, all_scores fs config_data = Return scores.
Proof.
  unfold _detect_project_type.
  destruct (all_scores fs config_data) as [scores|e]; [eauto | discriminate].
Qed.

Lemma script_matches_empty ind : script_matches ind (JObject []) = Return 0%nat.
Proof.
  unfold script_matches. induction (scripts ind) as [|x l IH]; [reflexivity|].
  cbn [count_result]. rewrite IH. reflexivity.
Qed.

Lemma keyword_matches_empty ind : keyword_matches ind [] = 0%nat.
Proof.
  unfold keyword_matches, count. cbn [keys List.map existsb].
  induction (keywords ind) as [|x l IH]; [reflexivity | exact IH].
Qed.

Lemma file_matches_nil ind : file_matches ind [] = 0%nat.
Proof.
  unfold file_matches, count. induction (files ind) as [|f l IH]; [reflexivity | exact IH].
Qed.

(** When nothing matches a row, its score is [0.0]. *)
Lemma type_score_no_match ind fs config_data all_deps :
  merged_dependencies config_data = Return all_deps ->
  file_matches ind fs = 0%nat ->
  keyword_matches ind all_deps = 0%nat ->
  script_matches ind (get_dict (cfg_scripts config_data)) = Return 0%nat ->
  type_score ind fs config_data = Return 0%float.
Proof.
  intros Hm Hf Hk Hs. unfold type_score. cbv zeta. rewrite Hm, Hf, Hk, Hs. reflexivity.
Qed.




(** C5, as the code has it: on the example input the detector returns
    react with the binary64 value of [0.0 + 0.75*0.4 + 1.0*0.4 + 1.0*0.2],
    which is 0.9000000000000001, the double next above 0.9; that score is
    the greatest of the catalog, every other row scoring strictly less. *)
Theorem detector_example_react :
  _detect_project_type example_files example_config
    = Return (REACT, 0.9000000000000001%float) /\
  (0 + 0.75 * 0.4 + 1 * 0.4 + 1 * 0.2)%float = 0.9000000000000001%float /\
  PrimFloat.next_up 0.9 = 0.9000000000000001%float /\
  exists scores,
    all_scores example_files example_config = Return scores /\
    forallb (fun kv => String.eqb (fst kv) "react"
                       || (snd kv <? 0.9000000000000001)%float)
            scores = true.
Proof.
  split; [vm_compute; reflexivity|].
  split; [vm_compute; reflexivity|].
  split; [vm_compute; reflexivity|].
  eexists. split; vm_compute; reflexivity.
Qed.

(** C5, as the spec words it, fails: the confidence returned is not the
    double 0.9. *)
Lemma detector_example_not_exactly_09 :
  _detect_project_type example_files example_config <> Return (REACT, 0.9%float).
Proof.
  intros H.
  apply (f_equal (fun r => match r with
                           | Return (_, c) => PrimFloat.eqb c 0.9
                           | Raise _ => true
                           end)) in H.
  vm_compute in H. discriminate H.
Qed.

(** *** The type and the confidence the detector returns *)

(** Every score a catalog row can take is below 0.3 or at least 0.3 (no
    score is a NaN), and the ones a row takes without keyword and script
    matches are at most 0.4. *)
Definition score_table_ordered : bool :=
  forallb (fun kv => forallb (fun c => (c <? 0.3) || (0.3 <=? c))%float
                             (row_scores (snd kv)))
          project_indicators.

Definition file_scores (ind : Indicators) : list float :=
  List.map (fun fm => score_of_counts ind fm 0 0) (seq 0 (S (length (files ind)))).

Definition file_scores_ok : bool :=
  forallb (fun kv => forallb (fun c => (c <=? 0.4)%float) (file_scores (snd kv)))
          project_indicators.

Lemma score_table_ordered_checked : score_table_ordered = true.
Proof. vm_compute. reflexivity. Qed.

Lemma file_scores_checked : file_scores_ok = true.
Proof. vm_compute. reflexivity. Qed.

Lemma type_score_ordered k ind fs config_data c :
  In (k, ind) project_indicators ->
  type_score ind fs config_data = Return c ->
  (c <? 0.3)%float = false ->
  (0.3 <=? c)%float = true.
Proof.
  intros Hin Hc Hlt.
  pose proof score_table_ordered_checked as Hok. unfold score_table_ordered in Hok.
  rewrite forallb_forall in Hok. specialize (Hok _ Hin). cbn [snd] in Hok.
  rewrite forallb_forall in Hok.
  specialize (Hok c (type_score_in_rows ind fs config_data c Hc)).
  rewrite Hlt in Hok. exact Hok.
Qed.

(** A key of the catalog gives its row. *)
Lemma catalog_get k ind :
  In (k, ind) project_indicators -> get project_indicators k = Some ind.
Proof.
  unfold project_indicators. cbn [In]. intros H.
  repeat (destruct H as [H|H]; [injection H as <- <-; reflexivity|]).
  destruct H.
Qed.

Lemma static_in_catalog :
  exists ind, In ("static", ind) project_indicators /\ value STATIC = "static".
Proof.
  eexists. split; [|reflexivity].
  unfold project_indicators. do 11 right. left. reflexivity.
Qed.

(** What the detector returns is a catalog row's type, with a confidence
    between 0.3 and 1 that is the floor (then the type is [static]) or the
    score of that row; the manifest was one it can read. *)
Lemma detect_catalog fs config_data t c :
  _detect_project_type fs config_data = Return (t, c) ->
  well_formed config_data = true /\
  exists k ind,
    In (k, ind) project_indicators /\ value t = k /\
    (0.3 <=? c)%float = true /\ (c <=? 1)%float = true /\
    ((t = STATIC /\ c = 0.3%float) \/ type_score ind fs config_data = Return c).
Proof.
  intros Hdet. destruct (detect_scores _ _ _ Hdet) as [scores Hs].
  split; [exact (all_scores_well_formed fs config_data scores Hs)|].
  destruct (detect_cases fs config_data scores Hs)
    as (k & ind & c' & t' & Hin & Hc & _ & _ & Hv & Hdet').
  rewrite Hdet' in Hdet.
  destruct (c' <? 0.3)%float eqn:Hlt; injection Hdet as <- <-.
  - destruct static_in_catalog as (sind & Hsin & Hsv).
    exists "static", sind.
    split; [exact Hsin|]. split; [exact Hsv|].
    split; [reflexivity|]. split; [reflexivity|]. left. split; reflexivity.
  - exists k, ind.
    split; [exact Hin|]. split; [exact Hv|].
    split; [apply (type_score_ordered k ind fs config_data); assumption|].
    pose proof (type_score_in_unit k ind fs config_data c' Hin Hc) as Hu.
    unfold in_unit in Hu. apply andb_prop in Hu.
    split; [apply Hu | right; exact Hc].
Qed.

(** X20: the detector never leaves the catalog, and it raises on the
    manifests it cannot read only.  When the [dependencies] and
    [devDependencies] entries are objects (or absent) and the [scripts]
    entry is an object, a list or a string (or absent), it returns, for
    any file list, one of the twelve types the catalog has a row for
    (react, vue, angular, nextjs, nuxt, svelte, python, java, go, rust,
    php, static), never [vite], [webpack], [docusaurus] or [unknown], with
    a confidence of at least 0.3 and at most 1.  On every other manifest
    it raises a [TypeError]. *)
Theorem detector_stays_in_catalog (fs : list string) (config_data : ConfigData) :
  match _detect_project_type fs config_data with
  | Return (t, c) =>
      well_formed config_data = true /\
      (0.3 <=? c)%float = true /\ (c <=? 1)%float = true /\
      is_Some (get project_indicators (value t)) /\
      t <> VITE /\ t <> WEBPACK /\ t <> DOCUSAURUS /\ t <> UNKNOWN
  | Raise e =>
      well_formed config_data = false /\ exists msg, e = TypeError msg
  end.
Proof.
  destruct (_detect_project_type fs config_data) as [[t c]|e] eqn:Hdet.
  - destruct (detect_catalog fs config_data t c Hdet)
      as (Hw & k & ind & Hin & Hv & Hlo & Hhi & _).
    split; [exact Hw|]. split; [exact Hlo|]. split; [exact Hhi|].
    pose proof (catalog_get k ind Hin) as Hget. rewrite <- Hv in Hget.
    split; [eauto|].
    repeat split; intros ->; discriminate Hget.
  - destruct (well_formed config_data) eqn:Hw.
    + destruct (detect_returns fs config_data Hw) as (t & c & Hr).
      rewrite Hr in Hdet. discriminate Hdet.
    + split; [reflexivity|].
      destruct (detect_raises fs config_data Hw) as [msg Hm].
      rewrite Hm in Hdet. injection Hdet as <-. exists msg. reflexivity.
Qed.

(** X21: without entries in the manifest the confidence cannot exceed 0.4.
    The keywords of every row, those of python, java, go, rust and php
    included, are looked up in the dependencies of package.json only; when
    the manifest has no dependencies, no devDependencies and no scripts
    (or there is no package.json), only the file term counts, so whatever
    the files are the detector returns a confidence of at most 0.4. *)
Theorem no_manifest_caps_confidence (fs : list string) (config_data : ConfigData) :
  get_dict (cfg_dependencies config_data) = JObject [] ->
  get_dict (cfg_devDependencies config_data) = JObject [] ->
  get_dict (cfg_scripts config_data) = JObject [] ->
  exists t c,
    _detect_project_type fs config_data = Return (t, c) /\
    (0.3 <=? c)%float = true /\ (c <=? 0.4)%float = true.
Proof.
  intros Hdeps Hdev Hscripts.
  assert (Hw : well_formed config_data = true).
  { unfold well_formed. rewrite Hdeps, Hdev, Hscripts. reflexivity. }
  destruct (detect_returns fs config_data Hw) as (t & c & Hdet).
  destruct (detect_catalog fs config_data t c Hdet)
    as (_ & k & ind & Hin & Hv & Hlo & Hhi & Hc).
  exists t, c. split; [exact Hdet|]. split; [exact Hlo|].
  destruct Hc as [[_ ->]|Hc]; [reflexivity|].
  unfold type_score, merged_dependencies in Hc. cbv zeta in Hc.
  rewrite Hdeps, Hdev, Hscripts in Hc. cbn [unpack merge List.map List.filter app] in Hc.
  rewrite keyword_matches_empty, script_matches_empty in Hc. injection Hc as <-.
  pose proof file_scores_checked as Hok. unfold file_scores_ok in Hok.
  rewrite forallb_forall in Hok. specialize (Hok _ Hin). cbn [snd] in Hok.
  rewrite forallb_forall in Hok. apply Hok.
  unfold file_scores. apply in_map_iff. exists (file_matches ind fs).
  split; [reflexivity|]. apply in_seq. pose proof (count_le
    (fun file => existsb (fun f => contains file f) fs) (files ind)) as Hle.
  unfold file_matches. lia.
Qed.

(** Any file list, no package.json. *)
Lemma no_manifest_caps_confidence_witness :
  exists t c,
    _detect_project_type ["requirements.txt"; "main.py"; "app.py"; "manage.py"] empty_config
    = Return (t, c) /\ (c <=? 0.4)%float = true.
Proof.
  destruct (no_manifest_caps_confidence
              ["requirements.txt"; "main.py"; "app.py"; "manage.py"] empty_config
              eq_refl eq_refl eq_refl) as (t & c & Hdet & _ & Hc).
  exists t, c. split; [exact Hdet | exact Hc].
Defined.

(** *** The analysis of a directory *)

(** A directory that holds a Flask application and no package.json. *)
Definition flask_disk : Disk :=
  {| path_exists := fun path => String.eqb path "/tmp/projects/api";
     _read_project_files := fun _ =>
       ["/tmp/projects/api/requirements.txt"; "/tmp/projects/api/main.py";
        "/tmp/projects/api/app.py"; "/tmp/projects/api/manage.py"];
     _read_config_files := fun _ =>
       {| config_data :=
            {| cfg_version := None; cfg_package_manager := Some "pip";
               cfg_scripts := None; cfg_dependencies := None;
               cfg_devDependencies := None |};
          python_dependencies := Some ["flask==3.0.0"];
          rust_dependencies := None |};
     listdir := fun _ => Return ["requirements.txt"; "main.py"; "app.py"; "manage.py"] |}.

(** A directory that holds a Vue application. *)
Definition vue_disk : Disk :=
  {| path_exists := fun path => String.eqb path "/tmp/projects/shop";
     _read_project_files := fun _ =>
       ["/tmp/projects/shop/package.json"; "/tmp/projects/shop/src/App.vue";
        "/tmp/projects/shop/src/main.js"];
     _read_config_files := fun _ =>
       {| config_data :=
            {| cfg_version := Some (JStr "1.0.0"); cfg_package_manager := Some "npm";
               cfg_scripts := Some (JObject [("serve", JStr "vue-cli-service serve");
                                             ("build", JStr "vue-cli-service build")]);
               cfg_dependencies := Some (JObject [("vue", JStr "^3.4.0")]);
               cfg_devDependencies := Some (JObject [("@vue/cli", JStr "^5.0.0")]) |};
          python_dependencies := None;
          rust_dependencies := None |};
     listdir := fun _ => Return ["package.json"; "src"] |}.

(** A directory whose package.json is
    [{"name": "site", "dependencies": null}]. *)
Definition null_dependencies_disk : Disk :=
  {| path_exists := fun path => String.eqb path "/tmp/projects/site";
     _read_project_files := fun _ =>
       ["/tmp/projects/site/package.json"; "/tmp/projects/site/index.html"];
     _read_config_files := fun _ =>
       {| config_data := null_dependencies;
          python_dependencies := None;
          rust_dependencies := None |};
     listdir := fun _ => Return ["package.json"; "index.html"] |}.

(** A directory with a Rust program whose Cargo.toml, read as YAML, has a
    text under [dependencies]. *)
Definition cargo_text_disk : Disk :=
  {| path_exists := fun path => String.eqb path "/tmp/projects/tool";
     _read_project_files := fun _ =>
       ["/tmp/projects/tool/Cargo.toml"; "/tmp/projects/tool/src/main.rs"];
     _read_config_files := fun _ =>
       {| config_data :=
            {| cfg_version := None; cfg_package_manager := Some "cargo";
               cfg_scripts := None; cfg_dependencies := None;
               cfg_devDependencies := None |};
          python_dependencies := None;
          rust_dependencies := Some (JStr "serde") |};
     listdir := fun _ => Return ["Cargo.toml"; "src"] |}.

(** The dependency table the extraction reads for a Rust project is a
    mapping (or absent). *)
Definition cargo_readable (config : ConfigFiles) : bool :=
  is_mapping (get_dict (rust_dependencies config)).

Lemma keys_of_mapping v : is_mapping v = true -> exists names, keys_of v = Return names.
Proof. destruct v; try discriminate; intros _; eexists; reflexivity. Qed.

Lemma keys_of_other v :
  is_mapping v = false -> exists msg, keys_of v = Raise (AttributeError msg).
Proof. destruct v; try discriminate; intros _; eexists; reflexivity. Qed.

(** On a manifest the detector can read, the build strategy raises only
    what [os.listdir] raises. *)
Lemma build_strategy_raises disk project_path t config e :
  well_formed (config_data config) = true ->
  _determine_build_strategy disk project_path t config = Raise e ->
  listdir disk project_path = Raise e /\ (t = PYTHON \/ t = JAVA).
Proof.
  unfold well_formed. intros Hw. apply andb_prop in Hw. destruct Hw as [_ Hs].
  unfold _determine_build_strategy. cbv zeta.
  destruct (str_in_container "build" _ Hs) as [b ->].
  destruct t; cbn [is_frontend]; try discriminate;
    (destruct (listdir disk project_path) as [names|e'];
     [|intros [= <-]; split; [reflexivity | tauto]]).
  - destruct (existsb _ names); discriminate.
  - destruct (existsb _ names); [discriminate|].
    destruct (existsb _ names); discriminate.
Qed.

(** On such a manifest the extraction raises only for a Rust project
    whose dependency table is no mapping. *)
Lemma extract_dependencies_raises config t e :
  well_formed (config_data config) = true ->
  _extract_dependencies config t = Raise e ->
  t = RUST /\ cargo_readable config = false /\ exists msg, e = AttributeError msg.
Proof.
  unfold well_formed. intros Hw. apply andb_prop in Hw. destruct Hw as [Hw _].
  apply andb_prop in Hw. destruct Hw as [Hd Hv].
  unfold _extract_dependencies. cbv zeta.
  destruct (keys_of_mapping _ Hd) as [names ->].
  destruct (keys_of_mapping _ Hv) as [dev_names ->].
  destruct t; cbn [is_frontend]; try discriminate.
  unfold cargo_readable.
  destruct (is_mapping (get_dict (rust_dependencies config))) eqn:Hr.
  - destruct (keys_of_mapping _ Hr) as [rust_names ->]. discriminate.
  - destruct (keys_of_other _ Hr) as [msg ->]. intros [= <-].
    split; [reflexivity|]. split; [reflexivity|]. exists msg. reflexivity.
Qed.

(** What an analysis that returns is made of. *)
Lemma analyze_returns (disk : Disk) (project_path : string) (a : ProjectAnalysis) :
  analyze_project disk project_path = Return a ->
  path_exists disk project_path = true /\
  well_formed (config_data (_read_config_files disk project_path)) = true /\
  exists k ind,
    In (k, ind) project_indicators /\ value (project_type a) = k /\
    pa_port a = port ind /\ pa_base_image a = base_image ind /\
    environment_vars a = _determine_environment_vars (project_type a) /\
    health_check a = Some (_determine_health_check (project_type a) ind) /\
    dockerfile_strategy a = _determine_dockerfile_strategy (project_type a) /\
    _extract_dependencies (_read_config_files disk project_path) (project_type a)
    = Return (dependencies a) /\
    _detect_project_type (_read_project_files disk project_path)
      (config_data (_read_config_files disk project_path))
    = Return (project_type a, confidence_score a) /\
    (0.3 <=? confidence_score a)%float = true /\
    (confidence_score a <=? 1)%float = true.
Proof.
  unfold analyze_project.
  destruct (path_exists disk project_path); [|discriminate]. cbn [negb].
  destruct (_detect_project_type _ _) as [[t c]|e] eqn:Hdet; [|discriminate].
  destruct (detect_catalog _ _ t c Hdet) as (Hw & k & ind & Hin & Hv & Hlo & Hhi & _).
  destruct static_in_catalog as (sind & Hsin & _).
  rewrite (catalog_get "static" sind Hsin). cbv zeta.
  rewrite Hv, (catalog_get k ind Hin).
  destruct (_determine_build_strategy disk project_path t _) as [[bc od]|e]; [|discriminate].
  destruct (_extract_dependencies _ t) as [deps|e] eqn:Hdeps; [|discriminate].
  intros [= <-]. cbn. split; [reflexivity|]. split; [exact Hw|].
  exists k, ind. repeat (split; [first [assumption | reflexivity]|]). exact Hhi.
Qed.

(** A path that does not exist. *)
Lemma analyze_missing (disk : Disk) (project_path : string) :
  path_exists disk project_path = false ->
  analyze_project disk project_path
  = Raise (FileNotFoundError ("Project path does not exist: " ++ project_path)).
Proof. intros H. unfold analyze_project. rewrite H. reflexivity. Qed.

(** A manifest the detector cannot read. *)
Lemma analyze_unreadable (disk : Disk) (project_path : string) :
  path_exists disk project_path = true ->
  well_formed (config_data (_read_config_files disk project_path)) = false ->
  exists msg, analyze_project disk project_path = Raise (TypeError msg).
Proof.
  intros H Hw. unfold analyze_project. rewrite H. cbn [negb]. cbv zeta.
  destruct (detect_raises (_read_project_files disk project_path) _ Hw) as [msg ->].
  exists msg. reflexivity.
Qed.

(** What the analysis raises for a path that exists. *)
Lemma analyze_raises (disk : Disk) (project_path : string) e :
  path_exists disk project_path = true ->
  analyze_project disk project_path = Raise e ->
  let config := _read_config_files disk project_path in
  (well_formed (config_data config) = false /\ exists msg, e = TypeError msg) \/
  (well_formed (config_data config) = true /\ listdir disk project_path = Raise e) \/
  (well_formed (config_data config) = true /\ cargo_readable config = false /\
   exists msg, e = AttributeError msg).
Proof.
  intros H Ha config. subst config.
  destruct (well_formed (config_data (_read_config_files disk project_path))) eqn:Hw.
  - right. revert Ha. unfold analyze_project. rewrite H. cbn [negb]. cbv zeta.
    destruct (_detect_project_type _ _) as [[t c]|e'] eqn:Hdet.
    + destruct static_in_catalog as (sind & Hsin & _).
      rewrite (catalog_get "static" sind Hsin).
      destruct (_determine_build_strategy disk project_path t _) as [[bc od]|e'] eqn:Hb.
      * destruct (_extract_dependencies _ t) as [deps|e'] eqn:Hdeps; [discriminate|].
        intros [= <-]. right. split; [reflexivity|].
        apply (extract_dependencies_raises _ _ _ Hw) in Hdeps. tauto.
      * intros [= <-]. left. split; [reflexivity|].
        apply (build_strategy_raises _ _ _ _ _ Hw Hb).
    + destruct (detect_returns (_read_project_files disk project_path) _ Hw)
        as (t & c & Hr).
      rewrite Hr in Hdet. discriminate Hdet.
  - left. split; [reflexivity|].
    destruct (analyze_unreadable disk project_path H Hw) as [msg Hm].
    rewrite Hm in Ha. injection Ha as <-. exists msg. reflexivity.
Qed.

(** X22: what [analyze_project] answers is decided by the directory.  If
    the path does not exist it raises [FileNotFoundError] "Project path
    does not exist: <path>".  If it exists and the manifest is one the
    detector cannot read (a [dependencies] or [devDependencies] entry
    that is no object, a [scripts] entry that is [null], a number or a
    boolean), it raises a [TypeError].  Otherwise it returns unless
    [os.listdir] raises (that exception is then the one raised) or the
    dependency table read from Cargo.toml is no mapping (then it raises an
    [AttributeError]); in particular it returns whenever the manifest is
    readable, [os.listdir] returns and that table is a mapping or absent.
    A returned analysis has a type of the catalog, the port and base image
    of that type's row, the strategy tag of the type, and the detector's
    confidence, between 0.3 and 1. *)
Theorem analysis_follows_directory (disk : Disk) (project_path : string) :
  let config := _read_config_files disk project_path in
  (path_exists disk project_path = false ->
   analyze_project disk project_path
   = Raise (FileNotFoundError ("Project path does not exist: " ++ project_path))) /\
  (path_exists disk project_path = true ->
   well_formed (config_data config) = false ->
   exists msg, analyze_project disk project_path = Raise (TypeError msg)) /\
  (path_exists disk project_path = true ->
   match analyze_project disk project_path with
   | Return a =>
       well_formed (config_data config) = true /\
       exists ind,
         get project_indicators (value (project_type a)) = Some ind /\
         pa_port a = port ind /\ pa_base_image a = base_image ind /\
         dockerfile_strategy a = _determine_dockerfile_strategy (project_type a) /\
         (0.3 <=? confidence_score a)%float = true /\
         (confidence_score a <=? 1)%float = true
   | Raise e =>
       (well_formed (config_data config) = false /\ exists msg, e = TypeError msg) \/
       (well_formed (config_data config) = true /\ listdir disk project_path = Raise e) \/
       (well_formed (config_data config) = true /\ cargo_readable config = false /\
        exists msg, e = AttributeError msg)
   end) /\
  (path_exists disk project_path = true ->
   well_formed (config_data config) = true ->
   (exists names, listdir disk project_path = Return names) ->
   cargo_readable config = true ->
   exists a, analyze_project disk project_path = Return a).
Proof.
  intros config. subst config.
  split; [|split; [|split]].
  - apply analyze_missing.
  - apply analyze_unreadable.
  - intros H. destruct (analyze_project disk project_path) as [a|e] eqn:Ha.
    + destruct (analyze_returns disk project_path a Ha)
        as (_ & Hw & k & ind & Hin & Hv & Hp & Hb & _ & _ & Hs & _ & _ & Hlo & Hhi).
      split; [exact Hw|].
      exists ind. rewrite Hv. split; [apply catalog_get; exact Hin|].
      repeat (split; [assumption|]). exact Hhi.
    + apply (analyze_raises disk project_path e H Ha).
  - intros H Hw [names Hnames] Hcargo.
    destruct (analyze_project disk project_path) as [a|e] eqn:Ha; [eauto|].
    destruct (analyze_raises disk project_path e H Ha) as [[Hf _]|[[_ Hl]|(_ & Hc & _)]].
    + rewrite Hw in Hf. discriminate Hf.
    + rewrite Hnames in Hl. discriminate Hl.
    + rewrite Hcargo in Hc. discriminate Hc.
Qed.

(** The four answers: the Flask application is analyzed; a path that is
    not there, a package.json with [null] dependencies and a Cargo.toml
    with a text for dependencies make the analysis raise. *)
Lemma analysis_follows_directory_witness :
  (exists a, analyze_project flask_disk "/tmp/projects/api" = Return a) /\
  analyze_project flask_disk "/tmp/projects/demo"
  = Raise (FileNotFoundError "Project path does not exist: /tmp/projects/demo") /\
  (exists msg,
     analyze_project null_dependencies_disk "/tmp/projects/site" = Raise (TypeError msg)) /\
  (exists msg,
     analyze_project cargo_text_disk "/tmp/projects/tool" = Raise (AttributeError msg)).
Proof.
  split; [|split; [|split]].
  - apply (proj2 (proj2 (proj2 (analysis_follows_directory flask_disk "/tmp/projects/api")))).
    + reflexivity.
    + reflexivity.
    + eexists. reflexivity.
    + reflexivity.
  - apply (proj1 (analysis_follows_directory flask_disk "/tmp/projects/demo")).
    reflexivity.
  - apply (proj1 (proj2 (analysis_follows_directory null_dependencies_disk
                           "/tmp/projects/site"))); reflexivity.
  - pose proof (proj1 (proj2 (proj2 (analysis_follows_directory cargo_text_disk
                                       "/tmp/projects/tool"))) eq_refl) as H.
    vm_compute in H.
    destruct H as [[Hf _]|[[_ Hl]|(_ & _ & msg & Hm)]];
      [discriminate Hf | discriminate Hl |].
    exists msg. vm_compute. f_equal. exact Hm.
Defined.

(** X23: the PORT variable of an analysis and its port come from two
    tables that disagree.  For react, nextjs, nuxt, python, java, go and
    rust the PORT environment variable is the decimal text of the port.
    For vue, angular and svelte the variable is "3000" while the port
    (exposed by the Dockerfile, probed by the health check) is 8080, 4200
    and 5173.  For php and static, served on port 80, no PORT variable is
    set. *)
Theorem port_variable_and_port (disk : Disk) (project_path : string) (a : ProjectAnalysis) :
  analyze_project disk project_path = Return a ->
  let variable := get (environment_vars a) "PORT" in
  match project_type a with
  | VUE => variable = Some "3000" /\ pa_port a = 8080%Z
  | ANGULAR => variable = Some "3000" /\ pa_port a = 4200%Z
  | SVELTE => variable = Some "3000" /\ pa_port a = 5173%Z
  | PHP | STATIC => variable = None /\ pa_port a = 80%Z
  | _ => variable = Some (pretty (pa_port a))
  end.
Proof.
  intros Ha variable. subst variable.
  destruct (analyze_returns disk project_path a Ha)
    as (_ & _ & k & ind & Hin & Hv & Hp & _ & He & _).
  apply catalog_get in Hin. rewrite <- Hv in Hin. rewrite He, Hp.
  destruct (project_type a); cbn in Hin;
    first [discriminate Hin | injection Hin as <-]; vm_compute; repeat split.
Qed.

(** The analysis of the Vue application. *)
Lemma port_variable_and_port_witness :
  exists a,
    analyze_project vue_disk "/tmp/projects/shop" = Return a /\
    project_type a = VUE /\
    get (environment_vars a) "PORT" = Some "3000" /\ pa_port a = 8080%Z.
Proof.
  eexists. split; [vm_compute; reflexivity|].
  match goal with
  | |- project_type ?x = _ /\ _ =>
      pose proof (port_variable_and_port vue_disk "/tmp/projects/shop" x
                    ltac:(vm_compute; reflexivity)) as H
  end.
  cbv zeta in H. cbn [project_type] in H. split; [reflexivity | exact H].
Defined.

(** *** The best score *)

(** An integer that orders the finite floats that are not negative as
    [<?] and [<=?] do. *)
Definition rank (c : float) : Z :=
  match Prim2SF c with
  | S754_finite false m e => Z.shiftl (Z.pos m) (e + 1074)
  | _ => 0%Z
  end.

(** Every score a catalog row can take. *)
Definition score_table : list float :=
  kv ← project_indicators; row_scores (snd kv).

(** The scores with their ranks, and the check that the ranks order them. *)
Definition ranked_table : list (float * Z) :=
  List.map (fun c => (c, rank c)) score_table.

Definition ranked_ok (a b : float * Z) : bool :=
  Bool.eqb (fst a <? fst b)%float (snd a <? snd b)%Z &&
  Bool.eqb (fst a <=? fst b)%float (snd a <=? snd b)%Z.

Lemma score_table_ranked_checked :
  forallb (fun a => forallb (ranked_ok a) ranked_table) ranked_table = true.
Proof. vm_compute. reflexivity. Qed.

Lemma ranked_table_spec a b :
  In a ranked_table -> In b ranked_table -> ranked_ok a b = true.
Proof.
  intros Ha Hb.
  pose proof (proj1 (forallb_forall (fun a => forallb (ranked_ok a) ranked_table)
                       ranked_table)
                score_table_ranked_checked a Ha) as H.
  cbv beta in H.
  exact (proj1 (forallb_forall (ranked_ok a) ranked_table) H b Hb).
Qed.

Lemma rank_spec a b :
  In a score_table -> In b score_table ->
  (a <? b)%float = (rank a <? rank b)%Z /\ (a <=? b)%float = (rank a <=? rank b)%Z.
Proof.
  intros Ha Hb.
  assert (Hin : forall c, In c score_table -> In (c, rank c) ranked_table).
  { intros c Hc. unfold ranked_table. apply in_map_iff. exists c.
    split; [reflexivity | exact Hc]. }
  pose proof (ranked_table_spec (a, rank a) (b, rank b) (Hin a Ha) (Hin b Hb)) as H.
  unfold ranked_ok in H. cbn [fst snd] in H.
  apply andb_prop in H. destruct H as [Hlt Hle].
  split; apply Bool.eqb_prop; assumption.
Qed.

Lemma type_score_in_table k ind fs config_data c :
  In (k, ind) project_indicators ->
  type_score ind fs config_data = Return c -> In c score_table.
Proof.
  intros Hin Hc. unfold score_table. apply list_elem_of_In, list_elem_of_bind.
  exists (k, ind). split; [|apply list_elem_of_In; exact Hin].
  apply list_elem_of_In. cbn [snd].
  apply (type_score_in_rows ind fs config_data c Hc).
Qed.

(** [max_from] returns the first entry no entry exceeds. *)
Lemma max_from_first best rest :
  (forall x, In x (best :: rest) -> In (snd x) score_table) ->
  exists pre post,
    (best :: rest = pre ++ max_from best rest :: post)%list /\
    (forall x, In x pre -> (rank (snd x) < rank (snd (max_from best rest)))%Z) /\
    (forall x, In x post -> (rank (snd x) <= rank (snd (max_from best rest)))%Z).
Proof.
  revert best. induction rest as [|kv rest IH]; intros best Hall.
  - exists [], []. split; [reflexivity|]. split; intros x [].
  - cbn [max_from].
    destruct (rank_spec (snd best) (snd kv)
                (Hall best ltac:(left; reflexivity))
                (Hall kv ltac:(right; left; reflexivity))) as [Hlt _].
    rewrite Hlt. destruct (Z.ltb_spec (rank (snd best)) (rank (snd kv))) as [Hbk|Hbk].
    + destruct (IH kv ltac:(intros x Hx; apply Hall; right; exact Hx))
        as (pre & post & Heq & Hpre & Hpost).
      exists (best :: pre), post. split; [cbn [app]; rewrite <- Heq; reflexivity|].
      split; [|exact Hpost].
      intros x [<-|Hx]; [|apply Hpre; exact Hx].
      assert (Hkv : (rank (snd kv) <= rank (snd (max_from kv rest)))%Z).
      { destruct pre as [|y pre].
        - injection Heq as Heq _. rewrite <- Heq. lia.
        - injection Heq as Heq _. subst y.
          specialize (Hpre kv ltac:(left; reflexivity)). lia. }
      lia.
    + destruct (IH best ltac:(intros x [<-|Hx]; apply Hall;
                               [left; reflexivity | right; right; exact Hx]))
        as (pre & post & Heq & Hpre & Hpost).
      destruct pre as [|y pre].
      * injection Heq as Heq Hrest. exists [], (kv :: rest).
        split; [cbn [app]; rewrite <- Heq; reflexivity|].
        split; [intros x []|].
        intros x [<-|Hx]; [rewrite <- Heq; lia|].
        apply Hpost. rewrite <- Hrest. exact Hx.
      * injection Heq as Hy Hrest. subst y.
        exists (best :: kv :: pre), post.
        split; [cbn [app]; f_equal; f_equal; exact Hrest|].
        split; [|exact Hpost].
        pose proof (Hpre best ltac:(left; reflexivity)) as Hb.
        intros x [<-|[<-|Hx]]; [exact Hb | lia | apply Hpre; right; exact Hx].
Qed.

(** X28: the detector picks the best score, and on a tie the type listed
    first.  On a manifest the detector can read, the loop gives one score
    per catalog row, in the order of the catalog, and the scores split
    around the entry [max] picks: every entry before it scores strictly
    less and no entry after it scores more; so among the types with the
    greatest score the one the catalog lists first is chosen (react before
    nextjs, vue before nuxt).  The detector returns that type with that
    score, or [(static, 0.3)] when the score is below 0.3. *)
Theorem detector_picks_first_best (fs : list string) (config_data : ConfigData) :
  well_formed config_data = true ->
  exists scores pre k c post t,
    all_scores fs config_data = Return scores /\
    List.map fst scores = List.map fst project_indicators /\
    scores = (pre ++ (k, c) :: post)%list /\
    (forall x, In x pre -> (snd x <? c)%float = true) /\
    (forall x, In x post -> (snd x <=? c)%float = true) /\
    ProjectType_of k = Return t /\ value t = k /\
    _detect_project_type fs config_data =
      Return (if (c <? 0.3)%float then (STATIC, 0.3%float) else (t, c)).
Proof.
  intros Hw. destruct (all_scores_returns fs config_data Hw) as [scores Hs].
  destruct (scores_of_spec _ _ _ _ Hs) as [Hkeys Hrows].
  assert (Hall : forall x, In x scores -> In (snd x) score_table).
  { intros [k c] Hx. destruct (Hrows k c Hx) as (ind & Hin & Hc).
    apply (type_score_in_table k ind fs config_data c Hin Hc). }
  destruct (detect_cases fs config_data scores Hs)
    as (k & ind & c & t & Hin & Hc & Hmax & Ht & Hv & Hdet).
  destruct scores as [|best rest]; [discriminate Hmax|].
  cbn [max_by_score] in Hmax. injection Hmax as Hmax.
  destruct (max_from_first best rest Hall) as (pre & post & Heq & Hpre & Hpost).
  rewrite Hmax in Heq, Hpre, Hpost. cbn [snd] in Hpre, Hpost.
  assert (Hct : In c score_table)
    by (apply (type_score_in_table k ind fs config_data c Hin Hc)).
  exists (best :: rest), pre, k, c, post, t.
  split; [exact Hs|]. split; [exact Hkeys|]. split; [exact Heq|].
  split.
  { intros x Hx.
    destruct (rank_spec (snd x) c
                (Hall x ltac:(rewrite Heq; apply in_or_app; left; exact Hx)) Hct)
      as [-> _].
    apply Z.ltb_lt. apply Hpre. exact Hx. }
  split.
  { intros x Hx.
    destruct (rank_spec (snd x) c
                (Hall x ltac:(rewrite Heq; apply in_or_app; right; right; exact Hx)) Hct)
      as [_ ->].
    apply Z.leb_le. apply Hpost. exact Hx. }
  split; [exact Ht|]. split; [exact Hv | exact Hdet].
Qed.

(** A tie: with only package.json in the tree and no manifest entries,
    the six rows that list package.json score alike and react, the first
    of them, is the entry picked. *)
Lemma detector_picks_first_best_witness :
  exists scores pre k c post t,
    all_scores ["/tmp/projects/site/package.json"] empty_config = Return scores /\
    List.map fst scores = List.map fst project_indicators /\
    scores = (pre ++ (k, c) :: post)%list /\
    (forall x, In x pre -> (snd x <? c)%float = true) /\
    (forall x, In x post -> (snd x <=? c)%float = true) /\
    ProjectType_of k = Return t /\ value t = k /\
    _detect_project_type ["/tmp/projects/site/package.json"] empty_config =
      Return (if (c <? 0.3)%float then (STATIC, 0.3%float) else (t, c)).
Proof.
  exact (detector_picks_first_best ["/tmp/projects/site/package.json"] empty_config eq_refl).
Defined.

End ProjectAnalyzerSpec.

(** ** The Dockerfile generators *)

Module ContainerizationSpec.
Import Py ProjectAnalyzer Containerization.

Local Open Scope string_scope.

(** A profile of the given type and strategy tag, with the base image and
    port of a node project. *)
Definition profile (t : ProjectType) (tag : string) : ProjectAnalysis :=
  {| project_type := t;
     framework_version := JNull;
     package_manager := "npm";
     build_command := Some "npm run build";
     output_dir := Some "dist";
     dependencies := [];
     environment_vars := [];
     pa_port := 3000;
     health_check := None;
     dockerfile_strategy := tag;
     pa_base_image := "node:18-alpine";
     confidence_score := 1%float |}.

(** The profile [analyze_project] builds for a react project: its strategy
    tag is the one [_determine_dockerfile_strategy] gives. *)
Definition react_profile : ProjectAnalysis :=
  profile REACT (_determine_dockerfile_strategy REACT).

(** The same profile with another strategy tag. *)
Definition with_strategy (tag : string) (a : ProjectAnalysis) : ProjectAnalysis :=
  {| project_type := project_type a;
     framework_version := framework_version a;
     package_manager := package_manager a;
     build_command := build_command a;
     output_dir := output_dir a;
     dependencies := dependencies a;
     environment_vars := environment_vars a;
     pa_port := pa_port a;
     health_check := health_check a;
     dockerfile_strategy := tag;
     pa_base_image := pa_base_image a;
     confidence_score := confidence_score a |}.

(** The generic template as a function of a base image and a port only. *)
Definition generic_template (image : string) (p : Z) : string :=
  _generate_generic_dockerfile
    {| project_type := UNKNOWN;
       framework_version := JNull;
       package_manager := EmptyString;
       build_command := None;
       output_dir := None;
       dependencies := [];
       environment_vars := [];
       pa_port := p;
       health_check := None;
       dockerfile_strategy := EmptyString;
       pa_base_image := image;
       confidence_score := 0%float |}.

(** The project types [dockerfile_templates] has no generator for. *)
Definition without_generator (t : ProjectType) : bool :=
  match t with
  | VITE | WEBPACK | DOCUSAURUS | UNKNOWN => true
  | _ => false
  end.

Lemma templates_domain (t : ProjectType) :
  get dockerfile_templates (value t) = None <-> without_generator t = true.
Proof. destruct t; cbn; split; intros H; solve [reflexivity | discriminate H]. Qed.

Lemma generic_only_image_and_port (a : ProjectAnalysis) :
  _generate_generic_dockerfile a = generic_template (pa_base_image a) (pa_port a).
Proof. reflexivity. Qed.

Lemma strategy_tag_ignored (tag : string) (a : ProjectAnalysis) (project_path : string) :
  _generate_dockerfile (with_strategy tag a) project_path = _generate_dockerfile a project_path.
Proof.
  unfold _generate_dockerfile. change (project_type (with_strategy tag a)) with (project_type a).
  destruct (project_type a); reflexivity.
Qed.

(** C6, as the code has it: the Dockerfile generator is selected by the
    value of the profile's project type; the strategy tag plays no part in
    the selection.  The project types with no generator (vite, webpack,
    docusaurus, unknown) get the generic single-stage template, whose text
    depends on the profile's base image and port only. *)
Theorem dockerfile_selected_by_project_type (a : ProjectAnalysis) (project_path : string) :
  (forall generator,
      get dockerfile_templates (value (project_type a)) = Some generator ->
      _generate_dockerfile a project_path = generator a project_path) /\
  (get dockerfile_templates (value (project_type a)) = None ->
   _generate_dockerfile a project_path = generic_template (pa_base_image a) (pa_port a)) /\
  (get dockerfile_templates (value (project_type a)) = None <->
   without_generator (project_type a) = true) /\
  (forall tag,
      _generate_dockerfile (with_strategy tag a) project_path
      = _generate_dockerfile a project_path).
Proof.
  split; [|split; [|split]].
  - intros generator Hg. unfold _generate_dockerfile. rewrite Hg. reflexivity.
  - intros Hnone. unfold _generate_dockerfile. rewrite Hnone.
    apply generic_only_image_and_port.
  - apply templates_domain.
  - intros tag. apply strategy_tag_ignored.
Qed.

(** A profile of unknown type gets the generic template. *)
Lemma dockerfile_selected_by_project_type_witness :
  _generate_dockerfile (profile UNKNOWN "simple") "/tmp/projects/demo"
  = generic_template "node:18-alpine" 3000.
Proof.
  exact (proj1 (proj2 (dockerfile_selected_by_project_type
                         (profile UNKNOWN "simple") "/tmp/projects/demo")) eq_refl).
Defined.

(** C6, as the spec words it, fails: the tag of a react profile,
    [multi-stage-build], is no key of [dockerfile_templates], and the
    profile gets the react template, not the generic one. *)
Lemma strategy_tag_does_not_select :
  ~ (forall (a : ProjectAnalysis) (project_path : string),
        get dockerfile_templates (dockerfile_strategy a) = None ->
        _generate_dockerfile a project_path = _generate_generic_dockerfile a).
Proof.
  intros H.
  specialize (H react_profile "/tmp/projects/demo" eq_refl).
  apply (f_equal (String.prefix "# Multi-stage build for React app")) in H.
  vm_compute in H. discriminate H.
Qed.

(** *** What the artifacts depend on *)

(** X24: the generated files depend on the project type and the port, and
    for a type without a generator on the base image; on nothing else.  Two
    analyses of the same type and port (and base image, when the type has
    no generator) get the same Dockerfile, the same two Compose files, the
    same .dockerignore and the same image name, whatever their build
    command, output directory, dependencies, environment variables, health
    check, package manager, framework version and strategy tag, and
    whatever the project path. *)
Theorem artifacts_depend_on_type_and_port (a b : ProjectAnalysis)
    (path_a path_b : string) :
  project_type a = project_type b ->
  pa_port a = pa_port b ->
  (without_generator (project_type a) = true -> pa_base_image a = pa_base_image b) ->
  exists artifacts_a artifacts_b,
    containerize_project a path_a = Return artifacts_a /\
    containerize_project b path_b = Return artifacts_b /\
    dockerfile artifacts_a = dockerfile artifacts_b /\
    docker_compose artifacts_a = docker_compose artifacts_b /\
    docker_compose_prod artifacts_a = docker_compose_prod artifacts_b /\
    dockerignore artifacts_a = dockerignore artifacts_b /\
    image_name artifacts_a = image_name artifacts_b.
Proof.
  intros Ht Hp Hi. unfold containerize_project. cbv zeta.
  eexists. eexists. split; [reflexivity|]. split; [reflexivity|].
  cbn [dockerfile docker_compose docker_compose_prod dockerignore image_name].
  split.
  { unfold _generate_dockerfile. cbv zeta. rewrite <- Ht.
    destruct (project_type a) eqn:Hta;
      cbn [value get dockerfile_templates String.eqb Ascii.eqb Bool.eqb];
      first
        [ unfold _generate_generic_dockerfile; rewrite <- Hp, <- (Hi eq_refl); reflexivity
        | unfold _generate_react_dockerfile, _generate_vue_dockerfile,
            _generate_angular_dockerfile, _generate_nextjs_dockerfile,
            _generate_nuxt_dockerfile, _generate_svelte_dockerfile,
            _generate_python_dockerfile, _generate_java_dockerfile,
            _generate_go_dockerfile, _generate_rust_dockerfile,
            _generate_php_dockerfile, _generate_static_dockerfile;
          rewrite <- Hp; reflexivity ]. }
  split; [unfold _generate_docker_compose; rewrite <- Ht, <- Hp; reflexivity|].
  split; [unfold _generate_docker_compose_prod; rewrite <- Ht, <- Hp; reflexivity|].
  split; [unfold _generate_dockerignore; rewrite <- ?Ht, <- ?Hp; reflexivity|].
  rewrite <- Ht. reflexivity.
Qed.

(** *** The port in the generated files *)

Lemma append_assoc (a b c : string) : (a ++ b) ++ c = a ++ b ++ c.
Proof.
  induction a as [|x a IH]; [reflexivity|].
  change (String x ((a ++ b) ++ c) = String x (a ++ b ++ c)). rewrite IH. reflexivity.
Qed.

Lemma prefix_append (n r : string) : String.prefix n (n ++ r) = true.
Proof.
  induction n as [|x n IH]; [destruct r; reflexivity|].
  change (String x n ++ r) with (String x (n ++ r)).
  change ((if Ascii.ascii_dec x x then String.prefix n (n ++ r) else false) = true).
  destruct (Ascii.ascii_dec x x) as [_|H]; [exact IH | destruct H; reflexivity].
Qed.

Lemma contains_append_r (n a b : string) : contains n b = true -> contains n (a ++ b) = true.
Proof.
  intros H. induction a as [|x a IH]; [exact H|].
  change (String x a ++ b) with (String x (a ++ b)).
  change (String.prefix n (String x (a ++ b)) || contains n (a ++ b) = true).
  rewrite IH. apply orb_true_r.
Qed.

Lemma contains_here (n r : string) : contains n (n ++ r) = true.
Proof.
  destruct (n ++ r) eqn:E; cbn [contains]; rewrite <- E, prefix_append; reflexivity.
Qed.

(** The text [suffix ++ x] occurs where [x] follows a text that ends with
    [suffix]. *)
Lemma contains_split (suffix x before rest : string) :
  contains (suffix ++ x) ((before ++ suffix) ++ x ++ rest) = true.
Proof.
  rewrite append_assoc. apply contains_append_r.
  rewrite <- append_assoc. apply contains_here.
Qed.

(** Finds [suffix ++ x] in a concatenation: the first piece that ends with
    [suffix] and is followed by [x]. *)
Ltac find_after :=
  lazymatch goal with
  | |- contains (?suffix ++ ?x) (?piece ++ ?x ++ ?rest) = true =>
      let n := eval vm_compute in (String.length piece - String.length suffix)%nat in
      let before := eval vm_compute in (String.substring 0 n piece) in
      replace piece with (before ++ suffix) by (vm_compute; reflexivity);
      apply contains_split
  | |- contains _ (_ ++ _) = true => apply contains_append_r; find_after
  end.

(** X25: every generated file names the port of the analysis.  Whatever
    the analysis, the Dockerfile (of each of the twelve generators and the
    generic one) has an instruction [EXPOSE <port>], and both Compose files
    publish the port under the same number, as ["<port>:<port>"]. *)
Theorem generated_files_name_the_port (a : ProjectAnalysis) (project_path : string) :
  let p := str_int (pa_port a) in
  contains ("EXPOSE " ++ p) (_generate_dockerfile a project_path) = true /\
  contains (dq ++ p ++ ":" ++ p ++ dq) (_generate_docker_compose a) = true /\
  contains (dq ++ p ++ ":" ++ p ++ dq) (_generate_docker_compose_prod a) = true.
Proof.
  intros p. subst p. split; [|split].
  - unfold _generate_dockerfile. cbv zeta.
    destruct (project_type a);
      cbn [value get dockerfile_templates String.eqb Ascii.eqb Bool.eqb];
      unfold _generate_generic_dockerfile,
        _generate_react_dockerfile, _generate_vue_dockerfile,
        _generate_angular_dockerfile, _generate_nextjs_dockerfile,
        _generate_nuxt_dockerfile, _generate_svelte_dockerfile,
        _generate_python_dockerfile, _generate_java_dockerfile,
        _generate_go_dockerfile, _generate_rust_dockerfile,
        _generate_php_dockerfile, _generate_static_dockerfile;
      find_after.
  - unfold _generate_docker_compose. apply contains_append_r.
    match goal with
    | |- contains (dq ++ ?x ++ ":" ++ ?x ++ dq) (dq ++ ?x ++ ":" ++ ?x ++ dq ++ ?rest) = true =>
        replace (dq ++ x ++ ":" ++ x ++ dq ++ rest) with ((dq ++ x ++ ":" ++ x ++ dq) ++ rest)
          by (rewrite !append_assoc; reflexivity)
    end.
    apply contains_here.
  - unfold _generate_docker_compose_prod. apply contains_append_r.
    match goal with
    | |- contains (dq ++ ?x ++ ":" ++ ?x ++ dq) (dq ++ ?x ++ ":" ++ ?x ++ dq ++ ?rest) = true =>
        replace (dq ++ x ++ ":" ++ x ++ dq ++ rest) with ((dq ++ x ++ ":" ++ x ++ dq) ++ rest)
          by (rewrite !append_assoc; reflexivity)
    end.
    apply contains_here.
Qed.

(** *** From the analysis to the Dockerfile *)

(** X26: a project that was analyzed never gets the generic Dockerfile.
    The type [analyze_project] returns always has a generator in
    [dockerfile_templates], so for any analysis it returns
    [containerize_project] returns artifacts whose Dockerfile is that
    generator's, whose port is the port of the type's catalog row, and
    whose image is named [<type>-app:latest]; the generic template, and
    with it the base image of the analysis, is never used. *)
Theorem analyzed_project_has_generator (disk : Disk) (project_path path : string)
    (a : ProjectAnalysis) :
  analyze_project disk project_path = Return a ->
  exists generator ind artifacts,
    get dockerfile_templates (value (project_type a)) = Some generator /\
    get project_indicators (value (project_type a)) = Some ind /\
    containerize_project a path = Return artifacts /\
    dockerfile artifacts = generator a path /\
    art_port artifacts = port ind /\
    image_name artifacts = value (project_type a) ++ "-app:latest" /\
    without_generator (project_type a) = false /\
    forall image, dockerfile artifacts <> generic_template image (pa_port a).
Proof.
  intros Ha.
  destruct (ProjectAnalyzerSpec.analyze_returns disk project_path a Ha)
    as (_ & _ & k & ind & Hin & Hv & Hp & _).
  apply ProjectAnalyzerSpec.catalog_get in Hin. rewrite <- Hv in Hin.
  assert (Hgen : exists generator,
             get dockerfile_templates (value (project_type a)) = Some generator /\
             without_generator (project_type a) = false /\
             forall image, generator a path <> generic_template image (pa_port a)).
  { destruct (project_type a); cbn in Hin; try discriminate Hin;
      (eexists; split; [reflexivity|]; split; [reflexivity|]);
      intros image H;
      apply (f_equal (String.prefix "# Generic Dockerfile")) in H;
      vm_compute in H; discriminate H. }
  destruct Hgen as (generator & Hg & Hw & Hne).
  exists generator, ind. eexists.
  split; [exact Hg|]. split; [exact Hin|].
  unfold containerize_project. cbv zeta. split; [reflexivity|].
  cbn [dockerfile art_port image_name].
  unfold _generate_dockerfile. cbv zeta. rewrite Hg.
  split; [reflexivity|]. split; [exact Hp|]. split; [reflexivity|].
  split; [exact Hw | exact Hne].
Qed.

(** The Vue application, analyzed and containerized. *)
Lemma analyzed_project_has_generator_witness :
  exists a artifacts,
    analyze_project ProjectAnalyzerSpec.vue_disk "/tmp/projects/shop" = Return a /\
    containerize_project a "/tmp/projects/shop" = Return artifacts /\
    art_port artifacts = 8080%Z.
Proof.
  eexists.
  match goal with
  | |- exists artifacts, analyze_project _ _ = Return ?x /\ _ =>
      destruct (analyzed_project_has_generator ProjectAnalyzerSpec.vue_disk
                  "/tmp/projects/shop" "/tmp/projects/shop" x)
        as (generator & ind & artifacts & _ & Hind & Hc & _ & Hp & _)
  end.
  - vm_compute. reflexivity.
  - exists artifacts. split; [reflexivity|]. split; [exact Hc|].
    rewrite Hp. cbn in Hind. injection Hind as <-. reflexivity.
Defined.

(** Two react analyses that differ in everything but type and port. *)
Lemma artifacts_depend_on_type_and_port_witness :
  exists x y,
    containerize_project react_profile "/tmp/projects/demo" = Return x /\
    containerize_project
      {| project_type := REACT;
         framework_version := JStr "18.2.0";
         package_manager := "yarn";
         build_command := Some "yarn build";
         output_dir := Some "build";
         dependencies := ["react"];
         environment_vars := [("PORT", "3000")];
         pa_port := 3000;
         health_check := None;
         dockerfile_strategy := "simple";
         pa_base_image := "node:20";
         confidence_score := 0.5%float |} "/srv/app" = Return y /\
    dockerfile x = dockerfile y.
Proof.
  destruct (artifacts_depend_on_type_and_port react_profile
              {| project_type := REACT;
                 framework_version := JStr "18.2.0";
                 package_manager := "yarn";
                 build_command := Some "yarn build";
                 output_dir := Some "build";
                 dependencies := ["react"];
                 environment_vars := [("PORT", "3000")];
                 pa_port := 3000;
                 health_check := None;
                 dockerfile_strategy := "simple";
                 pa_base_image := "node:20";
                 confidence_score := 0.5%float |}
              "/tmp/projects/demo" "/srv/app" eq_refl eq_refl)
    as (x & y & Hx & Hy & Hd & _).
  - intros H. discriminate H.
  - exists x, y. split; [exact Hx|]. split; [exact Hy | exact Hd].
Defined.

End ContainerizationSpec.

(** ** The scaling decision *)

Module AutoScalingSpec.
Import Py AutoScaling.

Local Open Scope string_scope.
Local Open Scope Q_scope.

(** The four fields of a decision a caller acts on (the [metrics] field
    repeats the snapshot). *)
Definition same_answer (d1 d2 : ScalingDecision) : Prop :=
  direction d1 = direction d2 /\
  target_capacity d1 = target_capacity d2 /\
  reason d1 = reason d2 /\
  confidence d1 = confidence d2.

(** The snapshots of the spec's examples. *)
Definition snapshot_high : gmap string Q :=
  {[ "cpu_utilization" := 85; "memory_utilization" := 50; "current_capacity" := 2 ]}.

Definition snapshot_low : gmap string Q :=
  {[ "cpu_utilization" := 5; "memory_utilization" := 10; "request_count" := 0;
     "current_capacity" := 4 ]}.

Definition snapshot_normal : gmap string Q :=
  {[ "cpu_utilization" := 50; "memory_utilization" := 50; "request_count" := 50;
     "current_capacity" := 3 ]}.

(** An idle ECS service with four running tasks, by what its clients
    answer, and the snapshot [get_cloudwatch_metrics] builds of it: an ECS
    snapshot has no request count. *)
Definition idle_service : Aws :=
  {| get_metric_statistics := fun _ metric_name _ =>
       if String.eqb metric_name "CPUUtilization" then Return [5] else Return [10];
     describe_services := fun _ => Return [4] |}.

Definition snapshot_idle_service : gmap string Q :=
  <["current_capacity" := 4]>
    (<["memory_utilization" := 10]> (<["cpu_utilization" := 5]> ∅)).

(** A snapshot with a high CPU reading and nothing else. *)
Definition snapshot_cpu_only : gmap string Q := {[ "cpu_utilization" := 90 ]}.

(** AWS clients without credentials: every call raises. *)
Definition no_credentials : Aws :=
  {| get_metric_statistics := fun _ _ _ => Raise (ClientError "Unable to locate credentials");
     describe_services := fun _ => Raise (ClientError "Unable to locate credentials") |}.

Lemma Qlt_bool_iff (a b : Q) : Qlt_bool a b = true <-> a < b.
Proof.
  unfold Qlt_bool. rewrite negb_true_iff. split; intros H.
  - apply Qnot_le_lt. intros Hle. apply Qle_bool_iff in Hle. congruence.
  - apply not_true_is_false. intros Hle. apply Qle_bool_iff in Hle.
    exact (Qlt_not_le _ _ H Hle).
Qed.

Lemma Qlt_bool_false (a b : Q) : Qlt_bool a b = false <-> ~ a < b.
Proof.
  rewrite <- Qlt_bool_iff. destruct (Qlt_bool a b); split; intros H;
    solve [discriminate H | reflexivity | intros H'; discriminate H' | exfalso; apply H; reflexivity].
Qed.

Lemma Qlt_bool_spec (a b : Q) : reflect (a < b) (Qlt_bool a b).
Proof.
  destruct (Qlt_bool a b) eqn:H; constructor.
  - apply Qlt_bool_iff. exact H.
  - apply Qlt_bool_false. exact H.
Qed.

Lemma py_min_Qmin (a b : Q) : py_min a b == Qmin a b.
Proof.
  unfold py_min. destruct (Qlt_bool b a) eqn:H.
  - apply Qlt_bool_iff in H. symmetry. apply Q.min_r. apply Qlt_le_weak. exact H.
  - apply Qlt_bool_false in H. symmetry. apply Q.min_l. apply Qnot_lt_le. exact H.
Qed.

Lemma py_max_Qmax (a b : Q) : py_max a b == Qmax a b.
Proof.
  unfold py_max. destruct (Qlt_bool a b) eqn:H.
  - apply Qlt_bool_iff in H. symmetry. apply Q.max_r. apply Qlt_le_weak. exact H.
  - apply Qlt_bool_false in H. symmetry. apply Q.max_l. apply Qnot_lt_le. exact H.
Qed.

Lemma get_metric_present (m : gmap string Q) key v default :
  m !! key = Some v -> get_metric m key default = v.
Proof. intros H. unfold get_metric. rewrite H. reflexivity. Qed.

(** Writing the default under a missing key changes no reading. *)
Lemma get_metric_insert_default (m : gmap string Q) key key' v default :
  m !! key = None ->
  (key = key' -> v = default) ->
  get_metric (<[key := v]> m) key' default = get_metric m key' default.
Proof.
  intros Hnone Hdef. unfold get_metric.
  destruct (decide (key = key')) as [<-|Hne].
  - rewrite lookup_insert_eq, Hnone. apply Hdef. reflexivity.
  - rewrite lookup_insert_ne by exact Hne. reflexivity.
Qed.

(** The rule reads the snapshot through four [get] calls only. *)
Lemma rule_reads (m1 m2 : gmap string Q) :
  get_metric m1 "cpu_utilization" 0 = get_metric m2 "cpu_utilization" 0 ->
  get_metric m1 "memory_utilization" 0 = get_metric m2 "memory_utilization" 0 ->
  get_metric m1 "request_count" 0 = get_metric m2 "request_count" 0 ->
  get_metric m1 "current_capacity" 1 = get_metric m2 "current_capacity" 1 ->
  same_answer (scaling_rule m1) (scaling_rule m2).
Proof.
  intros Hc Hm Hr Hk. unfold scaling_rule. rewrite Hc, Hm, Hr, Hk.
  destruct (Qlt_bool 80 _ || Qlt_bool 85 _); [repeat split|].
  destruct (Qlt_bool _ 20 && Qlt_bool _ 30 && Qlt_bool _ 10); repeat split.
Qed.

(** [get_cloudwatch_metrics] returns a snapshot whatever the clients do:
    the [except] branch of [analyze_scaling_metrics] is never taken for a
    failure of theirs. *)
Lemma get_cloudwatch_metrics_returns (aws : Aws) (resource_id resource_type : string) :
  exists m, get_cloudwatch_metrics aws resource_id resource_type = Return m /\
            analyze_scaling_metrics aws resource_id resource_type
            = Return (scaling_rule m).
Proof.
  unfold analyze_scaling_metrics, get_cloudwatch_metrics.
  destruct (collect_metrics aws resource_id resource_type) as [m|e];
    eexists; split; reflexivity.
Qed.

(** A failed retrieval is answered as the empty snapshot is. *)
Lemma retrieval_failure_as_empty (aws : Aws) (resource_id resource_type : string) e :
  collect_metrics aws resource_id resource_type = Raise e ->
  analyze_scaling_metrics aws resource_id resource_type = Return (scaling_rule ∅).
Proof.
  intros H. unfold analyze_scaling_metrics, get_cloudwatch_metrics. rewrite H. reflexivity.
Qed.

(** The rule in terms of what it reads from the snapshot: the three
    utilization fields with default 0 and the capacity with default 1. *)
Lemma rule_by_readings (m : gmap string Q) :
  let cpu := get_metric m "cpu_utilization" 0 in
  let mem := get_metric m "memory_utilization" 0 in
  let req := get_metric m "request_count" 0 in
  let cap := get_metric m "current_capacity" 1 in
  let d := scaling_rule m in
  (80 < cpu \/ 85 < mem ->
   direction d = "up" /\ target_capacity d == Qmin (cap * 2) 20 /\
   confidence d = 0.9%float) /\
  (~ (80 < cpu \/ 85 < mem) -> cpu < 20 /\ mem < 30 /\ req < 10 ->
   direction d = "down" /\ target_capacity d == Qmax (inject_Z (Qfloor (cap / 2))) 1 /\
   confidence d = 0.8%float) /\
  (~ (80 < cpu \/ 85 < mem) -> ~ (cpu < 20 /\ mem < 30 /\ req < 10) ->
   direction d = "none" /\ target_capacity d = cap /\ confidence d = 0.7%float).
Proof.
  intros cpu mem req cap d. subst d. unfold scaling_rule.
  fold cpu mem req cap.
  destruct (Qlt_bool_spec 80 cpu) as [H80|H80]; destruct (Qlt_bool_spec 85 mem) as [H85|H85];
    cbn [orb].
  1-3: (split; [intros _; cbn; repeat split; apply py_min_Qmin |
                split; intros Hn; exfalso; apply Hn; tauto]).
  destruct (Qlt_bool_spec cpu 20) as [Hc|Hc]; destruct (Qlt_bool_spec mem 30) as [Hm|Hm];
    destruct (Qlt_bool_spec req 10) as [Hr|Hr]; cbn [andb];
    (split; [intros Hup; exfalso; tauto|]); split;
    try (intros _ _; cbn; repeat split; apply py_max_Qmax);
    try (intros _ Hlow; exfalso; tauto);
    try (intros _ _; cbn; repeat split).
Qed.

(** C3: on every snapshot the decision follows the three-way rule on the
    four readings, a field the snapshot lacks being read by its default
    (scale up to [min(2c, 20)] with confidence 0.9, scale down to
    [max(floor(c/2), 1)] with confidence 0.8, or stay at [c] with
    confidence 0.7); on a snapshot that has the four fields the readings
    are the fields; a snapshot that was obtained is answered by that rule;
    the three examples of the spec evaluate as it says; and so does the
    snapshot of an idle ECS service, which has no request count, and the
    answer of [analyze_scaling_metrics] for that service. *)
Theorem decision_rule :
  (forall (m : gmap string Q),
      let cpu := get_metric m "cpu_utilization" 0 in
      let mem := get_metric m "memory_utilization" 0 in
      let req := get_metric m "request_count" 0 in
      let cap := get_metric m "current_capacity" 1 in
      let d := scaling_rule m in
      (80 < cpu \/ 85 < mem ->
       direction d = "up" /\ target_capacity d == Qmin (cap * 2) 20 /\
       confidence d = 0.9%float) /\
      (~ (80 < cpu \/ 85 < mem) -> cpu < 20 /\ mem < 30 /\ req < 10 ->
       direction d = "down" /\ target_capacity d == Qmax (inject_Z (Qfloor (cap / 2))) 1 /\
       confidence d = 0.8%float) /\
      (~ (80 < cpu \/ 85 < mem) -> ~ (cpu < 20 /\ mem < 30 /\ req < 10) ->
       direction d = "none" /\ target_capacity d = cap /\ confidence d = 0.7%float)) /\
  (forall (m : gmap string Q) (cpu mem req cap : Q),
      m !! "cpu_utilization" = Some cpu ->
      m !! "memory_utilization" = Some mem ->
      m !! "request_count" = Some req ->
      m !! "current_capacity" = Some cap ->
      let d := scaling_rule m in
      (80 < cpu \/ 85 < mem ->
       direction d = "up" /\ target_capacity d == Qmin (cap * 2) 20 /\
       confidence d = 0.9%float) /\
      (~ (80 < cpu \/ 85 < mem) -> cpu < 20 /\ mem < 30 /\ req < 10 ->
       direction d = "down" /\ target_capacity d == Qmax (inject_Z (Qfloor (cap / 2))) 1 /\
       confidence d = 0.8%float) /\
      (~ (80 < cpu \/ 85 < mem) -> ~ (cpu < 20 /\ mem < 30 /\ req < 10) ->
       direction d = "none" /\ target_capacity d = cap /\ confidence d = 0.7%float)) /\
  (forall (aws : Aws) (resource_id resource_type : string) (m : gmap string Q),
      collect_metrics aws resource_id resource_type = Return m ->
      analyze_scaling_metrics aws resource_id resource_type = Return (scaling_rule m)) /\
  (let d := scaling_rule snapshot_high in
   direction d = "up" /\ target_capacity d = 4 /\ confidence d = 0.9%float) /\
  (let d := scaling_rule snapshot_low in
   direction d = "down" /\ target_capacity d = 2 /\ confidence d = 0.8%float) /\
  (let d := scaling_rule snapshot_normal in
   direction d = "none" /\ target_capacity d = 3 /\ confidence d = 0.7%float) /\
  (let d := scaling_rule snapshot_idle_service in
   direction d = "down" /\ target_capacity d = 2 /\ confidence d = 0.8%float) /\
  (collect_metrics idle_service "web" "ecs" = Return snapshot_idle_service /\
   snapshot_idle_service !! "request_count" = None /\
   analyze_scaling_metrics idle_service "web" "ecs"
   = Return (scaling_rule snapshot_idle_service)).
Proof.
  assert (Hobtained :
            forall (aws : Aws) (resource_id resource_type : string) (m : gmap string Q),
              collect_metrics aws resource_id resource_type = Return m ->
              analyze_scaling_metrics aws resource_id resource_type
              = Return (scaling_rule m)).
  { intros aws resource_id resource_type m H.
    unfold analyze_scaling_metrics, get_cloudwatch_metrics. rewrite H. reflexivity. }
  assert (Hidle : collect_metrics idle_service "web" "ecs" = Return snapshot_idle_service)
    by reflexivity.
  split; [exact rule_by_readings|].
  split; [|split; [exact Hobtained|]].
  2: { split; [vm_compute; repeat split; reflexivity|].
       split; [vm_compute; repeat split; reflexivity|].
       split; [vm_compute; repeat split; reflexivity|].
       split; [vm_compute; repeat split; reflexivity|].
       split; [exact Hidle|]. split; [vm_compute; reflexivity|].
       apply Hobtained. exact Hidle. }
  intros m cpu mem req cap Hcpu Hmem Hreq Hcap.
  pose proof (rule_by_readings m) as H. cbv zeta in H.
  rewrite (get_metric_present _ _ _ _ Hcpu), (get_metric_present _ _ _ _ Hmem),
    (get_metric_present _ _ _ _ Hreq), (get_metric_present _ _ _ _ Hcap) in H.
  exact H.
Qed.

(** The rule at the snapshot of the idle ECS service, which has no request
    count: the count is read as 0 and the service is scaled down from four
    tasks to two. *)
Lemma decision_rule_witness :
  let d := scaling_rule snapshot_idle_service in
  direction d = "down" /\ target_capacity d == 2 /\ confidence d = 0.8%float.
Proof.
  refine (proj1 (proj2 (proj1 decision_rule snapshot_idle_service)) _ _).
  - intros [H|H]; vm_compute in H; discriminate H.
  - split; [|split]; vm_compute; reflexivity.
Defined.

(** C7, as the code has it: a missing [cpu_utilization],
    [memory_utilization] or [request_count] is read as 0, and a missing
    [current_capacity] is read as 1. *)
Theorem missing_fields_defaults (m : gmap string Q) :
  (m !! "cpu_utilization" = None ->
   same_answer (scaling_rule m) (scaling_rule (<["cpu_utilization" := 0]> m))) /\
  (m !! "memory_utilization" = None ->
   same_answer (scaling_rule m) (scaling_rule (<["memory_utilization" := 0]> m))) /\
  (m !! "request_count" = None ->
   same_answer (scaling_rule m) (scaling_rule (<["request_count" := 0]> m))) /\
  (m !! "current_capacity" = None ->
   same_answer (scaling_rule m) (scaling_rule (<["current_capacity" := 1]> m))).
Proof.
  split; [|split; [|split]]; intros H; apply rule_reads; symmetry;
    apply get_metric_insert_default; try exact H; intros Heq;
    solve [reflexivity | discriminate Heq].
Qed.

(** A snapshot with only a CPU reading is answered as if it said
    [current_capacity = 1]. *)
Lemma missing_fields_defaults_witness :
  same_answer (scaling_rule snapshot_cpu_only)
              (scaling_rule (<["current_capacity" := 1]> snapshot_cpu_only)).
Proof.
  apply (proj2 (proj2 (proj2 (missing_fields_defaults snapshot_cpu_only)))).
  vm_compute. reflexivity.
Defined.

(** C7, as the spec words it, fails for [current_capacity]: with only a
    CPU reading of 90 the target is 2 (twice the default 1), and 0 once
    [current_capacity = 0] is written into the snapshot. *)
Lemma missing_capacity_is_not_zero :
  ~ (forall (m : gmap string Q) (key : string),
        In key ["cpu_utilization"; "memory_utilization"; "request_count";
                "current_capacity"] ->
        m !! key = None ->
        same_answer (scaling_rule m) (scaling_rule (<[key := 0]> m))).
Proof.
  intros H.
  destruct (H snapshot_cpu_only "current_capacity") as (_ & Htarget & _).
  - cbn. tauto.
  - vm_compute. reflexivity.
  - vm_compute in Htarget. discriminate Htarget.
Qed.

(** C8 at the failing input: the clients raise, [get_cloudwatch_metrics]
    swallows the exception and returns [{}], and the rule reads the empty
    snapshot as an idle resource: the answer is to scale down, with
    confidence 0.8 and a reason that names no failure. *)
Theorem retrieval_failure_scales_down :
  analyze_scaling_metrics no_credentials "web" "ecs"
  = Return {| direction := "down";
              target_capacity := 1;
              reason := "Low resource utilization: CPU 0.0%, Memory 0.0%";
              confidence := 0.8%float;
              metrics := ∅ |}.
Proof. vm_compute. reflexivity. Qed.

(** *** Bounds of the decision *)

(** X12: the target capacity of a decision is bounded by the rule's caps,
    and the caps can work against the direction.  A decision is [up],
    [down] or [none].  An [up] target is at most 20, and it is at least the
    current capacity exactly when that capacity is between 0 and 20: above
    20 instances a scale-up decision names fewer instances than are
    running.  A [down] target is at least 1, and it is at most the current
    capacity exactly when that capacity is at least 1: at capacity 0 a
    scale-down decision names one instance.  A [none] target is the current
    capacity, whatever it is. *)
Theorem target_capacity_bounds (m : gmap string Q) :
  let cap := get_metric m "current_capacity" 1 in
  let d := scaling_rule m in
  (direction d = "up" \/ direction d = "down" \/ direction d = "none") /\
  (direction d = "up" ->
   target_capacity d <= 20 /\ (cap <= target_capacity d <-> 0 <= cap <= 20)) /\
  (direction d = "down" ->
   1 <= target_capacity d /\ (target_capacity d <= cap <-> 1 <= cap)) /\
  (direction d = "none" -> target_capacity d = cap).
Proof.
  intros cap d. subst d. unfold scaling_rule. fold cap.
  destruct (Qlt_bool 80 _ || Qlt_bool 85 _);
    [|destruct (Qlt_bool _ 20 && Qlt_bool _ 30 && Qlt_bool _ 10)];
    cbn [direction target_capacity].
  - split; [left; reflexivity|]. split; [|split; discriminate].
    intros _. unfold py_min.
    destruct (Qlt_bool_spec 20 (cap * 2)) as [H|H]; split; try split; intros; lra.
  - split; [right; left; reflexivity|]. split; [discriminate|]. split; [|discriminate].
    intros _. unfold py_max, floordiv2.
    pose proof (Qfloor_le (cap / 2)) as Hlo.
    pose proof (Qlt_floor (cap / 2)) as Hhi.
    rewrite inject_Z_plus in Hhi. change (inject_Z 1) with 1 in Hhi.
    assert (Hcap : cap == 2 * (cap / 2)) by field.
    set (half := inject_Z (Qfloor (cap / 2))) in *.
    set (q := cap / 2) in *.
    destruct (Qlt_bool_spec half 1) as [H|H]; (split; [lra|]); split; intros; lra.
  - split; [right; right; reflexivity|]. split; [discriminate|]. split; [discriminate|].
    intros _. reflexivity.
Qed.

(** *** Resource types *)

(** What the [lambda] branch of [collect_metrics] can return: nothing, the
    duration alone, or the invocation count with the capacity derived from
    it, with or without the duration. *)
Lemma lambda_snapshot (aws : Aws) (resource_id : string) (m : gmap string Q) :
  collect_metrics aws resource_id "lambda" = Return m ->
  m !! "cpu_utilization" = None /\ m !! "memory_utilization" = None /\
  ((m !! "request_count" = None /\ m !! "current_capacity" = None) \/
   exists x, m !! "request_count" = Some x /\
             m !! "current_capacity" = Some (py_min x 100)).
Proof.
  unfold collect_metrics. cbn [String.eqb Ascii.eqb Bool.eqb].
  destruct (get_metric_statistics aws "AWS/Lambda" "Duration" resource_id) as [dur|e];
    [|discriminate].
  destruct (get_metric_statistics aws "AWS/Lambda" "Invocations" resource_id) as [inv|e];
    [|discriminate].
  cbv zeta. unfold set_last.
  destruct (List.rev dur) as [|y ?]; destruct (List.rev inv) as [|x ?]; intros [= <-];
    (split; [reflexivity|]); (split; [reflexivity|]);
    first [left; split; reflexivity | right; exists x; split; reflexivity].
Qed.

(** X13: a Lambda function is never scaled up by the analysis.  For
    resource type [lambda], whatever CloudWatch answers (failures
    included), [analyze_scaling_metrics] returns a decision whose direction
    is [down] or [none], never [up], because the Lambda snapshot carries no
    CPU or memory reading; and its target capacity is between 1 and 100. *)
Theorem lambda_is_never_scaled_up (aws : Aws) (resource_id : string) :
  exists d,
    analyze_scaling_metrics aws resource_id "lambda" = Return d /\
    direction d <> "up" /\
    (direction d = "down" \/ direction d = "none") /\
    1 <= target_capacity d <= 100.
Proof.
  unfold analyze_scaling_metrics, get_cloudwatch_metrics.
  destruct (collect_metrics aws resource_id "lambda") as [m|e] eqn:Hm.
  - eexists. split; [reflexivity|].
    destruct (lambda_snapshot aws resource_id m Hm) as (Hcpu & Hmem & Hrest).
    unfold scaling_rule, get_metric. rewrite Hcpu, Hmem. cbn [orb Qlt_bool Qle_bool].
    change (Qlt_bool 80 0) with false. change (Qlt_bool 85 0) with false.
    change (Qlt_bool 0 20) with true. change (Qlt_bool 0 30) with true.
    cbn [orb andb].
    destruct Hrest as [[Hreq Hcap]|(x & Hreq & Hcap)]; rewrite Hreq, Hcap.
    + change (Qlt_bool 0 10) with true. cbn [direction target_capacity].
      split; [discriminate|]. split; [left; reflexivity|].
      vm_compute. split; discriminate.
    + destruct (Qlt_bool_spec x 10) as [Hx|Hx]; cbn [direction target_capacity].
      * split; [discriminate|]. split; [left; reflexivity|].
        unfold py_max, floordiv2, py_min.
        destruct (Qlt_bool_spec 100 x) as [H100|_]; [lra|].
        pose proof (Qfloor_le (x / 2)) as Hlo.
        assert (Hx2 : x == 2 * (x / 2)) by field.
        set (half := inject_Z (Qfloor (x / 2))) in *. set (q := x / 2) in *.
        destruct (Qlt_bool_spec half 1); split; lra.
      * split; [discriminate|]. split; [right; reflexivity|].
        unfold py_min. destruct (Qlt_bool_spec 100 x); split; lra.
  - eexists. split; [reflexivity|]. vm_compute.
    split; [discriminate|]. split; [left; reflexivity|]. split; discriminate.
Qed.

(** X14: a resource type other than [ecs] and [lambda] is not rejected.
    No metric is read for it, and the analysis answers as for an idle
    resource: scale down to 1 with confidence 0.8, on an empty snapshot,
    whatever the clients would answer. *)
Theorem unknown_resource_type_scales_down (aws : Aws) (resource_id resource_type : string) :
  resource_type <> "ecs" -> resource_type <> "lambda" ->
  get_cloudwatch_metrics aws resource_id resource_type = Return ∅ /\
  exists d,
    analyze_scaling_metrics aws resource_id resource_type = Return d /\
    direction d = "down" /\ target_capacity d = 1 /\ confidence d = 0.8%float /\
    reason d = "Low resource utilization: CPU 0.0%, Memory 0.0%" /\
    metrics d = ∅.
Proof.
  intros Hecs Hlambda.
  assert (Hm : collect_metrics aws resource_id resource_type = Return ∅).
  { unfold collect_metrics.
    destruct (String.eqb_spec resource_type "ecs") as [?|_]; [contradiction|].
    destruct (String.eqb_spec resource_type "lambda") as [?|_]; [contradiction|].
    reflexivity. }
  unfold analyze_scaling_metrics, get_cloudwatch_metrics. rewrite Hm.
  split; [reflexivity|]. eexists. split; [reflexivity|].
  vm_compute. repeat split.
Qed.

(** *** Scaling a Lambda function *)

(** Clients that answer every call. *)
Definition obliging : Clients :=
  {| update_service := fun _ _ n => Return n;
     wait_services_stable := fun _ _ => Return tt;
     put_reserved_concurrency_config := fun _ _ => Return tt;
     kubectl_scale := fun _ _ _ => Completed "deployment.apps/web scaled";
     register_scalable_target := fun _ _ _ => Return "arn:target";
     put_scaling_policy := fun _ _ _ _ _ => Return "arn:policy";
     delete_scaling_policy := fun _ _ => Return tt;
     deregister_scalable_target := fun _ => Return tt |}.

(** Clients whose every call is denied. *)
Definition denied : Clients :=
  let e := ClientError "An error occurred (AccessDeniedException) when calling the operation" in
  {| update_service := fun _ _ _ => Raise e;
     wait_services_stable := fun _ _ => Raise e;
     put_reserved_concurrency_config := fun _ _ => Raise e;
     kubectl_scale := fun _ _ _ => OtherError e;
     register_scalable_target := fun _ _ _ => Raise e;
     put_scaling_policy := fun _ _ _ _ _ => Raise e;
     delete_scaling_policy := fun _ _ => Raise e;
     deregister_scalable_target := fun _ => Raise e |}.

(** X15: [scale_lambda_function] never raises, and every direction but
    [up] is treated as a decrease.  It asks for one reserved-concurrency
    limit: [min(10 * target, 1000)] for direction [up], at most 1000, and
    [max(5 * target, 10)] for any other direction ([none] included), at
    least 10.  If the client accepts the limit the result reports success
    with that limit; if the client raises, the result reports failure with
    the exception's text. *)
Theorem lambda_concurrency_limit (c : Clients) (function_name : string)
    (decision : ScalingDecision) :
  exists limit result,
    scale_lambda_function c function_name decision = Return result /\
    (direction decision = "up" ->
     limit == Qmin (target_capacity decision * 10) 1000 /\ limit <= 1000) /\
    (direction decision <> "up" ->
     limit == Qmax (target_capacity decision * 5) 10 /\ 10 <= limit) /\
    match put_reserved_concurrency_config c function_name limit with
    | Return _ =>
        get result "success" = Some (VBool true) /\
        get result "reserved_concurrency" = Some (VNum limit) /\
        get result "reason" = Some (VStr (reason decision))
    | Raise e =>
        get result "success" = Some (VBool false) /\
        get result "error" = Some (VStr (str_exn e)) /\
        get result "reserved_concurrency" = None
    end.
Proof.
  unfold scale_lambda_function.
  destruct (String.eqb_spec (direction decision) "up") as [Hup|Hup]; cbv zeta.
  - exists (py_min (target_capacity decision * 10) 1000).
    destruct (put_reserved_concurrency_config c function_name _) as [[]|e];
      (eexists; split; [reflexivity|]);
      (split; [intros _; split; [apply py_min_Qmin|];
               rewrite py_min_Qmin; apply Q.le_min_r|]);
      (split; [intros H; contradiction|]); repeat split.
  - exists (py_max (target_capacity decision * 5) 10).
    destruct (put_reserved_concurrency_config c function_name _) as [[]|e];
      (eexists; split; [reflexivity|]);
      (split; [intros H; contradiction|]);
      (split; [intros _; split; [apply py_max_Qmax|];
               rewrite py_max_Qmax; apply Q.le_max_r|]); repeat split.
Qed.

(** X16: policies exist for ECS services only, and a refusal is a result,
    not an exception.  For a resource type other than [ecs],
    [create_autoscaling_policy] and [delete_autoscaling_policy] return
    success [False] with the error "Unsupported resource type: <type>",
    whatever the clients would answer and whatever the configuration; for
    type [ecs] neither raises: a client exception becomes a result with
    success [False] and the exception's text. *)
Theorem policies_for_ecs_only (c : Clients) (resource_id resource_type : string)
    (config : dict value) :
  (resource_type <> "ecs" ->
   let refusal := [ ("success", VBool false);
                    ("error", VStr ("Unsupported resource type: " ++ resource_type)) ] in
   create_autoscaling_policy c resource_id resource_type config = Return refusal /\
   delete_autoscaling_policy c resource_id resource_type = Return refusal) /\
  (exists r1 r2,
      create_autoscaling_policy c resource_id "ecs" config = Return r1 /\
      delete_autoscaling_policy c resource_id "ecs" = Return r2 /\
      (get r1 "success" = Some (VBool true) \/
       exists e, get r1 "success" = Some (VBool false) /\
                 get r1 "error" = Some (VStr (str_exn e))) /\
      (get r2 "success" = Some (VBool true) \/
       exists e, get r2 "success" = Some (VBool false) /\
                 get r2 "error" = Some (VStr (str_exn e)))).
Proof.
  split.
  - intros Hne refusal. subst refusal.
    unfold create_autoscaling_policy, delete_autoscaling_policy.
    destruct (String.eqb_spec resource_type "ecs") as [?|_]; [contradiction|].
    split; reflexivity.
  - unfold create_autoscaling_policy, delete_autoscaling_policy.
    cbn [String.eqb Ascii.eqb Bool.eqb].
    destruct (register_scalable_target c _ _ _) as [ta|e1];
      [destruct (put_scaling_policy c _ _ _ _ _) as [pa|e1]|];
      (destruct (delete_scaling_policy c _ _) as [[]|e2];
       [destruct (deregister_scalable_target c _) as [[]|e2]|]);
      eexists; eexists; (split; [reflexivity|]); (split; [reflexivity|]);
      split; first [left; reflexivity | right; eexists; split; reflexivity].
Qed.

(** A resource type the service has no branch for. *)
Lemma unknown_resource_type_scales_down_witness :
  exists d,
    analyze_scaling_metrics no_credentials "web" "kubernetes" = Return d /\
    direction d = "down" /\ target_capacity d = 1.
Proof.
  destruct (unknown_resource_type_scales_down no_credentials "web" "kubernetes")
    as (_ & d & Hd & Hdir & Hcap & _).
  - discriminate.
  - discriminate.
  - exists d. split; [exact Hd|]. split; [exact Hdir | exact Hcap].
Defined.

(** *** Exceptions of the scale functions *)

(** X29: the three scale functions do not treat a failure alike.
    [scale_ecs_service] and [scale_lambda_function] never raise: whatever
    their client does they return a result.  [scale_kubernetes_deployment]
    returns a success result with the command's output when [kubectl]
    completes, and a failure result with the captured error text when it
    exits with an error ([CalledProcessError]); any other exception of the
    call, such as the one raised when [kubectl] is not installed, is not
    caught and leaves the function as it is. *)
Theorem scale_functions_on_failure (c : Clients) (cluster_name service_name : string)
    (function_name namespace deployment_name : string) (decision : ScalingDecision) :
  (exists r, scale_ecs_service c cluster_name service_name decision = Return r) /\
  (exists r, scale_lambda_function c function_name decision = Return r) /\
  match kubectl_scale c deployment_name (target_capacity decision) namespace with
  | Completed stdout =>
      exists r,
        scale_kubernetes_deployment c namespace deployment_name decision = Return r /\
        get r "success" = Some (VBool true) /\ get r "output" = Some (VStr stdout)
  | CalledProcessError stderr =>
      exists r,
        scale_kubernetes_deployment c namespace deployment_name decision = Return r /\
        get r "success" = Some (VBool false) /\ get r "error" = Some (VStr stderr)
  | OtherError e =>
      scale_kubernetes_deployment c namespace deployment_name decision = Raise e
  end.
Proof.
  split; [|split].
  - unfold scale_ecs_service.
    destruct (update_service c _ _ _) as [n|e]; [|eexists; reflexivity].
    destruct (wait_services_stable c _ _) as [[]|e]; eexists; reflexivity.
  - unfold scale_lambda_function. cbv zeta.
    destruct (String.eqb (direction decision) "up");
      destruct (put_reserved_concurrency_config c _ _) as [[]|e]; eexists; reflexivity.
  - unfold scale_kubernetes_deployment.
    destruct (kubectl_scale c _ _ _) as [out|err|e];
      [eexists; split; [reflexivity|]; split; reflexivity
      |eexists; split; [reflexivity|]; split; reflexivity
      |reflexivity].
Qed.

End AutoScalingSpec.

(** ** The scaling endpoints *)

Module ScalingSpec.
Import Py AutoScaling Scaling AutoScalingSpec.

Local Open Scope string_scope.
Local Open Scope Q_scope.

(** The two calls of [AutoScaling.scale_ecs_service], one after the other:
    the running count of the update's response, or the first exception. *)
Definition ecs_calls (c : Clients) (cluster_name service_name : string) (n : Q) : result Q :=
  match update_service c cluster_name service_name n with
  | Raise e => Raise e
  | Return running_count =>
      match wait_services_stable c cluster_name service_name with
      | Raise e => Raise e
      | Return _ => Return running_count
      end
  end.

(** Python's [str] on a result value, for the examples. *)
Definition str_of (v : value) : string :=
  match v with
  | VStr s => s
  | _ => "None"
  end.

(** A request to scale the service [web] to three tasks. *)
Definition web_request : ECSScaleRequest :=
  {| ecs_cluster_name := "default-cluster";
     ecs_service_name := "service-web";
     ecs_target_capacity := 3;
     ecs_reason := "Manual scaling" |}.

(** Clients whose ECS service does not exist. *)
Definition no_such_service : Clients :=
  {| update_service := fun _ _ _ =>
       Raise (ClientError "An error occurred (ServiceNotFoundException) when calling the UpdateService operation");
     wait_services_stable := fun _ _ => Return tt;
     put_reserved_concurrency_config := fun _ _ => Return tt;
     kubectl_scale := fun _ _ _ => Completed "";
     register_scalable_target := fun _ _ _ => Return "arn:target";
     put_scaling_policy := fun _ _ _ _ _ => Return "arn:policy";
     delete_scaling_policy := fun _ _ => Return tt;
     deregister_scalable_target := fun _ => Return tt |}.

(** No region is configured: [boto3.client] raises botocore's
    [NoRegionError], and so does [AutoScalingService()]. *)
Definition no_region : result Clients :=
  Raise (BotoCoreError "You must specify a region.").

Lemma service_ecs_result (c : Clients) cluster_name service_name decision :
  AutoScaling.scale_ecs_service c cluster_name service_name decision =
    match ecs_calls c cluster_name service_name (target_capacity decision) with
    | Return running_count =>
        Return [ ("success", VBool true);
                 ("service_name", VStr service_name);
                 ("cluster_name", VStr cluster_name);
                 ("target_capacity", VNum (target_capacity decision));
                 ("current_capacity", VNum running_count);
                 ("reason", VStr (reason decision)) ]
    | Raise e =>
        Return [ ("success", VBool false);
                 ("error", VStr (str_exn e));
                 ("service_name", VStr service_name) ]
    end.
Proof.
  unfold AutoScaling.scale_ecs_service, ecs_calls.
  destruct (update_service c _ _ _) as [r|e]; [|reflexivity].
  destruct (wait_services_stable c _ _) as [[]|e]; reflexivity.
Qed.

(** X17: the ECS scale endpoint reports a failure of the ECS client as a
    success unless it is a permissions error, and answers HTTP 500 only
    when the service object cannot be built.  When [AutoScalingService()]
    returns, the endpoint returns a [SuccessResponse] whatever the ECS
    client does (the service catches every exception of its calls).  If
    the update and the wait return, the message is "ECS service <name>
    scaled successfully" and the data say success.  If either raises and
    the lower-cased text of the exception contains accessdenied,
    unauthorized or forbidden, the response is the "configuration
    generated" one, with the AWS CLI command for the request.  If either
    raises with any other text, the message is still "ECS service <name>
    scaled successfully", with success [False] and the error text in the
    data.  When [AutoScalingService()] raises, the endpoint returns the
    "configuration generated" response if the lower-cased text of that
    exception names a permissions error, and raises HTTP 500 "ECS scaling
    failed: <text>" otherwise. *)
Theorem ecs_failure_reported_as_success (str : value -> string)
    (AutoScalingService : result Clients) (request : ECSScaleRequest) :
  (forall s, str (VStr s) = s) ->
  let service_name := ecs_service_name request in
  let cluster_name := ecs_cluster_name request in
  let scaled := "ECS service " ++ service_name ++ " scaled successfully" in
  match AutoScalingService with
  | Return c =>
      exists response,
        scale_ecs_service str AutoScalingService request = Return response /\
        match ecs_calls c cluster_name service_name
                (inject_Z (ecs_target_capacity request)) with
        | Return running_count =>
            sr_message response = scaled /\
            get (sr_data response) "success" = Some (VBool true) /\
            get (sr_data response) "current_capacity" = Some (VNum running_count)
        | Raise e =>
            if permissions_error (lower (str_exn e)) then
              response = permissions_response cluster_name service_name
                           (ecs_target_capacity request) (VStr (str_exn e))
            else
              sr_message response = scaled /\
              get (sr_data response) "success" = Some (VBool false) /\
              get (sr_data response) "error" = Some (VStr (str_exn e))
        end
  | Raise e =>
      scale_ecs_service str AutoScalingService request =
        if permissions_error (lower (str_exn e)) then
          Return (permissions_response cluster_name service_name
                    (ecs_target_capacity request) (VStr (str_exn e)))
        else Raise (HTTPException 500 ("ECS scaling failed: " ++ str_exn e))
  end.
Proof.
  intros Hstr service_name cluster_name scaled. subst service_name cluster_name scaled.
  destruct AutoScalingService as [c|e]; [|reflexivity].
  unfold scale_ecs_service. cbv zeta. rewrite service_ecs_result.
  unfold manual_decision at 1. cbn [target_capacity].
  destruct (ecs_calls c _ _ _) as [running_count|e].
  - eexists. split; [reflexivity|]. repeat split.
  - cbn [result_get get String.eqb Ascii.eqb Bool.eqb truth negb]. rewrite Hstr.
    destruct (permissions_error (lower (str_exn e)));
      eexists; (split; [reflexivity|]); repeat split.
Qed.

(** X18: the Lambda scale endpoint answers "Lambda function <name> scaled
    successfully" whether or not the client accepted the change, and raises
    only when the service object cannot be built.  When
    [AutoScalingService()] returns, the reserved-concurrency limit the
    endpoint asks for is between 10 and 1000: 10 for a target capacity of
    1 or less (zero and negative targets included), and
    [min(10 * target, 1000)] for a larger one; when the client raises, the
    same message is returned with success [False] and the error text in
    the data.  When [AutoScalingService()] raises, the endpoint raises
    HTTP 500 "Lambda scaling failed: <text>". *)
Theorem lambda_endpoint_limit (AutoScalingService : result Clients)
    (request : LambdaScaleRequest) :
  let target := lambda_target_capacity request in
  match AutoScalingService with
  | Return c =>
      exists limit data,
        scale_lambda_function AutoScalingService request =
          Return {| sr_message := "Lambda function " ++ lambda_function_name request ++
                                  " scaled successfully";
                    sr_data := data |} /\
        10 <= limit <= 1000 /\
        ((target <= 1)%Z -> limit == 10) /\
        ((1 < target)%Z -> limit == Qmin (inject_Z target * 10) 1000) /\
        match put_reserved_concurrency_config c (lambda_function_name request) limit with
        | Return _ =>
            get data "success" = Some (VBool true) /\
            get data "reserved_concurrency" = Some (VNum limit)
        | Raise e =>
            get data "success" = Some (VBool false) /\
            get data "error" = Some (VStr (str_exn e))
        end
  | Raise e =>
      scale_lambda_function AutoScalingService request =
        Raise (HTTPException 500 ("Lambda scaling failed: " ++ str_exn e))
  end.
Proof.
  intros target. destruct AutoScalingService as [c|e]; [|reflexivity].
  unfold scale_lambda_function, AutoScaling.scale_lambda_function.
  cbv zeta. unfold manual_decision. cbn [direction target_capacity reason]. fold target.
  destruct (Z.ltb_spec 1 target) as [Hlt|Hle].
  - cbn [String.eqb Ascii.eqb Bool.eqb].
    assert (Ht : 2 <= inject_Z target) by (change 2 with (inject_Z 2); rewrite <- Zle_Qle; lia).
    exists (py_min (inject_Z target * 10) 1000).
    pose proof (py_min_Qmin (inject_Z target * 10) 1000) as Hmin.
    assert (Hb : 10 <= py_min (inject_Z target * 10) 1000 <= 1000).
    { unfold py_min. destruct (Qlt_bool_spec 1000 (inject_Z target * 10)); split; lra. }
    destruct (put_reserved_concurrency_config c _ _) as [[]|e];
      (eexists; split; [reflexivity|]); (split; [exact Hb|]);
      (split; [intros ?; lia|]); (split; [intros _; exact Hmin|]); split; reflexivity.
  - cbn [String.eqb Ascii.eqb Bool.eqb].
    assert (Ht : inject_Z target <= 1) by (change 1 with (inject_Z 1); rewrite <- Zle_Qle; lia).
    exists (py_max (inject_Z target * 5) 10).
    assert (Hb : py_max (inject_Z target * 5) 10 = 10).
    { unfold py_max. destruct (Qlt_bool_spec (inject_Z target * 5) 10); [reflexivity | lra]. }
    rewrite Hb.
    destruct (put_reserved_concurrency_config c _ _) as [[]|e];
      (eexists; split; [reflexivity|]); (split; [split; lra|]);
      (split; [intros _; reflexivity|]); (split; [intros ?; lia|]); split; reflexivity.
Qed.

(** X19: the policy deletion endpoint answers "Auto-scaling policy deleted
    for <id>" whatever was deleted, and raises only when the service
    object cannot be built.  When [AutoScalingService()] returns, that is
    the answer also for a resource type other than [ecs], for which
    nothing is deleted and the data carry success [False] with
    "Unsupported resource type: <type>", and for an ECS resource whose
    deletion the client refused, with success [False] and the exception's
    text.  When [AutoScalingService()] raises, the endpoint raises HTTP
    500 "Policy deletion failed: <text>". *)
Theorem policy_deletion_always_reported (AutoScalingService : result Clients)
    (resource_id resource_type : string) :
  match AutoScalingService with
  | Return c =>
      exists data,
        Scaling.delete_autoscaling_policy AutoScalingService resource_id resource_type =
          Return {| sr_message := "Auto-scaling policy deleted for " ++ resource_id;
                    sr_data := data |} /\
        (resource_type <> "ecs" ->
         data = [ ("success", VBool false);
                  ("error", VStr ("Unsupported resource type: " ++ resource_type)) ]) /\
        (resource_type = "ecs" ->
         forall e,
           delete_scaling_policy c ("service/default/" ++ resource_id)
             (resource_id ++ "-scaling-policy") = Raise e ->
           get data "success" = Some (VBool false) /\
           get data "error" = Some (VStr (str_exn e)))
  | Raise e =>
      Scaling.delete_autoscaling_policy AutoScalingService resource_id resource_type =
        Raise (HTTPException 500 ("Policy deletion failed: " ++ str_exn e))
  end.
Proof.
  destruct AutoScalingService as [c|e]; [|reflexivity].
  unfold Scaling.delete_autoscaling_policy, AutoScaling.delete_autoscaling_policy.
  destruct (String.eqb_spec resource_type "ecs") as [->|Hne].
  - destruct (delete_scaling_policy c _ _) as [[]|e1] eqn:Hdel;
      [destruct (deregister_scalable_target c _) as [[]|e1]|];
      eexists; (split; [reflexivity|]); (split; [intros H; contradiction|]);
      intros _ e He; first [discriminate He | injection He as <-; split; reflexivity].
  - eexists. split; [reflexivity|]. split; [intros _; reflexivity|].
    intros H. contradiction.
Qed.

(** The ECS service does not exist: the endpoint says it was scaled.  No
    region is configured: the endpoint answers HTTP 500. *)
Lemma ecs_failure_reported_as_success_witness :
  (exists response,
     scale_ecs_service str_of (Return no_such_service) web_request = Return response /\
     sr_message response = "ECS service service-web scaled successfully" /\
     get (sr_data response) "success" = Some (VBool false)) /\
  scale_ecs_service str_of no_region web_request
  = Raise (HTTPException 500 "ECS scaling failed: You must specify a region.").
Proof.
  split.
  - destruct (ecs_failure_reported_as_success str_of (Return no_such_service) web_request
                ltac:(intros s; reflexivity))
      as (response & Hres & Hcase).
    exists response. split; [exact Hres|].
    vm_compute in Hcase. destruct Hcase as (Hm & Hs & _). split; [exact Hm | exact Hs].
  - exact (ecs_failure_reported_as_success str_of no_region web_request
             ltac:(intros s; reflexivity)).
Defined.

End ScalingSpec.


(** ** The deployment pipeline *)

Module DeploymentSpec.
Import Py Deployment.

Local Open Scope string_scope.
Local Open Scope py_scope.

(** The record the store holds under an id, and the status a reader sees. *)
Definition record_of (id : string) (st : State) : option DeploymentData :=
  match deployments st !! id with
  | Some l => heap st !! l
  | None => None
  end.

Definition status_of (id : string) (st : State) : option string :=
  match record_of id st with
  | Some d => Some (status d)
  | None => None
  end.

(** The store holds under [id] the object [l], whose status is [s]. *)
Definition at_status (id : string) (l : loc) (s : string) (st : State) : Prop :=
  deployments st !! id = Some l /\
  exists d, heap st !! l = Some d /\ status d = s.

(** The stage order: pending, detecting, containerizing, building,
    deploying, configuring, success; [failed] stands apart, after all. *)
Definition stage_order : dict nat :=
  [ ("pending", 0); ("detecting", 1); ("containerizing", 2); ("building", 3);
    ("deploying", 4); ("configuring", 5); ("success", 6); ("failed", 7) ].

Definition level (s : string) : option nat := get stage_order s.

Definition terminal (s : string) : Prop := s = "success" \/ s = "failed".

(** One observation after another: the status is the same, or it moved
    from a stage that is not terminal to a later stage or to [failed]. *)
Definition step_ok (s s' : string) : Prop :=
  s' = s \/
  exists a b, level s = Some a /\ level s' = Some b /\ a < b /\ a <= 5.

Fixpoint chain (s : string) (ss : list string) : Prop :=
  match ss with
  | [] => True
  | s' :: ss' => step_ok s s' /\ chain s' ss'
  end.

(** A computation keeps [I] when every state it goes through and the state
    it leaves satisfy it. *)
Definition preserves (I : State -> Prop) {A} (m : M A) : Prop :=
  forall st, I st -> Forall I (trace (m st)) /\ I (final (m st)).

(** The writes the pipeline makes: through a reference to a record, and to
    the clock. *)
Definition heap_stable (I : State -> Prop) : Prop :=
  forall st l f, I st -> I (set_heap (alter f l) st).

Definition clock_stable (I : State -> Prop) : Prop :=
  forall st, I st -> I (tick_clock st).

(** The record after [update_deployment_status] at clock readings [t1] and
    [t2]. *)
Definition touched (s t1 t2 message : string) (d : DeploymentData) : DeploymentData :=
  append_log ("[" ++ t2 ++ "] " ++ message) (set_updated_at t1 (set_status s d)).

(** The request of the spec's scenario: a react project named demo, with
    containerization and monitoring, without Kubernetes. *)
Definition demo_request : EnhancedDeploymentRequest :=
  {| req_project_name := "demo";
     req_project_type := ProjectAnalyzer.REACT;
     req_environment := "prod";
     req_options := None;
     enable_containerization := true;
     enable_kubernetes := false;
     enable_monitoring := true |}.

(** A world for the examples: identifiers and clock readings are numbered,
    and the project directory does not exist. *)
Definition missing_project_world : World :=
  {| uuid4_at := fun n => "uuid-" ++ pretty n;
     utcnow_at := fun n => "T" ++ pretty n;
     analyze_project := fun project_path =>
       Raise (FileNotFoundError ("Project path does not exist: " ++ project_path)) |}.

(** The world in which the analysis of the demo project succeeds. *)
Definition demo_world : World :=
  {| uuid4_at := fun n => "uuid-" ++ pretty n;
     utcnow_at := fun n => "T" ++ pretty n;
     analyze_project := fun project_path =>
       Return (ContainerizationSpec.react_profile) |}.

(** The state after the demo request is submitted to an empty store. *)
Definition submitted (w : World) : State :=
  final (enhanced_deployment w demo_request initial_state).

(** The states the endpoints and the background tasks reach from the
    empty store, taken one after another. *)
Inductive reachable (w : World) : State -> Prop :=
| reach_initial : reachable w initial_state
| reach_submit st request :
    reachable w st -> reachable w (final (enhanced_deployment w request st))
| reach_process st id request :
    reachable w st -> reachable w (final (process_enhanced_deployment w id request st))
| reach_status st id :
    reachable w st -> reachable w (final (get_deployment_status id st))
| reach_rollback st id request :
    reachable w st -> reachable w (final (rollback_deployment w id request st))
| reach_process_rollback st id rollback_id request :
    reachable w st -> reachable w (final (process_rollback id rollback_id request st))
| reach_delete st id :
    reachable w st -> reachable w (final (delete_deployment id st)).

(** Every id in the store was drawn from the identifier source. *)
Definition ids_issued (w : World) (st : State) : Prop :=
  forall id, is_Some (deployments st !! id) ->
             exists n, n < uuids st /\ id = uuid4_at w n.

(** *** The computations, step by step *)

Lemma preserves_ret I {A} (a : A) : preserves I (ret a).
Proof. intros st H. split; [constructor | exact H]. Qed.

Lemma preserves_raise I {A} e : preserves I (@raise A e).
Proof. intros st H. split; [constructor | exact H]. Qed.

Lemma preserves_call I {A} (r : result A) : preserves I (call r).
Proof. intros st H. split; [constructor | exact H]. Qed.

Lemma preserves_gets I {A} (f : State -> A) : preserves I (gets f).
Proof. intros st H. split; [constructor | exact H]. Qed.

Lemma preserves_subscript I id : preserves I (subscript id).
Proof.
  intros st H. unfold subscript. destruct (deployments st !! id); split;
    solve [constructor | exact H].
Qed.

Lemma preserves_bind I {A B} (m : M A) (k : A -> M B) :
  preserves I m -> (forall a, preserves I (k a)) -> preserves I (bind m k).
Proof.
  intros Hm Hk st H. unfold bind. destruct (Hm st H) as [Ht Hf].
  destruct (m st) as [[a|e] st1 tr1]; cbn [trace final] in *.
  - destruct (Hk a _ Hf) as [Ht' Hf'].
    destruct (k a st1) as [r st2 tr2]; cbn [trace final] in *.
    split; [|exact Hf']. apply Forall_app. split; assumption.
  - split; assumption.
Qed.

Lemma preserves_try_except I {A} (m : M A) (h : exn -> M A) :
  preserves I m -> (forall e, preserves I (h e)) -> preserves I (try_except m h).
Proof.
  intros Hm Hh st H. unfold try_except. destruct (Hm st H) as [Ht Hf].
  destruct (m st) as [[a|e] st1 tr1]; cbn [trace final] in *.
  - split; assumption.
  - destruct (Hh e _ Hf) as [Ht' Hf'].
    destruct (h e st1) as [r st2 tr2]; cbn [trace final] in *.
    split; [|exact Hf']. apply Forall_app. split; assumption.
Qed.

Lemma preserves_set_item I l f : heap_stable I -> preserves I (set_item l f).
Proof.
  intros HI st H. unfold set_item, mutate. cbn [trace final].
  split; [constructor; [|constructor]|]; apply HI; exact H.
Qed.

Lemma preserves_utcnow I w : clock_stable I -> preserves I (utcnow w).
Proof.
  intros HI st H. unfold utcnow. cbn [trace final].
  split; [constructor; [|constructor]|]; apply HI; exact H.
Qed.

Lemma preserves_simulate_delay I n : preserves I (simulate_delay n).
Proof. apply preserves_ret. Qed.

Create HintDb keeps discriminated.
#[local] Hint Resolve preserves_ret preserves_raise preserves_call preserves_gets
  preserves_subscript preserves_set_item preserves_utcnow preserves_simulate_delay : keeps.

Ltac keeps :=
  repeat first
    [ apply preserves_bind; [|intros ?]
    | progress eauto with keeps
    | match goal with
      | |- preserves _ (if ?b then _ else _) => destruct b
      | |- preserves _ (match ?o with Some _ => _ | None => _ end) => destruct o
      end ].

Lemma preserves_update I w id s p message :
  heap_stable I -> clock_stable I ->
  preserves I (update_deployment_status w id s p message).
Proof. intros Hh Hc. unfold update_deployment_status, member. keeps. Qed.

Lemma preserves_stages I w l id request :
  heap_stable I -> clock_stable I -> preserves I (stages w l id request).
Proof.
  intros Hh Hc. unfold stages.
  pose proof (preserves_update I w id) as Hu.
  repeat first
    [ apply preserves_bind; [|intros ?]
    | apply Hu; assumption
    | progress eauto with keeps
    | match goal with
      | |- preserves _ (if ?b then _ else _) => destruct b
      | |- preserves _ (match ?o with Some _ => _ | None => _ end) => destruct o
      end ].
Qed.

Lemma preserves_handler I w deployment id e :
  heap_stable I -> clock_stable I -> preserves I (except_handler w deployment id e).
Proof.
  intros Hh Hc. unfold except_handler.
  apply preserves_bind; [apply preserves_update; assumption|].
  intros _. destruct deployment; eauto with keeps.
Qed.

Lemma preserves_process I w id request :
  heap_stable I -> clock_stable I -> preserves I (process_enhanced_deployment w id request).
Proof.
  intros Hh Hc st H. unfold process_enhanced_deployment.
  destruct (deployments st !! id) as [l|].
  - apply preserves_try_except; [apply preserves_stages; assumption| |exact H].
    intros e. apply preserves_handler; assumption.
  - apply preserves_handler; assumption.
Qed.

(** Unfolding a computation at a state. *)
Ltac run_py :=
  cbv beta iota zeta delta
    [update_deployment_status except_handler rollback_deployment process_rollback
     delete_deployment del
     bind try_except member gets subscript set_item mutate utcnow uuid4
     ret raise call simulate_delay
     res final trace deployments set_heap set_deployments tick_clock tick_uuids
     heap clock uuids app].

(** [update_deployment_status] on an id the store holds: five writes. *)
Lemma update_present w id s p message st l :
  deployments st !! id = Some l ->
  update_deployment_status w id s p message st =
    let st1 := set_heap (alter (set_status s) l) st in
    let st2 := tick_clock st1 in
    let st3 := set_heap (alter (set_updated_at (utcnow_at w (clock st))) l) st2 in
    let st4 := tick_clock st3 in
    let st5 := set_heap (alter (append_log ("[" ++ utcnow_at w (S (clock st)) ++ "] "
                                             ++ message)) l) st4 in
    mkOutcome (Return tt) st5 [st1; st2; st3; st4; st5].
Proof.
  intros H. destruct st as [D Hp C U]. cbn [deployments] in H.
  run_py. rewrite bool_decide_true by (rewrite H; eauto).
  repeat (rewrite H; run_py). reflexivity.
Qed.

(** [update_deployment_status] on an id the store does not hold. *)
Lemma update_absent w id s p message st :
  deployments st !! id = None ->
  update_deployment_status w id s p message st = mkOutcome (Return tt) st [].
Proof.
  intros H. destruct st as [D Hp C U]. cbn [deployments] in H. run_py.
  rewrite bool_decide_false by (rewrite H; intros [? ?]; discriminate).
  reflexivity.
Qed.

(** The store after [delete_deployment id] does not hold [id], whether the
    request succeeded or was answered 404; the record objects are as they
    were. *)
Lemma delete_removes id st :
  deployments (final (delete_deployment id st)) !! id = None /\
  heap (final (delete_deployment id st)) = heap st.
Proof.
  destruct st as [D Hp C U]. run_py.
  destruct (D !! id) as [l|] eqn:H.
  - rewrite bool_decide_true by eauto. cbn. split; [apply lookup_delete_eq | reflexivity].
  - rewrite bool_decide_false by (intros [? ?]; discriminate). cbn. split; [exact H | reflexivity].
Qed.

(** *** Invariants the pipeline keeps *)

Definition live (id : string) (l : loc) (st : State) : Prop :=
  deployments st !! id = Some l /\ is_Some (heap st !! l).

Lemma live_heap_stable id l : heap_stable (live id l).
Proof.
  intros st l' f [Hd Hh]. split; [exact Hd|]. cbn.
  apply lookup_alter_is_Some. exact Hh.
Qed.

Lemma live_clock_stable id l : clock_stable (live id l).
Proof. intros st H. exact H. Qed.

(** The store and the count of identifiers drawn are what they were. *)
Definition store_is (D : gmap string loc) (U : nat) (st : State) : Prop :=
  deployments st = D /\ uuids st = U.

Lemma store_is_heap_stable D U : heap_stable (store_is D U).
Proof. intros st l f H. exact H. Qed.

Lemma store_is_clock_stable D U : clock_stable (store_is D U).
Proof. intros st H. exact H. Qed.

Lemma process_keeps_store w id request st :
  deployments (final (process_enhanced_deployment w id request st)) = deployments st /\
  uuids (final (process_enhanced_deployment w id request st)) = uuids st.
Proof.
  apply (preserves_process (store_is (deployments st) (uuids st)) w id request
           (store_is_heap_stable _ _) (store_is_clock_stable _ _) st).
  split; reflexivity.
Qed.

(** C10: for an id the store does not hold, [update_deployment_status]
    returns without raising and changes nothing, whatever the status,
    progress and message; so it does after [delete_deployment], and the
    updates of a run still going on for a deleted id are dropped. *)
Theorem update_unknown_id_is_noop (w : World) (id s : string) (p : Z) (message : string)
    (st : State) :
  (deployments st !! id = None ->
   update_deployment_status w id s p message st = mkOutcome (Return tt) st []) /\
  (let st' := final (delete_deployment id st) in
   update_deployment_status w id s p message st' = mkOutcome (Return tt) st' []).
Proof.
  split.
  - apply update_absent.
  - cbv zeta. apply update_absent. apply delete_removes.
Qed.


(** *** The order of the statuses *)

Lemma level_cases s v :
  level s = Some v ->
  (s = "pending" /\ v = 0) \/ (s = "detecting" /\ v = 1) \/
  (s = "containerizing" /\ v = 2) \/ (s = "building" /\ v = 3) \/
  (s = "deploying" /\ v = 4) \/ (s = "configuring" /\ v = 5) \/
  (s = "success" /\ v = 6) \/ (s = "failed" /\ v = 7).
Proof.
  unfold level, stage_order. cbn [get].
  repeat match goal with
         | |- context [String.eqb s ?t] =>
             destruct (String.eqb_spec s t) as [->|_]; [intros [= <-]; tauto|]
         end.
  discriminate.
Qed.

Lemma level_inj s t v : level s = Some v -> level t = Some v -> s = t.
Proof.
  intros Hs Ht. apply level_cases in Hs, Ht.
  repeat (destruct Hs as [Hs|Hs]); destruct Hs as [-> ->];
    repeat (destruct Ht as [Ht|Ht]); destruct Ht as [-> Ht];
    first [reflexivity | discriminate Ht].
Qed.

Lemma step_ok_refl s : step_ok s s.
Proof. left. reflexivity. Qed.

(** A write of a status of level [n] over one of level [v <= n]. *)
Lemma step_ok_write s t v n :
  level s = Some v -> level t = Some n -> v <= n -> (n <= 6 \/ v <= 5) -> step_ok s t.
Proof.
  intros Hs Ht Hle Hb. destruct (decide (v = n)) as [->|Hne].
  - left. apply (level_inj _ _ _ Ht Hs).
  - right. exists v, n. repeat split; try assumption; lia.
Qed.

(** A terminal status is left by no step. *)
Lemma step_ok_terminal s s' : terminal s -> step_ok s s' -> s' = s.
Proof.
  intros Hterm [H|(a & b & Ha & _ & _ & Hle)]; [exact H|].
  destruct Hterm as [-> | ->]; cbv in Ha; injection Ha as <-; lia.
Qed.

Lemma last_cons {A} (l : list A) x d : List.last (x :: l) d = List.last l x.
Proof.
  revert x d. induction l as [|y l IH]; intros x d; [reflexivity|].
  change (List.last (x :: y :: l) d) with (List.last (y :: l) d).
  rewrite (IH y d), (IH y x). reflexivity.
Qed.

Lemma last_app_default {A} (l1 l2 : list A) d :
  List.last (l1 ++ l2)%list d = List.last l2 (List.last l1 d).
Proof.
  revert d. induction l1 as [|x l1 IH]; intros d; [reflexivity|].
  change ((x :: l1) ++ l2)%list with (x :: (l1 ++ l2))%list.
  rewrite !last_cons. apply IH.
Qed.

Lemma chain_app s ss1 ss2 :
  chain s ss1 -> chain (List.last ss1 s) ss2 -> chain s (ss1 ++ ss2)%list.
Proof.
  revert s. induction ss1 as [|x ss1 IH]; intros s H1 H2; [exact H2|].
  destruct H1 as [Hx H1]. split; [exact Hx|]. apply IH; [exact H1|].
  rewrite last_cons in H2. exact H2.
Qed.

Lemma chain_suffix s pre x post : chain s (pre ++ x :: post)%list -> chain x post.
Proof.
  revert s. induction pre as [|y pre IH]; intros s H.
  - exact (proj2 H).
  - exact (IH y (proj2 H)).
Qed.

Lemma chain_terminal s ss : terminal s -> chain s ss -> Forall (eq s) ss.
Proof.
  revert s. induction ss as [|x ss IH]; intros s Hterm H; [constructor|].
  destruct H as [Hx H]. apply (step_ok_terminal _ _ Hterm) in Hx. subst x.
  constructor; [reflexivity | apply IH; assumption].
Qed.

(** *** Writes seen through [at_status] *)

Lemma at_status_alter id l s st l' f :
  (forall d, status (f d) = status d) ->
  at_status id l s st -> at_status id l s (set_heap (alter f l') st).
Proof.
  intros Hf [Hd (d & Hh & Hs)]. split; [exact Hd|]. cbn [heap set_heap].
  destruct (decide (l' = l)) as [->|Hne].
  - exists (f d). rewrite lookup_alter_eq, Hh. split; [reflexivity|].
    rewrite Hf. exact Hs.
  - exists d. rewrite lookup_alter_ne by exact Hne. split; assumption.
Qed.

Lemma at_status_set_status id l s t st :
  at_status id l s st -> at_status id l t (set_heap (alter (set_status t) l) st).
Proof.
  intros [Hd (d & Hh & Hs)]. split; [exact Hd|]. cbn [heap set_heap].
  exists (set_status t d). rewrite lookup_alter_eq, Hh. split; reflexivity.
Qed.

Lemma at_status_tick id l s st : at_status id l s st -> at_status id l s (tick_clock st).
Proof. intros H. exact H. Qed.

Lemma at_status_observed id l ss tr :
  Forall2 (at_status id l) ss tr -> List.map (status_of id) tr = List.map Some ss.
Proof.
  induction 1 as [|s st ss tr [Hd (d & Hh & Hs)] _ IH]; [reflexivity|].
  cbn [List.map]. rewrite IH. f_equal.
  unfold status_of, record_of. rewrite Hd, Hh, Hs. reflexivity.
Qed.

(** *** Computations that move the status forward

    From a record under [id] at a status of level at most [a], the
    computation goes through legal steps only, leaves the record at a
    status of level at most [b], and raises only while the status is not
    terminal. *)
Definition advances (id : string) (l : loc) (a b : nat) {A} (m : M A) : Prop :=
  forall st s v,
    at_status id l s st -> level s = Some v -> v <= a ->
    exists ss vf,
      Forall2 (at_status id l) ss (trace (m st)) /\
      chain s ss /\
      at_status id l (List.last ss s) (final (m st)) /\
      level (List.last ss s) = Some vf /\ vf <= b /\
      (forall e, res (m st) = Raise e -> vf <= 5).

Lemma advances_silent id l a b {A} (m : M A) :
  a <= b ->
  (forall st, trace (m st) = [] /\ final (m st) = st /\
              (a <= 5 \/ exists x, res (m st) = Return x)) ->
  advances id l a b m.
Proof.
  intros Hab Hm st s v Hat Hlev Hv. destruct (Hm st) as (Ht & Hf & Hr).
  exists [], v. rewrite Ht, Hf. cbn [List.last chain].
  split; [constructor|]. split; [exact I|]. split; [exact Hat|].
  split; [exact Hlev|]. split; [lia|].
  intros e He. destruct Hr as [H5|(x & Hx)]; [lia | congruence].
Qed.

Lemma advances_ret id l a b {A} (x : A) : a <= b -> advances id l a b (ret x).
Proof.
  intros Hab. apply advances_silent; [exact Hab|].
  intros st. split; [reflexivity|]. split; [reflexivity|]. right. exists x. reflexivity.
Qed.

Lemma advances_call id l a b {A} (r : result A) :
  a <= b -> a <= 5 -> advances id l a b (call r).
Proof.
  intros Hab H5. apply advances_silent; [exact Hab|].
  intros st. split; [reflexivity|]. split; [reflexivity|]. left. exact H5.
Qed.

Lemma advances_bind id l a b c {A B} (m : M A) (k : A -> M B) :
  advances id l a b m -> (forall x, advances id l b c (k x)) -> b <= c ->
  advances id l a c (bind m k).
Proof.
  intros Hm Hk Hbc st s v Hat Hlev Hv.
  destruct (Hm st s v Hat Hlev Hv) as (ss1 & v1 & Htr1 & Hch1 & Hat1 & Hlev1 & Hv1 & Hr1).
  unfold bind. destruct (m st) as [[x|e] st1 tr1]; cbn [res final trace] in *.
  - destruct (Hk x st1 _ v1 Hat1 Hlev1 Hv1)
      as (ss2 & v2 & Htr2 & Hch2 & Hat2 & Hlev2 & Hv2 & Hr2).
    destruct (k x st1) as [r st2 tr2]; cbn [res final trace] in *.
    exists (ss1 ++ ss2)%list, v2. rewrite last_app_default.
    split; [apply Forall2_app; assumption|]. split; [apply chain_app; assumption|].
    split; [exact Hat2|]. split; [exact Hlev2|]. split; [exact Hv2 | exact Hr2].
  - exists ss1, v1.
    split; [exact Htr1|]. split; [exact Hch1|]. split; [exact Hat1|].
    split; [exact Hlev1|]. split; [lia|].
    intros e' _. apply (Hr1 e). reflexivity.
Qed.

Lemma advances_try_except id l a b c {A} (m : M A) (h : exn -> M A) :
  advances id l a b m -> (forall e, advances id l 5 c (h e)) -> b <= c ->
  advances id l a c (try_except m h).
Proof.
  intros Hm Hh Hbc st s v Hat Hlev Hv.
  destruct (Hm st s v Hat Hlev Hv) as (ss1 & v1 & Htr1 & Hch1 & Hat1 & Hlev1 & Hv1 & Hr1).
  unfold try_except. destruct (m st) as [[x|e] st1 tr1]; cbn [res final trace] in *.
  - exists ss1, v1.
    split; [exact Htr1|]. split; [exact Hch1|]. split; [exact Hat1|].
    split; [exact Hlev1|]. split; [lia|].
    intros e' He'. discriminate He'.
  - destruct (Hh e st1 _ v1 Hat1 Hlev1 (Hr1 e eq_refl))
      as (ss2 & v2 & Htr2 & Hch2 & Hat2 & Hlev2 & Hv2 & Hr2).
    destruct (h e st1) as [r st2 tr2]; cbn [res final trace] in *.
    exists (ss1 ++ ss2)%list, v2. rewrite last_app_default.
    split; [apply Forall2_app; assumption|]. split; [apply chain_app; assumption|].
    split; [exact Hat2|]. split; [exact Hlev2|]. split; [exact Hv2 | exact Hr2].
Qed.

Lemma advances_set_item id l a b l' f :
  (forall d, status (f d) = status d) -> a <= b -> advances id l a b (set_item l' f).
Proof.
  intros Hf Hab st s v Hat Hlev Hv. exists [s], v.
  unfold set_item, mutate. cbn [res final trace List.last chain].
  pose proof (at_status_alter id l s st l' f Hf Hat) as Hat'.
  split; [constructor; [exact Hat' | constructor]|].
  split; [split; [apply step_ok_refl | exact I]|].
  split; [exact Hat'|]. split; [exact Hlev|]. split; [lia|].
  intros e He. discriminate He.
Qed.

Lemma advances_update id l a b w t n p message :
  level t = Some n -> a <= n -> (n <= 6 \/ a <= 5) -> n <= b ->
  advances id l a b (update_deployment_status w id t p message).
Proof.
  intros Ht Han Hn Hnb st s v Hat Hlev Hv.
  rewrite (update_present w id t p message st l (proj1 Hat)). cbv zeta.
  cbn [res final trace].
  exists [t; t; t; t; t], n. cbn [List.last chain].
  pose proof (at_status_set_status id l s t st Hat) as H1.
  pose proof (at_status_tick _ _ _ _ H1) as H2.
  pose proof (at_status_alter id l t _ l (set_updated_at (utcnow_at w (clock st)))
                (fun d => eq_refl) H2) as H3.
  pose proof (at_status_tick _ _ _ _ H3) as H4.
  pose proof (at_status_alter id l t _ l
                (append_log ("[" ++ utcnow_at w (S (clock st)) ++ "] " ++ message))
                (fun d => eq_refl) H4) as H5.
  split; [repeat (constructor; [assumption|]); constructor|].
  split.
  { split; [apply (step_ok_write s t v n); try assumption; lia|].
    repeat (split; [apply step_ok_refl|]). exact I. }
  split; [exact H5|]. split; [exact Ht|]. split; [exact Hnb|].
  intros e He. discriminate He.
Qed.

Ltac step b :=
  match goal with
  | |- advances _ _ ?a ?c (bind _ _) =>
      apply (advances_bind _ _ a b c); [ | intros ? | lia ]
  end.

Ltac leaf :=
  first
    [ apply advances_ret; lia
    | apply advances_call; lia
    | apply advances_set_item; [intros ?; reflexivity | lia]
    | eapply advances_update; [reflexivity | lia | lia | lia] ].

Lemma advances_stages w l id request : advances id l 1 6 (stages w l id request).
Proof.
  unfold stages, simulate_delay. cbv zeta.
  step 1; [leaf|]. step 1; [leaf|]. step 1; [leaf|].
  step 2.
  { destruct (enable_containerization request); [|leaf].
    step 2; [leaf|]. step 2; [leaf|]. step 2; [leaf|]. leaf. }
  step 3; [leaf|].
  step 3. { destruct (truthy _); leaf. }
  step 3; [leaf|]. step 3; [leaf|].
  step 4.
  { destruct (enable_kubernetes request); [|leaf].
    step 4; [leaf|]. step 4; [leaf|]. leaf. }
  step 4; [leaf|]. step 4; [leaf|]. step 4; [leaf|].
  step 5.
  { destruct (enable_monitoring request); [|leaf].
    step 5; [leaf|]. step 5; [leaf|]. leaf. }
  step 6; [leaf|]. step 6; [leaf|]. step 6; [leaf|]. step 6; [leaf|]. leaf.
Qed.

Lemma advances_handler w l id e : advances id l 5 7 (except_handler w (Some l) id e).
Proof. unfold except_handler. step 7; leaf. Qed.

Lemma process_present w l id request st :
  deployments st !! id = Some l ->
  process_enhanced_deployment w id request st
  = try_except (stages w l id request) (except_handler w (Some l) id) st.
Proof. intros H. unfold process_enhanced_deployment. rewrite H. reflexivity. Qed.

(** C2: a run of [process_enhanced_deployment] on a pending record shows
    its readers a sequence of statuses in which each one is the one before
    or a later stage of the order (pending, detecting, containerizing,
    building, deploying, configuring, success) or [failed], reached from a
    stage that is not terminal; nothing follows [success] or [failed] but
    that same status. *)
Theorem status_moves_forward (w : World) (id : string) (request : EnhancedDeploymentRequest)
    (st : State) (l : loc) (d : DeploymentData) :
  deployments st !! id = Some l ->
  heap st !! l = Some d ->
  status d = "pending" ->
  let o := process_enhanced_deployment w id request st in
  exists ss,
    List.map (status_of id) (trace o) = List.map Some ss /\
    status_of id (final o) = Some (List.last ss "pending") /\
    chain "pending" ss /\
    (forall pre s post, ss = (pre ++ s :: post)%list -> terminal s -> Forall (eq s) post).
Proof.
  intros Hd Hh Hs o. subst o. rewrite (process_present w l id request st Hd).
  assert (Hat : at_status id l "pending" st) by (split; [exact Hd | exists d; split; assumption]).
  destruct (advances_try_except id l 1 6 7 _ _ (advances_stages w l id request)
              (advances_handler w l id) ltac:(lia) st "pending" 0 Hat eq_refl ltac:(lia))
    as (ss & vf & Htr & Hch & Hfin & _).
  exists ss. repeat split.
  - apply (at_status_observed id l). exact Htr.
  - destruct Hfin as [Hd' (d' & Hh' & Hs')].
    unfold status_of, record_of. rewrite Hd', Hh', Hs'. reflexivity.
  - exact Hch.
  - intros pre s post -> Hterm. apply (chain_terminal _ _ Hterm).
    apply (chain_suffix _ _ _ _ Hch).
Qed.

(** *** Failure *)

(** The [except] branch on a record the store holds: the status update,
    then the error message through the reference. *)
Lemma handler_present w id l e st :
  deployments st !! id = Some l ->
  except_handler w (Some l) id e st =
    let message := "Deployment failed: " ++ str_exn e in
    let st1 := set_heap (alter (set_status "failed") l) st in
    let st2 := tick_clock st1 in
    let st3 := set_heap (alter (set_updated_at (utcnow_at w (clock st))) l) st2 in
    let st4 := tick_clock st3 in
    let st5 := set_heap (alter (append_log ("[" ++ utcnow_at w (S (clock st)) ++ "] "
                                             ++ message)) l) st4 in
    let st6 := set_heap (alter (append_error (str_exn e)) l) st5 in
    mkOutcome (Return tt) st6 [st1; st2; st3; st4; st5; st6].
Proof.
  intros H. unfold except_handler, bind.
  rewrite (update_present w id "failed" 0 _ st l H). reflexivity.
Qed.

(** [get_deployment_status] on a record the store holds. *)
Lemma status_report id st l d :
  deployments st !! id = Some l ->
  heap st !! l = Some d ->
  exists ds,
    get_deployment_status id st = mkOutcome (Return ds) st [] /\
    ds_status ds = status d /\
    progress ds = match get progress_map (status d) with Some p => p | None => 0%Z end.
Proof.
  intros Hd Hh. destruct st as [D Hp C U]. cbn [deployments heap] in Hd, Hh.
  eexists. split.
  - cbv beta iota zeta delta
      [get_deployment_status deref bind member gets subscript ret raise negb
       res final trace deployments heap app].
    rewrite bool_decide_true by (rewrite Hd; eauto).
    rewrite Hd. cbv beta iota. rewrite Hh. reflexivity.
  - split; reflexivity.
Qed.

(** C1: when a stage of a run raises an exception, on a record the store
    holds, the run ends there without raising: the record's status is
    [failed], the progress [get_deployment_status] reports for it is 0, the
    exception's message is appended to its errors (and logged), every state
    a reader sees from the exception on has status [failed], and no later
    stage leaves a mark on the record. *)
Theorem failure_marks_failed (w : World) (id : string) (request : EnhancedDeploymentRequest)
    (st : State) (l : loc) (e : exn) (st_fail : State) (tr : list State) :
  deployments st !! id = Some l ->
  is_Some (heap st !! l) ->
  stages w l id request st = mkOutcome (Raise e) st_fail tr ->
  let o := process_enhanced_deployment w id request st in
  exists d_fail d_final,
    heap st_fail !! l = Some d_fail /\
    res o = Return tt /\
    record_of id (final o) = Some d_final /\
    d_final = append_error (str_exn e)
                (touched "failed" (utcnow_at w (clock st_fail))
                   (utcnow_at w (S (clock st_fail)))
                   ("Deployment failed: " ++ str_exn e) d_fail) /\
    status d_final = "failed" /\
    errors d_final = (errors d_fail ++ [str_exn e])%list /\
    (exists ds,
        res (get_deployment_status id (final o)) = Return ds /\
        ds_status ds = "failed" /\ progress ds = 0%Z) /\
    (exists tr_h,
        trace o = (tr ++ tr_h)%list /\
        Forall (fun s => status_of id s = Some "failed") tr_h).
Proof.
  intros Hd Hh Hst o. subst o.
  destruct (preserves_stages (live id l) w l id request
              (live_heap_stable id l) (live_clock_stable id l) st (conj Hd Hh))
    as [_ Hlive].
  rewrite Hst in Hlive. cbn [final] in Hlive. destruct Hlive as [Hd' [d_fail Hh']].
  rewrite (process_present w l id request st Hd). unfold try_except. rewrite Hst.
  rewrite (handler_present w id l e st_fail Hd'). cbv zeta.
  set (message := "Deployment failed: " ++ str_exn e).
  set (st1 := set_heap (alter (set_status "failed") l) st_fail).
  set (st3 := set_heap (alter (set_updated_at (utcnow_at w (clock st_fail))) l) (tick_clock st1)).
  set (st5 := set_heap (alter (append_log ("[" ++ utcnow_at w (S (clock st_fail)) ++ "] "
                                            ++ message)) l) (tick_clock st3)).
  set (st6 := set_heap (alter (append_error (str_exn e)) l) st5).
  cbn [res final trace].
  assert (H1 : at_status id l "failed" st1).
  { apply (at_status_set_status id l (status d_fail)).
    split; [exact Hd' | exists d_fail; split; [exact Hh' | reflexivity]]. }
  assert (H3 : at_status id l "failed" st3).
  { apply at_status_alter; [intros ?; reflexivity | apply at_status_tick; exact H1]. }
  assert (H5 : at_status id l "failed" st5).
  { apply at_status_alter; [intros ?; reflexivity | apply at_status_tick; exact H3]. }
  assert (H6 : at_status id l "failed" st6).
  { apply at_status_alter; [intros ?; reflexivity | exact H5]. }
  assert (Hseen : forall s, at_status id l "failed" s -> status_of id s = Some "failed").
  { intros s [Hds (ds & Hhs & Hss)]. unfold status_of, record_of.
    rewrite Hds, Hhs, Hss. reflexivity. }
  assert (Hrec : heap st6 !! l
                 = Some (append_error (str_exn e)
                           (touched "failed" (utcnow_at w (clock st_fail))
                              (utcnow_at w (S (clock st_fail))) message d_fail))).
  { subst st6 st5 st3 st1. cbn [heap set_heap tick_clock].
    rewrite !lookup_alter_eq, Hh'. reflexivity. }
  exists d_fail, (append_error (str_exn e)
                    (touched "failed" (utcnow_at w (clock st_fail))
                       (utcnow_at w (S (clock st_fail))) message d_fail)).
  split; [exact Hh'|]. split; [reflexivity|].
  split; [unfold record_of; rewrite (proj1 H6); exact Hrec|].
  split; [reflexivity|]. split; [reflexivity|]. split; [reflexivity|].
  split.
  - destruct (status_report id st6 l _ (proj1 H6) Hrec) as (ds & Hds & Hs & Hp).
    exists ds. rewrite Hds. split; [reflexivity|]. split; [exact Hs | exact Hp].
  - eexists. split; [reflexivity|].
    repeat (constructor; [apply Hseen; first [exact H1 | exact H3 | exact H5 | exact H6
                                             | apply at_status_tick; assumption]|]).
    constructor.
Qed.

(** *** Identifiers and rollback *)

Lemma submit_store w request st :
  deployments (final (enhanced_deployment w request st))
  = <[uuid4_at w (uuids st) := fresh (dom (heap st))]> (deployments st) /\
  uuids (final (enhanced_deployment w request st)) = S (uuids st).
Proof. destruct st as [D Hp C U]. split; reflexivity. Qed.

Lemma status_request_reads id st : final (get_deployment_status id st) = st.
Proof.
  destruct st as [D Hp C U].
  cbv beta iota zeta delta
    [get_deployment_status deref bind member gets subscript ret raise
     res final trace deployments heap app].
  destruct (D !! id) as [l|] eqn:Hd.
  - rewrite bool_decide_true by eauto. cbv beta iota delta [negb].
    rewrite ?Hd. cbv beta iota.
    destruct (Hp !! l) eqn:Hh; rewrite ?Hh; reflexivity.
  - rewrite bool_decide_false by (intros [? ?]; discriminate). reflexivity.
Qed.

(** [rollback_deployment] on an id the store holds: an identifier is
    drawn, the clock is read, and that is all. *)
Lemma rollback_present w id request st :
  is_Some (deployments st !! id) ->
  rollback_deployment w id request st =
    mkOutcome
      (Return {| rollback_id := uuid4_at w (uuids st);
                 rb_deployment_id := id;
                 rb_status := "pending";
                 rb_message := "Rollback initiated";
                 rb_created_at := utcnow_at w (clock st) |})
      (tick_clock (tick_uuids st))
      [tick_uuids st; tick_clock (tick_uuids st)].
Proof.
  intros H. destruct st as [D Hp C U]. cbn [deployments] in H. run_py.
  rewrite bool_decide_true by exact H. reflexivity.
Qed.

Lemma rollback_store w id request st :
  deployments (final (rollback_deployment w id request st)) = deployments st /\
  uuids st <= uuids (final (rollback_deployment w id request st)).
Proof.
  destruct (deployments st !! id) as [l|] eqn:H.
  - rewrite rollback_present by eauto. cbn. split; [reflexivity | lia].
  - destruct st as [D Hp C U]. cbn [deployments] in H. run_py.
    rewrite bool_decide_false by (rewrite H; intros [? ?]; discriminate).
    cbn. split; [reflexivity | lia].
Qed.

Lemma delete_store id st :
  (forall k, is_Some (deployments (final (delete_deployment id st)) !! k) ->
             is_Some (deployments st !! k)) /\
  uuids (final (delete_deployment id st)) = uuids st.
Proof.
  destruct st as [D Hp C U]. run_py.
  destruct (D !! id) as [l|] eqn:H.
  - rewrite bool_decide_true by eauto. cbn. split; [|reflexivity].
    intros k Hk. apply lookup_delete_is_Some in Hk. apply Hk.
  - rewrite bool_decide_false by (intros [? ?]; discriminate). cbn.
    split; [intros k Hk; exact Hk | reflexivity].
Qed.

(** Every id of a reachable store was drawn from the identifier source. *)
Lemma reachable_ids_issued w st : reachable w st -> ids_issued w st.
Proof.
  induction 1 as [|st request _ IH|st id request _ IH|st id _ IH|st id request _ IH
                  |st id rollback_id request _ IH|st id _ IH]; intros k Hk.
  - cbn in Hk. rewrite lookup_empty in Hk. destruct Hk as [? Hk]. discriminate Hk.
  - destruct (submit_store w request st) as [Hd Hu]. rewrite Hd in Hk. rewrite Hu.
    apply lookup_insert_is_Some in Hk. destruct Hk as [<-|[_ Hk]].
    + exists (uuids st). split; [lia | reflexivity].
    + destruct (IH k Hk) as (n & Hn & ->). exists n. split; [lia | reflexivity].
  - destruct (process_keeps_store w id request st) as [Hd Hu]. rewrite Hd in Hk.
    rewrite Hu. apply IH. exact Hk.
  - rewrite status_request_reads in *. apply IH. exact Hk.
  - destruct (rollback_store w id request st) as [Hd Hu]. rewrite Hd in Hk.
    destruct (IH k Hk) as (n & Hn & ->). exists n. split; [lia | reflexivity].
  - apply IH. exact Hk.
  - destruct (delete_store id st) as [Hd Hu]. rewrite Hu.
    apply IH. apply Hd. exact Hk.
Qed.


(** *** The properties at concrete inputs *)

(** The statuses a reader sees, each once, in the order they appear. *)
Fixpoint distinct_run (ss : list (option string)) : list (option string) :=
  match ss with
  | s :: (s' :: _) as rest =>
      if decide (s = s') then distinct_run rest else s :: distinct_run rest
  | _ => ss
  end.

(** The demo deployment with its analysis succeeding: the run goes through
    every stage but the Kubernetes one and ends in [success], with the
    Docker artifacts, the build artifacts, the storage and CDN entries and
    the monitoring entries recorded. *)
Example demo_run_succeeds :
  let o := process_enhanced_deployment demo_world "uuid-0" demo_request (submitted demo_world) in
  res o = Return tt /\
  distinct_run (List.map (status_of "uuid-0") (trace o))
  = [Some "detecting"; Some "containerizing"; Some "building"; Some "deploying";
     Some "configuring"; Some "success"] /\
  option_map resources_created (record_of "uuid-0" (final o))
  = Some ["Dockerfile"; "docker-compose.yml"; "docker-compose.prod.yml"; ".dockerignore";
          "Build artifacts"; "S3 bucket"; "CloudFront distribution"; "ECS service";
          "CloudWatch logs"; "CloudWatch metrics"; "CloudWatch alarms"] /\
  option_map url (record_of "uuid-0" (final o)) = Some (Some "https://demo.deployhub.com").
Proof. vm_compute. repeat split; reflexivity. Qed.

(** The same deployment when the project directory does not exist. *)
Example demo_run_fails :
  let o := process_enhanced_deployment missing_project_world "uuid-0" demo_request
             (submitted missing_project_world) in
  res o = Return tt /\
  distinct_run (List.map (status_of "uuid-0") (trace o)) = [Some "detecting"; Some "failed"] /\
  option_map errors (record_of "uuid-0" (final o))
  = Some ["Project path does not exist: /tmp/projects/demo"] /\
  option_map logs (record_of "uuid-0" (final o))
  = Some ["[T2] Analyzing project structure...";
          "[T4] Deployment failed: Project path does not exist: /tmp/projects/demo"].
Proof. vm_compute. repeat split; reflexivity. Qed.

(** A run for an id the store no longer holds: the first statement of the
    [try] block raises [KeyError], the [except] branch updates nothing and
    then reads the local variable [deployment], which was never bound. *)
Example run_after_delete_raises :
  let st := final (delete_deployment "uuid-0" (submitted demo_world)) in
  process_enhanced_deployment demo_world "uuid-0" demo_request st
  = mkOutcome (Raise (UnboundLocalError "deployment")) st [].
Proof. vm_compute. reflexivity. Qed.

Lemma numbered_uuids_distinct n m :
  uuid4_at demo_world n = uuid4_at demo_world m -> n = m.
Proof.
  cbn. intros H. apply (inj pretty). injection H as H. exact H.
Qed.

(** The demo project's directory does not exist: the analysis raises, and
    the run ends with the record failed. *)
Lemma failure_marks_failed_witness :
  status_of "uuid-0"
    (final (process_enhanced_deployment missing_project_world "uuid-0" demo_request
              (submitted missing_project_world)))
  = Some "failed".
Proof.
  destruct (failure_marks_failed missing_project_world "uuid-0" demo_request
              (submitted missing_project_world) 0
              (FileNotFoundError "Project path does not exist: /tmp/projects/demo")
              (final (stages missing_project_world 0 "uuid-0" demo_request
                        (submitted missing_project_world)))
              (trace (stages missing_project_world 0 "uuid-0" demo_request
                        (submitted missing_project_world))))
    as (d_fail & d_final & _ & _ & Hrec & _ & Hs & _).
  - vm_compute. reflexivity.
  - vm_compute. eexists. reflexivity.
  - vm_compute. reflexivity.
  - unfold status_of. rewrite Hrec, Hs. reflexivity.
Defined.

(** A run of the demo deployment, analysis succeeding. *)
Lemma status_moves_forward_witness :
  exists ss,
    List.map (status_of "uuid-0")
      (trace (process_enhanced_deployment demo_world "uuid-0" demo_request
                (submitted demo_world)))
    = List.map Some ss /\
    chain "pending" ss.
Proof.
  destruct (status_moves_forward demo_world "uuid-0" demo_request (submitted demo_world) 0
              {| deployment_id := "uuid-0";
                 project_name := "demo";
                 project_type := ProjectAnalyzer.REACT;
                 environment := "prod";
                 status := "pending";
                 created_at := "T0";
                 updated_at := "T0";
                 options := [];
                 logs := [];
                 errors := [];
                 resources_created := [];
                 resources_failed := [];
                 monitoring_enabled := true;
                 url := None;
                 metrics_url := None;
                 logs_url := None;
                 project_analysis := None |})
    as (ss & Hmap & _ & Hchain & _).
  - vm_compute. reflexivity.
  - vm_compute. reflexivity.
  - reflexivity.
  - exists ss. split; assumption.
Defined.


(** An update for an id nobody submitted. *)
Lemma update_unknown_id_is_noop_witness :
  update_deployment_status demo_world "uuid-7" "building" 40 "Building react project..."
    (submitted demo_world)
  = mkOutcome (Return tt) (submitted demo_world) [].
Proof.
  apply (proj1 (update_unknown_id_is_noop demo_world "uuid-7" "building" 40
                  "Building react project..." (submitted demo_world))).
  vm_compute. reflexivity.
Defined.

(** *** The record a run works on, and the rest of the state *)

(** From one observation of a record to a later one: the fields that
    identify the deployment are what they were, the lists have only been
    appended to, and a status of the stage order is followed by one. *)
Definition grows (d d' : DeploymentData) : Prop :=
  deployment_id d' = deployment_id d /\
  project_name d' = project_name d /\
  project_type d' = project_type d /\
  environment d' = environment d /\
  created_at d' = created_at d /\
  options d' = options d /\
  monitoring_enabled d' = monitoring_enabled d /\
  resources_failed d' = resources_failed d /\
  logs d `prefix_of` logs d' /\
  errors d `prefix_of` errors d' /\
  resources_created d `prefix_of` resources_created d' /\
  (is_Some (level (status d)) -> is_Some (level (status d'))).

(** The records [ds], one after another from [d], are related by [R]. *)
Fixpoint linked (R : relation DeploymentData) (d : DeploymentData)
    (ds : list DeploymentData) : Prop :=
  match ds with
  | [] => True
  | d' :: ds' => R d d' /\ linked R d' ds'
  end.

(** The writes of the pipeline all fall under [R]. *)
Record writes (R : relation DeploymentData) : Prop := {
  writes_refl : forall d, R d d;
  writes_status : forall s d, is_Some (level s) -> R d (set_status s d);
  writes_updated_at : forall t d, R d (set_updated_at t d);
  writes_log : forall m d, R d (append_log m d);
  writes_error : forall m d, R d (append_error m d);
  writes_resources : forall r d, R d (extend_resources_created r d);
  writes_url : forall u d, R d (set_url u d);
  writes_metrics_url : forall u d, R d (set_metrics_url u d);
  writes_logs_url : forall u d, R d (set_logs_url u d);
  writes_analysis : forall a d, R d (set_project_analysis a d)
}.

(** State [s] is [st0] but for the clock and for the record object [l],
    which holds [d]. *)
Definition holds (st0 : State) (l : loc) (d : DeploymentData) (s : State) : Prop :=
  deployments s = deployments st0 /\ uuids s = uuids st0 /\
  heap s = <[l := d]> (heap st0).

(** A computation that writes to the record object [l] of [id] only, by
    steps under [R]. *)
Definition walks (id : string) (l : loc) (R : relation DeploymentData) {A} (m : M A)
  : Prop :=
  forall st0 d st,
    deployments st0 !! id = Some l -> holds st0 l d st ->
    exists ds,
      Forall2 (holds st0 l) ds (trace (m st)) /\
      linked R d ds /\
      holds st0 l (List.last ds d) (final (m st)).

Lemma grows_refl d : grows d d.
Proof. unfold grows. repeat (split; [reflexivity|]). intros H; exact H. Qed.

Lemma grows_trans d1 d2 d3 : grows d1 d2 -> grows d2 d3 -> grows d1 d3.
Proof.
  unfold grows.
  intros (A1 & A2 & A3 & A4 & A5 & A6 & A7 & A8 & A9 & A10 & A11 & A12)
         (B1 & B2 & B3 & B4 & B5 & B6 & B7 & B8 & B9 & B10 & B11 & B12).
  repeat (split; [congruence|]).
  split; [etransitivity; eassumption|].
  split; [etransitivity; eassumption|].
  split; [etransitivity; eassumption|].
  intros H. apply B12, A12, H.
Qed.

Lemma writes_grows : writes grows.
Proof.
  split; intros; unfold grows; cbn;
    repeat first
      [ split
      | reflexivity
      | assumption
      | match goal with
        | |- ?l `prefix_of` (?l ++ ?k)%list => exists k; reflexivity
        | |- _ -> _ => intros ?
        end ].
Qed.

Lemma linked_app R d ds1 ds2 :
  linked R d ds1 -> linked R (List.last ds1 d) ds2 -> linked R d (ds1 ++ ds2)%list.
Proof.
  revert d. induction ds1 as [|x ds1 IH]; intros d H1 H2; [exact H2|].
  destruct H1 as [Hx H1]. split; [exact Hx|].
  apply IH; [exact H1|]. rewrite last_cons in H2. exact H2.
Qed.

(** With a transitive and reflexive [R], every record of the sequence is
    related to the first. *)
Lemma linked_from R d ds :
  (forall x, R x x) -> (forall x y z, R x y -> R y z -> R x z) ->
  linked R d ds -> Forall (R d) ds /\ R d (List.last ds d).
Proof.
  intros Hrefl Htrans. revert d.
  induction ds as [|x ds IH]; intros d H; [split; [constructor | apply Hrefl]|].
  destruct H as [Hx H]. destruct (IH x H) as [Hall Hlast].
  rewrite last_cons. split.
  - constructor; [exact Hx|].
    eapply Forall_impl; [exact Hall|]. intros y Hy. exact (Htrans _ _ _ Hx Hy).
  - exact (Htrans _ _ _ Hx Hlast).
Qed.

Lemma holds_start st l d : heap st !! l = Some d -> holds st l d st.
Proof.
  intros H. split; [reflexivity|]. split; [reflexivity|].
  symmetry. apply insert_id. exact H.
Qed.

Lemma holds_alter st0 l d st f :
  holds st0 l d st -> holds st0 l (f d) (set_heap (alter f l) st).
Proof.
  intros (Hd & Hu & Hh). split; [exact Hd|]. split; [exact Hu|].
  cbn [heap set_heap]. rewrite Hh. apply alter_insert_eq.
Qed.

Lemma holds_tick st0 l d st : holds st0 l d st -> holds st0 l d (tick_clock st).
Proof. intros H. exact H. Qed.

Lemma walks_silent id l R {A} (m : M A) :
  (forall st, trace (m st) = [] /\ final (m st) = st) -> walks id l R m.
Proof.
  intros Hm st0 d st _ H. destruct (Hm st) as [Ht Hf].
  exists []. rewrite Ht, Hf. split; [constructor|]. split; [exact I | exact H].
Qed.

Lemma walks_ret id l R {A} (x : A) : walks id l R (ret x).
Proof. apply walks_silent. intros st. split; reflexivity. Qed.

Lemma walks_raise id l R {A} e : walks id l R (@raise A e).
Proof. apply walks_silent. intros st. split; reflexivity. Qed.

Lemma walks_call id l R {A} (r : result A) : walks id l R (call r).
Proof. apply walks_silent. intros st. split; reflexivity. Qed.

Lemma walks_bind id l R {A B} (m : M A) (k : A -> M B) :
  walks id l R m -> (forall x, walks id l R (k x)) -> walks id l R (bind m k).
Proof.
  intros Hm Hk st0 d st Hid H.
  destruct (Hm st0 d st Hid H) as (ds1 & Htr1 & Hl1 & Hf1).
  unfold bind. destruct (m st) as [[x|e] st1 tr1]; cbn [res final trace] in *.
  - destruct (Hk x st0 _ st1 Hid Hf1) as (ds2 & Htr2 & Hl2 & Hf2).
    destruct (k x st1) as [r st2 tr2]; cbn [res final trace] in *.
    exists (ds1 ++ ds2)%list. rewrite last_app_default.
    split; [apply Forall2_app; assumption|].
    split; [apply linked_app; assumption | exact Hf2].
  - exists ds1. split; [exact Htr1|]. split; assumption.
Qed.

Lemma walks_try_except id l R {A} (m : M A) (h : exn -> M A) :
  walks id l R m -> (forall e, walks id l R (h e)) -> walks id l R (try_except m h).
Proof.
  intros Hm Hh st0 d st Hid H.
  destruct (Hm st0 d st Hid H) as (ds1 & Htr1 & Hl1 & Hf1).
  unfold try_except. destruct (m st) as [[x|e] st1 tr1]; cbn [res final trace] in *.
  - exists ds1. split; [exact Htr1|]. split; assumption.
  - destruct (Hh e st0 _ st1 Hid Hf1) as (ds2 & Htr2 & Hl2 & Hf2).
    destruct (h e st1) as [r st2 tr2]; cbn [res final trace] in *.
    exists (ds1 ++ ds2)%list. rewrite last_app_default.
    split; [apply Forall2_app; assumption|].
    split; [apply linked_app; assumption | exact Hf2].
Qed.

Lemma walks_set_item id l R f :
  (forall d, R d (f d)) -> walks id l R (set_item l f).
Proof.
  intros Hf st0 d st _ H. exists [f d].
  unfold set_item, mutate. cbn [res final trace List.last linked].
  pose proof (holds_alter st0 l d st f H) as H'.
  split; [constructor; [exact H' | constructor]|].
  split; [split; [apply Hf | exact I] | exact H'].
Qed.

Lemma walks_update id l R w t p message :
  writes R -> is_Some (level t) ->
  walks id l R (update_deployment_status w id t p message).
Proof.
  intros HR Ht st0 d st Hid H.
  assert (Hst : deployments st !! id = Some l) by (rewrite (proj1 H); exact Hid).
  rewrite (update_present w id t p message st l Hst). cbv zeta.
  cbn [res final trace].
  set (t1 := utcnow_at w (clock st)).
  set (line := "[" ++ utcnow_at w (S (clock st)) ++ "] " ++ message).
  exists [set_status t d; set_status t d;
          set_updated_at t1 (set_status t d); set_updated_at t1 (set_status t d);
          append_log line (set_updated_at t1 (set_status t d))].
  cbn [List.last linked].
  pose proof (holds_alter st0 l d st (set_status t) H) as H1.
  pose proof (holds_tick _ _ _ _ H1) as H2.
  pose proof (holds_alter st0 l _ _ (set_updated_at t1) H2) as H3.
  pose proof (holds_tick _ _ _ _ H3) as H4.
  pose proof (holds_alter st0 l _ _ (append_log line) H4) as H5.
  split; [repeat (constructor; [assumption|]); constructor|].
  split; [|exact H5].
  split; [apply (writes_status R HR); exact Ht|].
  split; [apply (writes_refl R HR)|].
  split; [apply (writes_updated_at R HR)|].
  split; [apply (writes_refl R HR)|].
  split; [apply (writes_log R HR) | exact I].
Qed.

Ltac stroll HR :=
  repeat first
    [ apply walks_ret
    | apply walks_call
    | apply walks_raise
    | apply walks_set_item; intros ?;
      first [ apply (writes_resources _ HR) | apply (writes_url _ HR)
            | apply (writes_metrics_url _ HR) | apply (writes_logs_url _ HR)
            | apply (writes_analysis _ HR) | apply (writes_error _ HR) ]
    | apply walks_update; [exact HR | eexists; reflexivity]
    | apply walks_bind; [ | intros ? ]
    | match goal with
      | |- walks _ _ _ (if ?b then _ else _) => destruct b
      | |- walks _ _ _ (match truthy ?o with _ => _ end) => destruct (truthy o)
      end ].

Lemma walks_stages id l R w request :
  writes R -> walks id l R (stages w l id request).
Proof. intros HR. unfold stages, simulate_delay. cbv zeta. stroll HR. Qed.

Lemma walks_handler id l R w e :
  writes R -> walks id l R (except_handler w (Some l) id e).
Proof. intros HR. unfold except_handler. stroll HR. Qed.

(** A run on a record the store holds: every state it goes through is the
    first one but for the clock and that record, whose successive values
    are related by [R]. *)
Lemma run_walks R w id request st l d :
  writes R ->
  deployments st !! id = Some l -> heap st !! l = Some d ->
  let o := process_enhanced_deployment w id request st in
  exists ds,
    Forall2 (holds st l) ds (trace o) /\ linked R d ds /\
    holds st l (List.last ds d) (final o).
Proof.
  intros HR Hd Hh o. subst o. rewrite (process_present w l id request st Hd).
  apply (walks_try_except id l R _ _ (walks_stages id l R w request HR)
           (fun e => walks_handler id l R w e HR) st d st Hd).
  apply holds_start. exact Hh.
Qed.

(** A run on an id the store does not hold changes nothing and raises. *)
Lemma run_absent w id request st :
  deployments st !! id = None ->
  process_enhanced_deployment w id request st
  = mkOutcome (Raise (UnboundLocalError "deployment")) st [].
Proof.
  intros H. unfold process_enhanced_deployment. rewrite H.
  unfold except_handler, bind. rewrite update_absent by exact H. reflexivity.
Qed.

(** *** Computations that return

    On a record [d] under [id] that satisfies [P], the computation returns
    and leaves under [id] a record that satisfies [Q]. *)
Definition ends (id : string) (l : loc) (P Q : DeploymentData -> Prop) {A} (m : M A)
  : Prop :=
  forall st d,
    deployments st !! id = Some l -> heap st !! l = Some d -> P d ->
    exists x d',
      res (m st) = Return x /\
      deployments (final (m st)) !! id = Some l /\
      heap (final (m st)) !! l = Some d' /\ Q d'.

Lemma ends_ret id l P {A} (x : A) : ends id l P P (ret x).
Proof. intros st d Hd Hh HP. exists x, d. repeat split; assumption. Qed.

Lemma ends_call id l P {A} (r : result A) x : r = Return x -> ends id l P P (call r).
Proof. intros -> st d Hd Hh HP. exists x, d. repeat split; assumption. Qed.

Lemma ends_bind id l P Q R {A B} (m : M A) (k : A -> M B) :
  ends id l P Q m -> (forall x, ends id l Q R (k x)) -> ends id l P R (bind m k).
Proof.
  intros Hm Hk st d Hd Hh HP.
  destruct (Hm st d Hd Hh HP) as (x & d1 & Hr1 & Hd1 & Hh1 & HQ).
  unfold bind. destruct (m st) as [r1 st1 tr1]; cbn [res final trace] in *. subst r1.
  destruct (Hk x st1 d1 Hd1 Hh1 HQ) as (y & d2 & Hr2 & Hd2 & Hh2 & HR).
  destruct (k x st1) as [r2 st2 tr2]; cbn [res final trace] in *.
  exists y, d2. repeat split; assumption.
Qed.

Lemma ends_bind_call id l P Q {A B} (r : result A) x (k : A -> M B) :
  r = Return x -> ends id l P Q (k x) -> ends id l P Q (bind (call r) k).
Proof.
  intros -> Hk st d Hd Hh HP.
  destruct (Hk st d Hd Hh HP) as (y & d' & Hr & Hd' & Hh' & HQ).
  unfold bind, call. destruct (k x st) as [r st2 tr2]; cbn [res final trace] in *.
  exists y, d'. repeat split; assumption.
Qed.

Lemma ends_conseq id l (P Q Q' : DeploymentData -> Prop) {A} (m : M A) :
  ends id l P Q m -> (forall d, Q d -> Q' d) -> ends id l P Q' m.
Proof.
  intros Hm HQ st d Hd Hh HP.
  destruct (Hm st d Hd Hh HP) as (x & d' & Hr & Hd' & Hh' & Hq).
  exists x, d'. repeat split; try assumption. apply HQ, Hq.
Qed.

Lemma ends_pre id l (P P' Q : DeploymentData -> Prop) {A} (m : M A) :
  (forall d, P d -> P' d) -> ends id l P' Q m -> ends id l P Q m.
Proof. intros HP Hm st d Hd Hh Hp. apply (Hm st d Hd Hh). apply HP, Hp. Qed.

Lemma ends_set_item id l P f :
  ends id l P (fun d' => exists d, P d /\ d' = f d) (set_item l f).
Proof.
  intros st d Hd Hh HP. exists tt, (f d).
  unfold set_item, mutate. cbn [res final trace heap set_heap deployments].
  split; [reflexivity|]. split; [exact Hd|].
  split; [rewrite lookup_alter_eq, Hh; reflexivity|].
  exists d. split; [exact HP | reflexivity].
Qed.

Lemma ends_update id l P w t p message :
  ends id l P
    (fun d' => exists d t1 t2, P d /\ d' = touched t t1 t2 message d)
    (update_deployment_status w id t p message).
Proof.
  intros st d Hd Hh HP.
  rewrite (update_present w id t p message st l Hd). cbv zeta.
  cbn [res final trace heap set_heap tick_clock deployments].
  exists tt. eexists. split; [reflexivity|]. split; [exact Hd|].
  split; [rewrite !lookup_alter_eq, Hh; reflexivity|].
  exists d, (utcnow_at w (clock st)), (utcnow_at w (S (clock st))).
  split; [exact HP | reflexivity].
Qed.

(** The resources a run that completes lists, in order. *)
Definition resources_of_run (request : EnhancedDeploymentRequest)
    (pa : ProjectAnalyzer.ProjectAnalysis) : list string :=
  ((if enable_containerization request
    then ["Dockerfile"; "docker-compose.yml"; "docker-compose.prod.yml"; ".dockerignore"]
    else []) ++
   ["Build artifacts"] ++
   (if enable_kubernetes request
    then ["Kubernetes deployment"; "Kubernetes service"; "Kubernetes ingress"]
    else []) ++
   ["S3 bucket"; "CloudFront distribution";
    if String.eqb (ProjectAnalyzer.value (ProjectAnalyzer.project_type pa))
         "static"
    then "Lambda function" else "ECS service"] ++
   (if enable_monitoring request
    then ["CloudWatch logs"; "CloudWatch metrics"; "CloudWatch alarms"]
    else []))%list.

(** The record a completed run leaves, from the record [d] it started on. *)
Definition completed (id : string) (request : EnhancedDeploymentRequest)
    (pa : ProjectAnalyzer.ProjectAnalysis) (d d' : DeploymentData) : Prop :=
  status d' = "success" /\
  url d' = Some ("https://" ++ req_project_name request ++ ".deployhub.com") /\
  metrics_url d' = Some ("https://metrics.deployhub.com/" ++ id) /\
  logs_url d' = Some ("https://logs.deployhub.com/" ++ id) /\
  project_analysis d' =
    Some {| summary_type :=
              ProjectAnalyzer.value (ProjectAnalyzer.project_type pa);
            summary_framework_version :=
              ProjectAnalyzer.framework_version pa;
            summary_package_manager := ProjectAnalyzer.package_manager pa;
            summary_port := ProjectAnalyzer.pa_port pa;
            summary_base_image := ProjectAnalyzer.pa_base_image pa;
            summary_confidence_score :=
              ProjectAnalyzer.confidence_score pa |} /\
  errors d' = errors d /\
  resources_created d' =
    (resources_created d ++ resources_of_run request pa)%list.

(** The fields the stages before the last leave alone or extend: the
    errors, the resources created so far, and the status. *)
Definition kept (E Rs : list string) (s : string) (d : DeploymentData) : Prop :=
  errors d = E /\ resources_created d = Rs /\ status d = s.

Lemma ends_update_kept id l E Rs s w t p message :
  ends id l (kept E Rs s) (kept E Rs t) (update_deployment_status w id t p message).
Proof.
  eapply ends_conseq; [apply ends_update|].
  intros d' (d & t1 & t2 & (HE & HR & _) & ->).
  split; [exact HE|]. split; [exact HR | reflexivity].
Qed.

Lemma ends_extend_kept id l E Rs s xs :
  ends id l (kept E Rs s) (kept E (Rs ++ xs)%list s)
       (set_item l (extend_resources_created xs)).
Proof.
  eapply ends_conseq; [apply ends_set_item|].
  intros d' (d & (HE & HR & Hs) & ->).
  split; [exact HE|]. split; [cbn; rewrite HR; reflexivity | exact Hs].
Qed.

Lemma ends_if_kept id l E Rs s t xs (b : bool) (m : M unit) :
  ends id l (kept E Rs s) (kept E (Rs ++ xs)%list t) m ->
  ends id l (kept E Rs s)
       (kept E (Rs ++ if b then xs else [])%list (if b then t else s))
       (if b then m else ret tt).
Proof.
  intros H. destruct b; [exact H|]. rewrite app_nil_r. apply ends_ret.
Qed.

Lemma ends_option_kept id l E Rs s t {B} (o : option B) (m : B -> M unit) :
  (forall b, ends id l (kept E Rs s) (kept E Rs t) (m b)) ->
  ends id l (kept E Rs s)
       (kept E Rs (match o with Some _ => t | None => s end))
       (match o with Some b => m b | None => ret tt end).
Proof. intros H. destruct o; [apply H | apply ends_ret]. Qed.

Ltac finish :=
  repeat first
    [ apply ends_ret
    | eapply ends_call; reflexivity
    | apply ends_update_kept
    | apply ends_extend_kept
    | apply ends_set_item
    | eapply ends_bind_call; [reflexivity | ]
    | eapply ends_bind; [ | intros ? ]
    | apply ends_if_kept
    | apply ends_option_kept; intros ? ].

(** The stages, when the analysis returns: they return, and leave the
    record completed. *)
Lemma stages_complete w l id request pa d0 :
  analyze_project w ("/tmp/projects/" ++ req_project_name request) = Return pa ->
  ends id l (eq d0) (completed id request pa d0) (stages w l id request).
Proof.
  intros Hpa. unfold stages, simulate_delay. cbv zeta. rewrite Hpa.
  apply (ends_pre id l _ (kept (errors d0) (resources_created d0) (status d0)));
    [intros d <-; repeat split|].
  eapply ends_conseq; [finish|].
  intros d' H. cbv beta in H.
  destruct H as (d4 & (d3 & (d2 & (d1 & (HE & HR & Hs) & ->) & ->) & ->) & ->).
  unfold completed, resources_of_run. cbn.
  repeat (split; [solve [reflexivity | assumption]|]).
  rewrite HR, <- ?app_assoc. reflexivity.
Qed.

(** The stages, when the analysis raises: one status update, and the
    exception. *)
Lemma stages_analysis_raises w l id request e st :
  deployments st !! id = Some l ->
  analyze_project w ("/tmp/projects/" ++ req_project_name request) = Raise e ->
  stages w l id request st =
    let st1 := set_heap (alter (set_status "detecting") l) st in
    let st2 := tick_clock st1 in
    let st3 := set_heap (alter (set_updated_at (utcnow_at w (clock st))) l) st2 in
    let st4 := tick_clock st3 in
    let st5 := set_heap (alter (append_log ("[" ++ utcnow_at w (S (clock st)) ++ "] "
                                             ++ "Analyzing project structure...")) l) st4 in
    mkOutcome (Raise e) st5 [st1; st2; st3; st4; st5].
Proof.
  intros Hd Hpa. unfold stages. cbv zeta. rewrite Hpa. unfold bind at 1.
  rewrite (update_present w id "detecting" 10 _ st l Hd). cbv zeta.
  unfold bind, call. reflexivity.
Qed.

(** *** The endpoints, in closed form *)

Ltac run_read :=
  cbv beta iota zeta delta
    [get_deployment get_deployment_status deref bind member gets subscript ret raise negb
     res final trace deployments heap app].

Lemma get_present id st l d :
  deployments st !! id = Some l -> heap st !! l = Some d ->
  get_deployment id st =
    mkOutcome
      (Return {| dd_deployment_id := deployment_id d;
                 dd_project_name := project_name d;
                 dd_status := status d;
                 dd_environment := environment d;
                 dd_created_at := created_at d;
                 dd_updated_at := updated_at d;
                 dd_url := url d;
                 dd_logs := Some (logs d);
                 dd_errors := Some (errors d);
                 dd_resources_created := Some (resources_created d);
                 dd_resources_failed := Some (resources_failed d);
                 dd_monitoring_enabled := monitoring_enabled d;
                 dd_metrics_url := metrics_url d;
                 dd_logs_url := logs_url d |}) st [].
Proof.
  intros Hd Hh. destruct st as [D Hp C U]. cbn [deployments heap] in Hd, Hh.
  run_read. rewrite bool_decide_true by (rewrite Hd; eauto).
  rewrite Hd. cbv beta iota. rewrite Hh. reflexivity.
Qed.

Lemma status_present id st l d :
  deployments st !! id = Some l -> heap st !! l = Some d ->
  get_deployment_status id st =
    mkOutcome
      (Return {| ds_deployment_id := id;
                 ds_status := status d;
                 progress := match get progress_map (status d) with
                             | Some p => p
                             | None => 0%Z
                             end;
                 message := get_status_message (status d);
                 details := {| logs_count := length (logs d);
                               errors_count := length (errors d);
                               details_resources_created := length (resources_created d);
                               details_resources_failed := length (resources_failed d) |};
                 last_updated := updated_at d |}) st [].
Proof.
  intros Hd Hh. destruct st as [D Hp C U]. cbn [deployments heap] in Hd, Hh.
  run_read. rewrite bool_decide_true by (rewrite Hd; eauto).
  rewrite Hd. cbv beta iota. rewrite Hh. reflexivity.
Qed.

Lemma get_absent id st :
  deployments st !! id = None ->
  get_deployment id st = mkOutcome (Raise (HTTPException 404 "Deployment not found")) st [].
Proof.
  intros H. destruct st as [D Hp C U]. cbn [deployments] in H. run_read.
  rewrite bool_decide_false by (rewrite H; intros [? ?]; discriminate).
  reflexivity.
Qed.

Lemma status_absent id st :
  deployments st !! id = None ->
  get_deployment_status id st
  = mkOutcome (Raise (HTTPException 404 "Deployment not found")) st [].
Proof.
  intros H. destruct st as [D Hp C U]. cbn [deployments] in H. run_read.
  rewrite bool_decide_false by (rewrite H; intros [? ?]; discriminate).
  reflexivity.
Qed.

Lemma rollback_absent w id request st :
  deployments st !! id = None ->
  rollback_deployment w id request st
  = mkOutcome (Raise (HTTPException 404 "Deployment not found")) st [].
Proof.
  intros H. destruct st as [D Hp C U]. cbn [deployments] in H. run_py.
  rewrite bool_decide_false by (rewrite H; intros [? ?]; discriminate).
  reflexivity.
Qed.

Lemma delete_absent id st :
  deployments st !! id = None ->
  delete_deployment id st
  = mkOutcome (Raise (HTTPException 404 "Deployment not found")) st [].
Proof.
  intros H. destruct st as [D Hp C U]. cbn [deployments] in H. run_py.
  rewrite bool_decide_false by (rewrite H; intros [? ?]; discriminate).
  reflexivity.
Qed.

Lemma delete_present id st :
  is_Some (deployments st !! id) ->
  delete_deployment id st =
    mkOutcome (Return ("Deployment " ++ id ++ " deleted successfully"))
      (set_deployments (delete id) st) [set_deployments (delete id) st].
Proof.
  intros H. destruct st as [D Hp C U]. cbn [deployments] in H. run_py.
  rewrite bool_decide_true by exact H. reflexivity.
Qed.

(** [enhanced_deployment]: an identifier is drawn, the clock is read, and
    a new record object is stored under the identifier. *)
Lemma submit_run w request st :
  enhanced_deployment w request st =
    let deployment_id := uuid4_at w (uuids st) in
    let current_time := utcnow_at w (clock st) in
    let deployment_data :=
      {| deployment_id := deployment_id;
         project_name := req_project_name request;
         project_type := req_project_type request;
         environment := req_environment request;
         status := "pending";
         created_at := current_time;
         updated_at := current_time;
         options := match req_options request with Some o => o | None => [] end;
         logs := [];
         errors := [];
         resources_created := [];
         resources_failed := [];
         monitoring_enabled := enable_monitoring request;
         url := None;
         metrics_url := None;
         logs_url := None;
         project_analysis := None |} in
    let st1 := tick_uuids st in
    let st2 := tick_clock st1 in
    let st3 := set_deployments (insert deployment_id (fresh (dom (heap st))))
                 (set_heap (insert (fresh (dom (heap st))) deployment_data) st2) in
    mkOutcome
      (Return {| resp_deployment_id := deployment_id;
                 resp_project_name := req_project_name request;
                 resp_status := "pending";
                 resp_environment := req_environment request;
                 resp_created_at := current_time;
                 resp_updated_at := current_time;
                 resp_monitoring_enabled := enable_monitoring request |})
      st3 [st1; st2; st3].
Proof. destruct st as [D Hp C U]. reflexivity. Qed.

(** A record object in use is not the one a submission allocates. *)
Lemma fresh_not_used (st : State) l d :
  heap st !! l = Some d -> l <> fresh (dom (heap st)).
Proof.
  intros H ->. apply (is_fresh (dom (heap st))). apply elem_of_dom. eauto.
Qed.

(** X1: a submission always returns, with status [pending] and the
    identifier drawn; [get_deployment] of that identifier then returns the
    record just stored (the request's name and environment, the creation
    time as both timestamps, empty logs, errors and resources, no URL),
    [get_deployment_status] reports progress 0, and the record of every
    other identifier is what it was. *)
Theorem submit_then_get (w : World) (request : EnhancedDeploymentRequest) (st : State) :
  let o := enhanced_deployment w request st in
  exists r,
    res o = Return r /\
    resp_deployment_id r = uuid4_at w (uuids st) /\
    resp_status r = "pending" /\
    get_deployment (resp_deployment_id r) (final o) =
      mkOutcome
        (Return {| dd_deployment_id := resp_deployment_id r;
                   dd_project_name := req_project_name request;
                   dd_status := "pending";
                   dd_environment := req_environment request;
                   dd_created_at := resp_created_at r;
                   dd_updated_at := resp_created_at r;
                   dd_url := None;
                   dd_logs := Some [];
                   dd_errors := Some [];
                   dd_resources_created := Some [];
                   dd_resources_failed := Some [];
                   dd_monitoring_enabled := enable_monitoring request;
                   dd_metrics_url := None;
                   dd_logs_url := None |}) (final o) [] /\
    (exists report,
        res (get_deployment_status (resp_deployment_id r) (final o)) = Return report /\
        ds_status report = "pending" /\ progress report = 0%Z /\
        message report = "Deployment is pending") /\
    (forall id' d, id' <> resp_deployment_id r ->
                   record_of id' st = Some d -> record_of id' (final o) = Some d).
Proof.
  intros o. subst o. rewrite submit_run. cbv zeta. cbn [res final].
  eexists. split; [reflexivity|]. cbn [resp_deployment_id resp_status resp_created_at].
  split; [reflexivity|]. split; [reflexivity|].
  set (l := fresh (dom (heap st))).
  set (id := uuid4_at w (uuids st)).
  match goal with
  | |- context [set_heap (insert l ?data) _] => set (d0 := data)
  end.
  set (st3 := set_deployments _ _).
  assert (Hd : deployments st3 !! id = Some l) by apply lookup_insert_eq.
  assert (Hh : heap st3 !! l = Some d0) by apply lookup_insert_eq.
  split; [rewrite (get_present id st3 l d0 Hd Hh); reflexivity|].
  split.
  - rewrite (status_present id st3 l d0 Hd Hh). cbn [res].
    eexists. split; [reflexivity|]. repeat split.
  - intros id' d Hne Hrec. unfold record_of in *. subst st3.
    cbn [deployments heap set_deployments set_heap tick_clock tick_uuids].
    rewrite lookup_insert_ne by (intros Heq; apply Hne; symmetry; exact Heq).
    destruct (deployments st !! id') as [l'|]; [|discriminate Hrec].
    rewrite lookup_insert_ne; [exact Hrec|].
    intros Heq. apply (fresh_not_used st l' d Hrec). symmetry. exact Heq.
Qed.

(** X2: for an identifier the store does not hold, [get_deployment],
    [get_deployment_status], [rollback_deployment] and [delete_deployment]
    all raise [HTTPException] 404 "Deployment not found", and none of them
    changes the state: no identifier is drawn, the clock is not read. *)
Theorem unknown_id_is_404 (w : World) (id : string) (request : RollbackRequest)
    (st : State) :
  deployments st !! id = None ->
  let e := HTTPException 404 "Deployment not found" in
  get_deployment id st = mkOutcome (Raise e) st [] /\
  get_deployment_status id st = mkOutcome (Raise e) st [] /\
  rollback_deployment w id request st = mkOutcome (Raise e) st [] /\
  delete_deployment id st = mkOutcome (Raise e) st [].
Proof.
  intros H e. subst e.
  split; [apply get_absent; exact H|].
  split; [apply status_absent; exact H|].
  split; [apply rollback_absent; exact H | apply delete_absent; exact H].
Qed.

(** X3: deleting an identifier the store holds returns the success
    message and removes that entry only: the record objects, the clock and
    the identifier count are untouched, every other identifier keeps its
    record, and from then on the deleted identifier is unknown to
    [get_deployment], [get_deployment_status] and a second
    [delete_deployment] (404). *)
Theorem delete_forgets_one (id : string) (st : State) :
  is_Some (deployments st !! id) ->
  let o := delete_deployment id st in
  let e := HTTPException 404 "Deployment not found" in
  res o = Return ("Deployment " ++ id ++ " deleted successfully") /\
  deployments (final o) = delete id (deployments st) /\
  heap (final o) = heap st /\ clock (final o) = clock st /\ uuids (final o) = uuids st /\
  record_of id (final o) = None /\
  (forall id', id' <> id -> record_of id' (final o) = record_of id' st) /\
  res (get_deployment id (final o)) = Raise e /\
  res (get_deployment_status id (final o)) = Raise e /\
  res (delete_deployment id (final o)) = Raise e.
Proof.
  intros H o e. subst o e. rewrite (delete_present id st H). cbn [res final].
  set (st' := set_deployments (delete id) st).
  assert (Hgone : deployments st' !! id = None) by apply lookup_delete_eq.
  split; [reflexivity|]. split; [reflexivity|]. split; [reflexivity|].
  split; [reflexivity|]. split; [reflexivity|].
  split; [unfold record_of; rewrite Hgone; reflexivity|].
  split.
  { intros id' Hne. unfold record_of. subst st'.
    cbn [deployments heap set_deployments].
    rewrite lookup_delete_ne by (intros Heq; apply Hne; symmetry; exact Heq).
    reflexivity. }
  split; [rewrite (get_absent id st' Hgone); reflexivity|].
  split; [rewrite (status_absent id st' Hgone); reflexivity|].
  rewrite (delete_absent id st' Hgone). reflexivity.
Qed.

(** X4: a run for an identifier the store does not hold (deleted before
    the background task starts, say) is not recorded as failed: the
    [except] branch finds no record to update and itself raises
    [UnboundLocalError] on the unbound local [deployment]; the state is
    unchanged and no reader sees a step. *)
Theorem run_for_unknown_id_raises (w : World) (id : string)
    (request : EnhancedDeploymentRequest) (st : State) :
  deployments st !! id = None ->
  let o := process_enhanced_deployment w id request st in
  res o = Raise (UnboundLocalError "deployment") /\
  trace o = [] /\ final o = st /\
  status_of id (final o) = None.
Proof.
  intros H o. subst o. rewrite (run_absent w id request st H). cbn [res final trace].
  split; [reflexivity|]. split; [reflexivity|]. split; [reflexivity|].
  unfold status_of, record_of. rewrite H. reflexivity.
Qed.

(** *** What every reachable store satisfies *)

(** Every identifier of the store refers to a record object, the record
    carries that identifier, and its status is one of the stage order. *)
Definition well_kept (st : State) : Prop :=
  forall id l, deployments st !! id = Some l ->
    exists d, heap st !! l = Some d /\ deployment_id d = id /\
              is_Some (level (status d)).

Lemma rollback_heap w id request st :
  heap (final (rollback_deployment w id request st)) = heap st.
Proof.
  destruct (deployments st !! id) as [l|] eqn:H.
  - rewrite rollback_present by eauto. reflexivity.
  - rewrite rollback_absent by exact H. reflexivity.
Qed.

Lemma reachable_well_kept w st : reachable w st -> well_kept st.
Proof.
  induction 1 as [|st request _ IH|st id request _ IH|st id _ IH|st id request _ IH
                  |st id rollback_id request _ IH|st id _ IH]; intros k lk Hk.
  - cbn in Hk. rewrite lookup_empty in Hk. discriminate Hk.
  - rewrite submit_run in *. cbv zeta in *.
    cbn [final deployments heap set_deployments set_heap tick_clock tick_uuids] in *.
    destruct (decide (uuid4_at w (uuids st) = k)) as [<-|Hne].
    + rewrite lookup_insert_eq in Hk. injection Hk as <-.
      eexists. rewrite lookup_insert_eq. split; [reflexivity|].
      split; [reflexivity | eexists; reflexivity].
    + rewrite lookup_insert_ne in Hk by exact Hne.
      destruct (IH k lk Hk) as (d & Hh & Hid & Hs).
      exists d. split; [|split; assumption].
      rewrite lookup_insert_ne; [exact Hh|].
      intros Heq. apply (fresh_not_used st lk d Hh). symmetry. exact Heq.
  - destruct (deployments st !! id) as [l|] eqn:Hd.
    + destruct (IH id l Hd) as (d & Hh & Hid & Hs).
      destruct (run_walks grows w id request st l d writes_grows Hd Hh)
        as (ds & _ & Hlink & Hdep & _ & Hheap).
      destruct (linked_from grows d ds grows_refl grows_trans Hlink) as [_ Hg].
      rewrite Hdep in Hk. rewrite Hheap.
      destruct (decide (lk = l)) as [->|Hne].
      * rewrite lookup_insert_eq. eexists. split; [reflexivity|].
        assert (k = id) as ->.
        { destruct (IH k l Hk) as (d' & Hh' & Hid' & _).
          rewrite Hh in Hh'. injection Hh' as <-. congruence. }
        destruct Hg as (Hg1 & Hg). split; [congruence|].
        apply Hg, Hs.
      * rewrite lookup_insert_ne by (intros Heq; apply Hne; symmetry; exact Heq).
        apply IH. exact Hk.
    + rewrite (run_absent w id request st Hd) in *. apply IH. exact Hk.
  - rewrite status_request_reads in *. apply IH. exact Hk.
  - destruct (rollback_store w id request st) as [Hd _]. rewrite Hd in Hk.
    rewrite rollback_heap. apply IH. exact Hk.
  - apply IH. exact Hk.
  - destruct (delete_removes id st) as [_ Hh]. rewrite Hh.
    destruct (deployments st !! id) as [l|] eqn:Hd.
    + rewrite delete_present in Hk by eauto. cbn [final deployments set_deployments] in Hk.
      apply lookup_delete_Some in Hk. apply IH. apply Hk.
    + rewrite delete_absent in Hk by exact Hd. apply IH. exact Hk.
Qed.

(** X5: on a reachable store, a stored identifier is never answered with
    an error by the reading endpoints: [get_deployment] returns a record
    carrying that identifier, [get_deployment_status] reports the same
    status, which is one of the eight of the stage order, with the progress
    [progress_map] gives it (between 0 and 100) and a message other than
    "Unknown status". *)
Theorem stored_id_is_readable (w : World) (id : string) (st : State) :
  reachable w st ->
  is_Some (deployments st !! id) ->
  exists r report,
    res (get_deployment id st) = Return r /\
    dd_deployment_id r = id /\
    res (get_deployment_status id st) = Return report /\
    ds_deployment_id report = id /\
    ds_status report = dd_status r /\
    is_Some (level (ds_status report)) /\
    get progress_map (ds_status report) = Some (progress report) /\
    (0 <= progress report <= 100)%Z /\
    message report <> "Unknown status".
Proof.
  intros Hreach [l Hd].
  destruct (reachable_well_kept w st Hreach id l Hd) as (d & Hh & Hid & [v Hv]).
  rewrite (get_present id st l d Hd Hh), (status_present id st l d Hd Hh).
  cbn [res]. eexists. eexists. split; [reflexivity|].
  cbn [dd_deployment_id dd_status ds_deployment_id ds_status progress message].
  split; [exact Hid|]. split; [reflexivity|]. split; [reflexivity|].
  split; [reflexivity|]. split; [eauto|].
  apply level_cases in Hv.
  repeat (destruct Hv as [Hv|Hv]); destruct Hv as [-> _];
    (split; [reflexivity|]); (split; [cbn; lia|]); discriminate.
Qed.

(** X6: a run for one deployment changes nothing a reader sees of another:
    on a reachable store, in every state the run goes through and in the
    one it leaves, the dictionary and the count of identifiers drawn are
    what they were and the record of every other identifier is the same. *)
Theorem run_leaves_other_records (w : World) (id id' : string)
    (request : EnhancedDeploymentRequest) (st : State) :
  reachable w st ->
  id' <> id ->
  let o := process_enhanced_deployment w id request st in
  Forall (fun s => deployments s = deployments st /\ uuids s = uuids st /\
                   record_of id' s = record_of id' st)
         (trace o ++ [final o]).
Proof.
  intros Hreach Hne o. subst o.
  pose proof (reachable_well_kept w st Hreach) as Hkept.
  destruct (deployments st !! id) as [l|] eqn:Hd.
  - destruct (Hkept id l Hd) as (d & Hh & Hid & _).
    destruct (run_walks (fun _ _ => True) w id request st l d
                ltac:(split; intros; exact I) Hd Hh) as (ds & Htr & _ & Hfin).
    assert (Hother : forall x s, holds st l x s ->
              deployments s = deployments st /\ uuids s = uuids st /\
              record_of id' s = record_of id' st).
    { intros x s (Hds & Hus & Hhs). split; [exact Hds|]. split; [exact Hus|].
      unfold record_of. rewrite Hds, Hhs.
      destruct (deployments st !! id') as [l'|] eqn:Hd'; [|reflexivity].
      apply lookup_insert_ne. intros <-.
      destruct (Hkept id' l Hd') as (d' & Hh' & Hid' & _).
      rewrite Hh in Hh'. injection Hh' as <-. apply Hne. congruence. }
    apply Forall_app. split.
    + clear Hfin. induction Htr as [|x s ds tr Hx _ IH]; constructor;
        [exact (Hother x s Hx) | exact IH].
    + constructor; [exact (Hother _ _ Hfin) | constructor].
  - rewrite (run_absent w id request st Hd). cbn [trace final app].
    constructor; [|constructor]. repeat split.
Qed.

Lemma holds_observed id st l ds tr :
  deployments st !! id = Some l ->
  Forall2 (holds st l) ds tr -> List.map (record_of id) tr = List.map Some ds.
Proof.
  intros Hd. induction 1 as [|d s ds tr (Hds & _ & Hhs) _ IH]; [reflexivity|].
  cbn [List.map]. rewrite IH. f_equal.
  unfold record_of. rewrite Hds, Hd, Hhs. apply lookup_insert_eq.
Qed.

(** X7: the record of a run only grows.  From each observation of the
    record to the next, its identifier, project name, project type,
    environment, creation time, options, monitoring flag and failed
    resources are unchanged, and its logs, errors and created resources are
    extended at the end, never shortened or rewritten; a status of the
    stage order is followed by one. *)
Theorem run_record_only_grows (w : World) (id : string)
    (request : EnhancedDeploymentRequest) (st : State) (l : loc) (d : DeploymentData) :
  deployments st !! id = Some l ->
  heap st !! l = Some d ->
  let o := process_enhanced_deployment w id request st in
  exists ds,
    List.map (record_of id) (trace o) = List.map Some ds /\
    record_of id (final o) = Some (List.last ds d) /\
    linked grows d ds /\
    Forall (grows d) ds /\
    grows d (List.last ds d).
Proof.
  intros Hd Hh o. subst o.
  destruct (run_walks grows w id request st l d writes_grows Hd Hh)
    as (ds & Htr & Hlink & Hds & _ & Hhs).
  exists ds. split; [exact (holds_observed id st l ds _ Hd Htr)|].
  split; [unfold record_of; rewrite Hds, Hd, Hhs; apply lookup_insert_eq|].
  split; [exact Hlink|].
  exact (linked_from grows d ds grows_refl grows_trans Hlink).
Qed.

(** A run whose analysis returns. *)
Lemma run_succeeds w id request st l d pa :
  deployments st !! id = Some l ->
  heap st !! l = Some d ->
  analyze_project w ("/tmp/projects/" ++ req_project_name request) = Return pa ->
  let o := process_enhanced_deployment w id request st in
  res o = Return tt /\
  exists d', record_of id (final o) = Some d' /\ completed id request pa d d'.
Proof.
  intros Hd Hh Hpa o. subst o. rewrite (process_present w l id request st Hd).
  destruct (stages_complete w l id request pa d Hpa st d Hd Hh eq_refl)
    as (x & d' & Hr & Hd' & Hh' & Hdone).
  unfold try_except.
  destruct (stages w l id request st) as [r st1 tr1]; cbn [res final] in *.
  subst r. cbn [res final]. destruct x. split; [reflexivity|].
  exists d'. split; [|exact Hdone].
  unfold record_of. rewrite Hd'. exact Hh'.
Qed.

(** A run whose analysis raises. *)
Lemma run_fails w id request st l d e :
  deployments st !! id = Some l ->
  heap st !! l = Some d ->
  analyze_project w ("/tmp/projects/" ++ req_project_name request) = Raise e ->
  let o := process_enhanced_deployment w id request st in
  res o = Return tt /\
  exists d',
    record_of id (final o) = Some d' /\
    status d' = "failed" /\
    errors d' = (errors d ++ [str_exn e])%list /\
    resources_created d' = resources_created d /\
    url d' = url d /\ metrics_url d' = metrics_url d /\ logs_url d' = logs_url d /\
    project_analysis d' = project_analysis d.
Proof.
  intros Hd Hh Hpa o. subst o. rewrite (process_present w l id request st Hd).
  unfold try_except.
  rewrite (stages_analysis_raises w l id request e st Hd Hpa). cbv beta iota zeta.
  rewrite handler_present by exact Hd. cbv beta iota zeta. cbn [res final].
  split; [reflexivity|].
  unfold record_of.
  cbn [deployments heap set_heap tick_clock]. rewrite Hd.
  rewrite !lookup_alter_eq, Hh. cbn [option_map fmap].
  eexists. split; [reflexivity|]. cbn. repeat split.
Qed.


(** *** Reported progress *)

(** The progress [get_deployment_status] reports for a status. *)
Definition progress_of (s : string) : Z :=
  match get progress_map s with
  | Some p => p
  | None => 0%Z
  end.

(** The progress a reader is given for [id], if any. *)
Definition reported (id : string) (st : State) : option Z :=
  match res (get_deployment_status id st) with
  | Return report => Some (progress report)
  | Raise _ => None
  end.

Lemma reported_at_status id l s st :
  at_status id l s st -> reported id st = Some (progress_of s) /\ status_of id st = Some s.
Proof.
  intros [Hd (d & Hh & Hs)]. unfold reported, status_of, record_of.
  rewrite (status_present id st l d Hd Hh), Hd, Hh, Hs. split; reflexivity.
Qed.

Lemma progress_of_step s s' :
  is_Some (level s) -> step_ok s s' ->
  is_Some (level s') /\
  ((progress_of s <= progress_of s')%Z \/ s' = "failed").
Proof.
  intros [v Hv] [->|(a & b & Ha & Hb & Hab & _)].
  - split; [eauto | left; lia].
  - split; [eauto|].
    apply level_cases in Ha, Hb.
    repeat (destruct Ha as [Ha|Ha]); destruct Ha as [-> ->];
      repeat (destruct Hb as [Hb|Hb]); destruct Hb as [-> ->];
      first [lia | right; reflexivity | left; cbn; lia].
Qed.

Lemma progress_of_range s : (0 <= progress_of s <= 100)%Z.
Proof.
  unfold progress_of, progress_map. cbn [get].
  repeat match goal with
         | |- context [String.eqb s ?t] => destruct (String.eqb s t); [lia|]
         end.
  lia.
Qed.

(** Two observations in a row, along a chain of statuses. *)
Lemma chain_adjacent id l s ss st tr :
  at_status id l s st -> Forall2 (at_status id l) ss tr -> chain s ss ->
  is_Some (level s) ->
  forall pre a b post, (st :: tr = pre ++ a :: b :: post)%list ->
    exists sa sb, at_status id l sa a /\ at_status id l sb b /\
                  is_Some (level sa) /\ step_ok sa sb.
Proof.
  intros Hat Htr. revert s st Hat.
  induction Htr as [|s1 st1 ss tr H1 _ IH]; intros s st Hat Hch Hlev pre a b post Heq.
  - destruct pre as [|x [|y pre]]; discriminate Heq.
  - destruct Hch as [Hstep Hch]. destruct pre as [|x pre].
    + injection Heq as <- <- _. exists s, s1.
      split; [exact Hat|]. split; [exact H1|]. split; [exact Hlev | exact Hstep].
    + injection Heq as _ Heq.
      apply (IH s1 st1 H1 Hch (proj1 (progress_of_step s s1 Hlev Hstep)) pre a b post Heq).
Qed.

(** X9: the progress reported for a deployment never goes back while its
    run is under way.  For a run started on a pending record, at any two
    observations in a row (the state before the run included) the reading
    endpoint reports a progress between 0 and 100, and the later one is at
    least the earlier one, unless the later observation shows the status
    [failed], for which the progress reported is 0. *)
Theorem progress_never_goes_back (w : World) (id : string)
    (request : EnhancedDeploymentRequest) (st : State) (l : loc) (d : DeploymentData) :
  deployments st !! id = Some l ->
  heap st !! l = Some d ->
  status d = "pending" ->
  let o := process_enhanced_deployment w id request st in
  forall pre a b post, (st :: trace o = pre ++ a :: b :: post)%list ->
    exists p q,
      reported id a = Some p /\ reported id b = Some q /\
      (0 <= p <= 100)%Z /\ (0 <= q <= 100)%Z /\
      ((p <= q)%Z \/ (status_of id b = Some "failed" /\ q = 0%Z)).
Proof.
  intros Hd Hh Hs o pre a b post Heq. subst o.
  rewrite (process_present w l id request st Hd) in Heq.
  assert (Hat : at_status id l "pending" st) by (split; [exact Hd | exists d; split; assumption]).
  destruct (advances_try_except id l 1 6 7 _ _ (advances_stages w l id request)
              (advances_handler w l id) ltac:(lia) st "pending" 0 Hat eq_refl ltac:(lia))
    as (ss & vf & Htr & Hch & _).
  destruct (chain_adjacent id l "pending" ss st _ Hat Htr Hch ltac:(eexists; reflexivity)
              pre a b post Heq) as (sa & sb & Ha & Hb & Hlev & Hstep).
  destruct (reported_at_status id l sa a Ha) as [Hra _].
  destruct (reported_at_status id l sb b Hb) as [Hrb Hsb].
  exists (progress_of sa), (progress_of sb).
  split; [exact Hra|]. split; [exact Hrb|].
  split; [apply progress_of_range|]. split; [apply progress_of_range|].
  destruct (progress_of_step sa sb Hlev Hstep) as [_ [Hle| ->]].
  - left. exact Hle.
  - right. split; [exact Hsb | reflexivity].
Qed.

(** *** Listing *)

(** A filter lets a field through when it is absent, empty, or equal to
    the field. *)
Definition passes (filter : option string) (field : string) : Prop :=
  forall v, truthy filter = Some v -> field = v.

Lemma passes_spec filter field :
  passes filter field <->
  match truthy filter with
  | Some v => negb (String.eqb field v)
  | None => false
  end = false.
Proof.
  unfold passes. destruct (truthy filter) as [v|].
  - destruct (String.eqb_spec field v) as [->|Hne]; cbn.
    + split; [reflexivity | intros _ v' [= <-]; reflexivity].
    + split; [intros H; destruct Hne; apply H; reflexivity | discriminate].
  - split; [reflexivity | intros _ v' Hv; discriminate Hv].
Qed.

Lemma filtered_spec values pn env s e :
  In e (filtered_deployments values pn env s) <->
  exists d, In d values /\ e = list_entry d /\
            passes pn (project_name d) /\ passes env (environment d) /\
            passes s (status d).
Proof.
  induction values as [|d values IH]; cbn [filtered_deployments In].
  - split; [intros [] | intros (d & [] & _)].
  - pose proof (passes_spec pn (project_name d)) as H1.
    pose proof (passes_spec env (environment d)) as H2.
    pose proof (passes_spec s (status d)) as H3.
    cbv zeta.
    destruct (match truthy pn with Some p => _ | None => _ end) eqn:E1;
      [|destruct (match truthy env with Some p => _ | None => _ end) eqn:E2;
        [|destruct (match truthy s with Some p => _ | None => _ end) eqn:E3]].
    4: { cbn [In]. rewrite IH. split.
         - intros [<-|(d' & Hin & Hrest)].
           + exists d. split; [left; reflexivity|]. split; [reflexivity|].
             split; [apply H1; reflexivity|].
             split; [apply H2; reflexivity | apply H3; reflexivity].
           + exists d'. split; [right; exact Hin | exact Hrest].
         - intros (d' & [<-|Hin] & He & Hrest).
           + left. symmetry. exact He.
           + right. exists d'. split; [exact Hin|]. split; [exact He | exact Hrest]. }
    all: rewrite IH; split;
      [ intros (d' & Hin & Hrest); exists d'; split; [right; exact Hin | exact Hrest]
      | intros (d' & [<-|Hin] & He & P1 & P2 & P3);
        [ first [ apply H1 in P1; discriminate P1 | apply H2 in P2; discriminate P2
                | apply H3 in P3; discriminate P3 ]
        | exists d'; split; [exact Hin|]; split; [exact He|]; split; [exact P1|];
          split; [exact P2 | exact P3] ] ].
Qed.

Lemma filtered_length values pn env s :
  length (filtered_deployments values pn env s) <= length values.
Proof.
  induction values as [|d values IH]; cbn [filtered_deployments length]; [lia|].
  cbv zeta. repeat match goal with
                   | |- context [if ?b then _ else _] => destruct b
                   end; cbn [length]; lia.
Qed.

Lemma omap_length {A B} (f : A -> option B) (l : list A) :
  length (omap f l) <= length l.
Proof.
  induction l as [|x l IH]; [reflexivity|]. cbn. destruct (f x); cbn; lia.
Qed.

(** A slice from a non-negative index, of non-negative length. *)
Lemma slice_from {A} (l : list A) (offset limit : Z) :
  (0 <= offset)%Z -> (0 <= limit)%Z ->
  slice l offset (offset + limit) = take (Z.to_nat limit) (drop (Z.to_nat offset) l).
Proof.
  intros Ho Hl. unfold slice, slice_index. cbv zeta.
  destruct (Z.ltb_spec offset 0) as [?|_]; [lia|].
  destruct (Z.ltb_spec (offset + limit) 0) as [?|_]; [lia|].
  destruct (Z.le_gt_cases (Z.of_nat (length l)) offset) as [Hge|Hlt].
  - rewrite !(drop_ge l) by lia. rewrite !take_nil. reflexivity.
  - rewrite (Z.min_l offset) by lia.
    destruct (Z.le_gt_cases (offset + limit) (Z.of_nat (length l))) as [Hin|Hout].
    + rewrite Z.min_l by lia. f_equal. lia.
    + rewrite Z.min_r by lia.
      rewrite !take_ge; [reflexivity | |]; rewrite length_drop; lia.
Qed.

(** Every element of a slice is an element of the list. *)
Lemma slice_In {A} (l : list A) (start stop : Z) x : In x (slice l start stop) -> In x l.
Proof.
  unfold slice. cbv zeta. intros H.
  apply list_elem_of_In in H. apply list_elem_of_In.
  eapply elem_of_sublist; [exact H|].
  etransitivity; [apply sublist_take | apply sublist_drop].
Qed.

Lemma list_run keys pn env s limit offset st :
  list_deployments keys pn env s limit offset st =
    mkOutcome
      (Return (slice (filtered_deployments (omap (fun id => record_of id st) keys) pn env s)
                     offset (offset + limit))) st [].
Proof. reflexivity. Qed.

(** X10: [list_deployments] never raises and changes nothing, and every
    entry it returns is built from a record the store holds under one of
    its keys, whose project name, environment and status equal each filter
    that is given and not empty (an empty filter string filters nothing),
    whatever the limit and offset, negative ones included. *)
Theorem listing_is_sound (keys : list string) (pn env s : option string)
    (limit offset : Z) (st : State) :
  exists page,
    list_deployments keys pn env s limit offset st = mkOutcome (Return page) st [] /\
    forall e, In e page ->
      exists id d,
        In id keys /\ record_of id st = Some d /\ e = list_entry d /\
        passes pn (project_name d) /\ passes env (environment d) /\
        passes s (status d).
Proof.
  rewrite list_run. eexists. split; [reflexivity|].
  intros e He. apply slice_In in He. apply filtered_spec in He.
  destruct He as (d & Hd & Hrest).
  apply list_elem_of_In, list_elem_of_omap in Hd. destruct Hd as (id & Hid & Hrec).
  exists id, d. split; [apply list_elem_of_In; exact Hid|]. split; [exact Hrec | exact Hrest].
Qed.

(** X11: pagination with a non-negative offset and limit.  A page has at
    most [limit] entries; the page at [offset] of [limit] entries followed
    by the page at [offset + limit] of [limit'] entries is the page at
    [offset] of [limit + limit'] entries, so consecutive pages neither
    skip nor repeat an entry; and from offset 0, with a limit of at least
    the number of keys, every stored record that passes the filters is
    listed. *)
Theorem listing_pages (keys : list string) (pn env s : option string)
    (limit limit' offset : Z) (st : State) :
  (0 <= offset)%Z -> (0 <= limit)%Z -> (0 <= limit')%Z ->
  exists p1 p2 p,
    res (list_deployments keys pn env s limit offset st) = Return p1 /\
    res (list_deployments keys pn env s limit' (offset + limit) st) = Return p2 /\
    res (list_deployments keys pn env s (limit + limit') offset st) = Return p /\
    p = (p1 ++ p2)%list /\
    (Z.of_nat (length p1) <= limit)%Z /\
    (offset = 0%Z -> (Z.of_nat (length keys) <= limit)%Z ->
     forall id d, In id keys -> record_of id st = Some d ->
       passes pn (project_name d) -> passes env (environment d) -> passes s (status d) ->
       In (list_entry d) p1).
Proof.
  intros Ho Hl Hl'. rewrite !list_run. cbn [res].
  remember (filtered_deployments _ pn env s) as all eqn:Eall.
  eexists. eexists. eexists.
  split; [reflexivity|]. split; [reflexivity|]. split; [reflexivity|].
  rewrite !slice_from by lia.
  split.
  { rewrite !Z2Nat.inj_add by lia. rewrite <- take_take_drop, drop_drop. reflexivity. }
  split.
  { rewrite length_take. lia. }
  intros -> Hall id d Hid Hrec P1 P2 P3.
  assert (Hlen : length all <= length keys).
  { subst all. etransitivity; [apply filtered_length | apply omap_length]. }
  change (Z.to_nat 0) with 0. rewrite drop_0, take_ge by lia.
  subst all. apply filtered_spec. exists d.
  split.
  { apply list_elem_of_In, list_elem_of_omap. exists id.
    split; [apply list_elem_of_In; exact Hid | exact Hrec]. }
  split; [reflexivity|]. split; [exact P1|]. split; [exact P2 | exact P3].
Qed.

(** *** The further properties at concrete inputs *)

(** The record of the demo deployment when it has just been submitted. *)
Definition submitted_record : DeploymentData :=
  {| deployment_id := "uuid-0";
     project_name := "demo";
     project_type := ProjectAnalyzer.REACT;
     environment := "prod";
     status := "pending";
     created_at := "T0";
     updated_at := "T0";
     options := [];
     logs := [];
     errors := [];
     resources_created := [];
     resources_failed := [];
     monitoring_enabled := true;
     url := None;
     metrics_url := None;
     logs_url := None;
     project_analysis := None |}.

(** An identifier nobody submitted. *)
Lemma unknown_id_is_404_witness :
  res (get_deployment "uuid-7" (submitted demo_world))
  = Raise (HTTPException 404 "Deployment not found") /\
  final (delete_deployment "uuid-7" (submitted demo_world)) = submitted demo_world.
Proof.
  destruct (unknown_id_is_404 demo_world "uuid-7"
              {| target_version := None; rollback_reason := None |} (submitted demo_world))
    as (Hget & _ & _ & Hdel).
  - vm_compute. reflexivity.
  - rewrite Hget, Hdel. split; reflexivity.
Defined.

(** The demo deployment, deleted. *)
Lemma delete_forgets_one_witness :
  res (delete_deployment "uuid-0" (submitted demo_world))
  = Return "Deployment uuid-0 deleted successfully" /\
  record_of "uuid-0" (final (delete_deployment "uuid-0" (submitted demo_world))) = None.
Proof.
  destruct (delete_forgets_one "uuid-0" (submitted demo_world))
    as (Hres & _ & _ & _ & _ & Hrec & _).
  - vm_compute. eexists. reflexivity.
  - split; [exact Hres | exact Hrec].
Defined.

(** A run for the demo deployment after it was deleted. *)
Lemma run_for_unknown_id_raises_witness :
  res (process_enhanced_deployment demo_world "uuid-0" demo_request
         (final (delete_deployment "uuid-0" (submitted demo_world))))
  = Raise (UnboundLocalError "deployment").
Proof.
  apply (proj1 (run_for_unknown_id_raises demo_world "uuid-0" demo_request
                  (final (delete_deployment "uuid-0" (submitted demo_world)))
                  ltac:(vm_compute; reflexivity))).
Defined.

(** The demo deployment after its run, read back. *)
Lemma stored_id_is_readable_witness :
  exists r,
    res (get_deployment "uuid-0"
           (final (process_enhanced_deployment demo_world "uuid-0" demo_request
                     (submitted demo_world)))) = Return r /\
    dd_deployment_id r = "uuid-0".
Proof.
  destruct (stored_id_is_readable demo_world "uuid-0"
              (final (process_enhanced_deployment demo_world "uuid-0" demo_request
                        (submitted demo_world))))
    as (r & report & Hget & Hid & _).
  - apply reach_process. apply reach_submit. apply reach_initial.
  - vm_compute. eexists. reflexivity.
  - exists r. split; [exact Hget | exact Hid].
Defined.

(** Two deployments submitted, the second one run: the first is as it was. *)
Lemma run_leaves_other_records_witness :
  let st := final (enhanced_deployment demo_world demo_request (submitted demo_world)) in
  record_of "uuid-0" (final (process_enhanced_deployment demo_world "uuid-1" demo_request st))
  = record_of "uuid-0" st.
Proof.
  intros st.
  pose proof (run_leaves_other_records demo_world "uuid-1" "uuid-0" demo_request st
                ltac:(apply reach_submit; apply reach_submit; apply reach_initial)
                ltac:(discriminate)) as H.
  cbv zeta in H. apply Forall_app in H. destruct H as [_ H].
  apply Forall_inv in H. apply H.
Defined.

(** The run of the demo deployment: its record at the end has grown from
    the one submitted. *)
Lemma run_record_only_grows_witness :
  exists d',
    record_of "uuid-0"
      (final (process_enhanced_deployment demo_world "uuid-0" demo_request
                (submitted demo_world))) = Some d' /\
    grows submitted_record d'.
Proof.
  destruct (run_record_only_grows demo_world "uuid-0" demo_request (submitted demo_world) 0
              submitted_record)
    as (ds & _ & Hfin & _ & _ & Hg).
  - vm_compute. reflexivity.
  - vm_compute. reflexivity.
  - eexists. split; [exact Hfin | exact Hg].
Defined.


(** The first two observations of the failing run of the demo deployment. *)
Lemma progress_never_goes_back_witness :
  exists p q,
    reported "uuid-0" (submitted missing_project_world) = Some p /\ (p <= q)%Z.
Proof.
  pose (o := process_enhanced_deployment missing_project_world "uuid-0" demo_request
               (submitted missing_project_world)).
  destruct (progress_never_goes_back missing_project_world "uuid-0" demo_request
              (submitted missing_project_world) 0 submitted_record
              ltac:(vm_compute; reflexivity) ltac:(vm_compute; reflexivity) eq_refl
              [] (submitted missing_project_world)
              (hd (submitted missing_project_world) (trace o)) (tl (trace o)))
    as (p & q & Hp & Hq & _ & _ & [Hle|[Hfail _]]).
  - vm_compute. reflexivity.
  - exists p, q. split; [exact Hp | exact Hle].
  - vm_compute in Hfail. discriminate Hfail.
Defined.

(** Two pages of one entry each over two submitted deployments. *)
Lemma listing_pages_witness :
  let st := final (enhanced_deployment demo_world demo_request (submitted demo_world)) in
  exists p1 p2,
    res (list_deployments ["uuid-0"; "uuid-1"] (Some "demo") None None 1 0 st) = Return p1 /\
    res (list_deployments ["uuid-0"; "uuid-1"] (Some "demo") None None 1 1 st) = Return p2 /\
    res (list_deployments ["uuid-0"; "uuid-1"] (Some "demo") None None 2 0 st)
    = Return (p1 ++ p2)%list.
Proof.
  intros st.
  destruct (listing_pages ["uuid-0"; "uuid-1"] (Some "demo") None None 1 1 0 st
              ltac:(lia) ltac:(lia) ltac:(lia))
    as (p1 & p2 & p & H1 & H2 & H & -> & _).
  exists p1, p2. split; [exact H1|]. split; [exact H2 | exact H].
Defined.

(** *** The pipeline over the analyzer *)

(** The world in which the analysis is [ProjectAnalyzer.analyze_project]
    over a file system. *)
Definition disk_world (disk : ProjectAnalyzer.Disk) : World :=
  {| uuid4_at := fun n => "uuid-" ++ pretty n;
     utcnow_at := fun n => "T" ++ pretty n;
     analyze_project := ProjectAnalyzer.analyze_project disk |}.

(** A static site in the directory of the demo deployment. *)
Definition site_disk : ProjectAnalyzer.Disk :=
  {| ProjectAnalyzer.path_exists := fun path => String.eqb path "/tmp/projects/demo";
     ProjectAnalyzer._read_project_files := fun _ =>
       ["/tmp/projects/demo/index.html"; "/tmp/projects/demo/css/site.css"];
     ProjectAnalyzer._read_config_files := fun _ =>
       {| ProjectAnalyzer.config_data := ProjectAnalyzerSpec.empty_config;
          ProjectAnalyzer.python_dependencies := None;
          ProjectAnalyzer.rust_dependencies := None |};
     ProjectAnalyzer.listdir := fun _ => Return ["index.html"; "css"] |}.

(** The same directory with the package.json
    [{"name": "site", "dependencies": null}]. *)
Definition broken_site_disk : ProjectAnalyzer.Disk :=
  {| ProjectAnalyzer.path_exists := fun path => String.eqb path "/tmp/projects/demo";
     ProjectAnalyzer._read_project_files := fun _ =>
       ["/tmp/projects/demo/package.json"; "/tmp/projects/demo/index.html"];
     ProjectAnalyzer._read_config_files := fun _ =>
       {| ProjectAnalyzer.config_data := ProjectAnalyzerSpec.null_dependencies;
          ProjectAnalyzer.python_dependencies := None;
          ProjectAnalyzer.rust_dependencies := None |};
     ProjectAnalyzer.listdir := fun _ => Return ["package.json"; "index.html"] |}.



End DeploymentSpec.
